(** * txtorcon: the configuration mirror and the live-state mirror

    A shallow embedding of [txtorcon/torconfig.py] and
    [txtorcon/torstate.py].  Python dictionaries are association lists in
    insertion order (the iteration order of a Python 2 [dict] is
    unspecified; the model fixes one), objects that the code shares and
    mutates ([_ListWrapper], [Router]) live in a store and are named by
    their index, and every operation that can raise returns a [result]. *)

From Stdlib Require Import String Ascii List ZArith Bool Lia.
From Stdlib Require Import DecimalString DecimalZ.
Import ListNotations.
Open Scope string_scope.
Set Warnings "-register-all".

(** ** Python values the two modules rely on *)

Inductive exn : Type :=
| KeyError (key : string)
| ValueError (msg : string)
| TypeError
| AttributeError
| IndexError
| RuntimeError (msg : string).

Inductive result (A : Type) : Type :=
| Ok (a : A)
| Raise (e : exn).
Arguments Ok {A} a.
Arguments Raise {A} e.

Module Py.

(** [str.lower] on one byte. *)
Definition lower_ascii (c : ascii) : ascii :=
  let n := nat_of_ascii c in
  if andb (Nat.leb 65 n) (Nat.leb n 90) then ascii_of_nat (n + 32) else c.

Fixpoint lower (s : string) : string :=
  match s with
  | EmptyString => EmptyString
  | String c s' => String (lower_ascii c) (lower s')
  end.

(** The characters [str.split()] and [str.strip()] treat as blank. *)
Definition is_space (c : ascii) : bool :=
  let n := nat_of_ascii c in
  orb (Nat.eqb n 32) (andb (Nat.leb 9 n) (Nat.leb n 13)).

Fixpoint lstrip (s : string) : string :=
  match s with
  | EmptyString => EmptyString
  | String c s' => if is_space c then lstrip s' else s
  end.

Fixpoint rev_string (s acc : string) : string :=
  match s with
  | EmptyString => acc
  | String c s' => rev_string s' (String c acc)
  end.

Definition rstrip (s : string) : string :=
  rev_string (lstrip (rev_string s "")) "".

Definition strip (s : string) : string := rstrip (lstrip s).

(** [s.split()]: the maximal runs of non-blank characters.  [cur] is the
    run being read, in reverse. *)
Fixpoint split_ws_aux (s cur : string) : list string :=
  match s with
  | EmptyString =>
      match cur with
      | EmptyString => []
      | _ => [rev_string cur ""]
      end
  | String c s' =>
      if is_space c then
        match cur with
        | EmptyString => split_ws_aux s' ""
        | _ => rev_string cur "" :: split_ws_aux s' ""
        end
      else split_ws_aux s' (String c cur)
  end.

Definition split (s : string) : list string := split_ws_aux s "".

(** [s.split(sep)] for a one-character separator. *)
Fixpoint split_on_aux (sep : ascii) (s cur : string) : list string :=
  match s with
  | EmptyString => [rev_string cur ""]
  | String c s' =>
      if Ascii.eqb c sep then rev_string cur "" :: split_on_aux sep s' ""
      else split_on_aux sep s' (String c cur)
  end.

Definition split_on (sep : ascii) (s : string) : list string :=
  split_on_aux sep s "".

(** [s[:n]] and [s[n:]] for a non-negative [n]. *)
Definition take (n : nat) (s : string) : string := substring 0 n s.

Fixpoint drop (n : nat) (s : string) : string :=
  match n, s with
  | O, _ => s
  | S n', String _ s' => drop n' s'
  | S _, EmptyString => EmptyString
  end.

(** [sub in s]. *)
Fixpoint contains (sub s : string) : bool :=
  if prefix sub s then true
  else match s with
       | EmptyString => false
       | String _ s' => contains sub s'
       end.

(** [s.endswith(suffix)]. *)
Definition endswith (suffix s : string) : bool :=
  prefix (rev_string suffix "") (rev_string s "").

Definition is_digit (c : ascii) : bool :=
  let n := nat_of_ascii c in andb (Nat.leb 48 n) (Nat.leb n 57).

(** [int(s)] on a string: blanks around an optionally signed run of
    decimal digits; [None] stands for the [ValueError]. *)
Definition int (s : string) : option Z :=
  match strip s with
  | EmptyString => None
  | String c rest =>
      if Ascii.eqb c "+"%char then
        match rest with
        | String d _ =>
            if Ascii.eqb d "-"%char then None
            else option_map Z.of_int (NilZero.int_of_string rest)
        | EmptyString => None
        end
      else option_map Z.of_int (NilZero.int_of_string (String c rest))
  end.

(** ["%d" % n]. *)
Definition fmt_d (n : Z) : string := NilZero.string_of_int (Z.to_int n).

Fixpoint join (sep : string) (l : list string) : string :=
  match l with
  | [] => ""
  | [x] => x
  | x :: rest => x ++ sep ++ join sep rest
  end.

(** Every character of [s] satisfies [p]. *)
Fixpoint all_chars (p : ascii -> bool) (s : string) : bool :=
  match s with
  | EmptyString => true
  | String c s' => p c && all_chars p s'
  end.

(** The characters ["%d"] prints. *)
Definition is_sign_or_digit (c : ascii) : bool :=
  is_digit c || Ascii.eqb c "-"%char.

End Py.

(** ** Dictionaries

  Keys are strings.  [set] keeps the position of a key that is already
  there and appends a new one, so [items] lists entries in insertion
  order. *)
Module dict.
Section Dict.
Context {V : Type}.

Definition t : Type := list (string * V).

Definition empty : t := [].

Fixpoint get (d : t) (k : string) : option V :=
  match d with
  | [] => None
  | (k', v) :: d' => if String.eqb k' k then Some v else get d' k
  end.

Definition mem (d : t) (k : string) : bool :=
  match get d k with
  | Some _ => true
  | None => false
  end.

Fixpoint set (d : t) (k : string) (v : V) : t :=
  match d with
  | [] => [(k, v)]
  | (k', v') :: d' =>
      if String.eqb k' k then (k', v) :: d' else (k', v') :: set d' k v
  end.

Fixpoint del (d : t) (k : string) : t :=
  match d with
  | [] => []
  | (k', v') :: d' =>
      if String.eqb k' k then d' else (k', v') :: del d' k
  end.

Definition keys (d : t) : list string := map fst d.
Definition values (d : t) : list V := map snd d.
Definition items (d : t) : list (string * V) := d.
Definition len (d : t) : nat := length d.
End Dict.
Arguments t V : clear implicits.
End dict.


(** ** torconfig.py *)
Module torconfig.

(** The parser classes of [config_types] ([TimeType] and [StringType] are
    the classes [Time] and [String]). *)
Inductive TorConfigType : Type :=
| Boolean
| Boolean_Auto
| Integer
| SignedInteger
| Port
| TimeInterval
| TimeMsecInterval
| DataSize
| Float
| TimeType
| CommaList
| TimeIntervalCommaList
| RouterList
| StringType
| Filename
| LineList.

(** [HiddenService]: the fields [config_attributes] reads. *)
Record HiddenService : Type := mkHiddenService {
  dir : string;
  ports : list string;
  authorize_client : option string;
  version : option Z;
  group_readable : Z
}.

(** What an option can hold.  A [_ListWrapper] is an object: the maps
    hold a reference to it, and two entries may hold the same one. *)
Inductive value : Type :=
| VNone
| VBool (b : bool)
| VInt (n : Z)
| VStr (s : string)
| VList (xs : list value)
| VWrapper (r : nat)
| VHiddenService (hs : HiddenService).

(** [_ListWrapper(thelist, on_modify_cb)].  Every callback the module
    binds is [functools.partial(config.mark_unsaved, name)], so the object
    keeps the name. *)
Record _ListWrapper : Type := mkListWrapper {
  items : list value;
  on_modify : string
}.

(** A [TorConfig] after its constructor has run.  [_protocol] says whether
    a protocol is bound, [_slutty_] whether that key is in [__dict__];
    [heap] is the store of the wrappers the maps refer to. *)
Record TorConfig : Type := mkTorConfig {
  config : dict.t value;
  unsaved : dict.t value;
  parsers : dict.t TorConfigType;
  list_parsers : list string;
  _supports : bool;
  _protocol : bool;
  _slutty_ : bool;
  heap : list _ListWrapper
}.

Definition set_config (self : TorConfig) (d : dict.t value) : TorConfig :=
  mkTorConfig d (unsaved self) (parsers self) (list_parsers self)
    (_supports self) (_protocol self) (_slutty_ self) (heap self).

Definition set_unsaved (self : TorConfig) (d : dict.t value) : TorConfig :=
  mkTorConfig (config self) d (parsers self) (list_parsers self)
    (_supports self) (_protocol self) (_slutty_ self) (heap self).

Definition set_heap (self : TorConfig) (h : list _ListWrapper) : TorConfig :=
  mkTorConfig (config self) (unsaved self) (parsers self) (list_parsers self)
    (_supports self) (_protocol self) (_slutty_ self) h.

Definition set_protocol (self : TorConfig) (p s : bool) : TorConfig :=
  mkTorConfig (config self) (unsaved self) (parsers self) (list_parsers self)
    (_supports self) p s (heap self).

(** [TorConfig.__init__(control)], before any bootstrap reply. *)
Definition __init__ (control : bool) : TorConfig :=
  mkTorConfig dict.empty dict.empty dict.empty ["hiddenservices"] false
    control (negb control) [].

(** [isinstance(v, types.ListType)], with the elements when it holds. *)
Definition as_list (self : TorConfig) (v : value) : option (list value) :=
  match v with
  | VList xs => Some xs
  | VWrapper r => option_map items (nth_error (heap self) r)
  | _ => None
  end.

(** [_ListWrapper(thelist, cb)]: a new object holding a copy of the
    elements. *)
Definition new_ListWrapper (self : TorConfig) (thelist : list value)
    (on_modify_cb : string) : TorConfig * value :=
  (set_heap self (heap self ++ [mkListWrapper thelist on_modify_cb]),
   VWrapper (length (heap self))).

Definition _find_real_name (self : TorConfig) (name : string) : string :=
  match find (fun x => String.eqb (Py.lower x) (Py.lower name))
             (dict.keys (parsers self) ++ dict.keys (config self)) with
  | Some x => x
  | None => name
  end.

(** [TorConfigType.validate] and its one override, [LineList.validate]. *)
Definition validate (t : TorConfigType) (obj : value) (instance : TorConfig)
    (name : string) : TorConfig * result value :=
  match t with
  | LineList =>
      match as_list instance obj with
      | None => (instance, Raise (ValueError "Not valid for LineList"))
      | Some xs =>
          let (instance', w) := new_ListWrapper instance xs name in
          (instance', Ok w)
      end
  | _ => (instance, Ok obj)
  end.

Definition is_hidden_services (s : string) : bool :=
  String.eqb (Py.lower s) "hiddenservices".

Definition __setattr__ (self : TorConfig) (name : string) (v : value)
    : TorConfig * result unit :=
  let name := _find_real_name self name in
  let validated :=
    if andb (negb (_slutty_ self)) (negb (is_hidden_services name)) then
      match dict.get (parsers self) name with
      | None => (self, Raise (KeyError name))
      | Some p => validate p v self name
      end
    else (self, Ok v) in
  match validated with
  | (self1, Raise e) => (self1, Raise e)
  | (self1, Ok v1) =>
      let (self2, v2) :=
        match as_list self1 v1 with
        | Some xs => new_ListWrapper self1 xs name
        | None => (self1, v1)
        end in
      let name := _find_real_name self2 name in
      (set_unsaved self2 (dict.set (unsaved self2) name v2), Ok tt)
  end.

Definition _maybe_create_listwrapper (self : TorConfig) (rn : string)
    : TorConfig :=
  if andb (existsb (String.eqb (Py.lower rn)) (list_parsers self))
          (negb (dict.mem (config self) rn))
  then
    let (self1, w) := new_ListWrapper self [] rn in
    set_config self1 (dict.set (config self1) rn w)
  else self.

(** [__getattr__] is what Python calls for a name that is no attribute
    of the object, which every option name is. *)
Definition __getattr__ (self : TorConfig) (name : string)
    : TorConfig * result value :=
  let rn := _find_real_name self name in
  match (if _slutty_ self then dict.get (unsaved self) rn else None) with
  | Some v => (self, Ok v)
  | None =>
      let self1 := _maybe_create_listwrapper self rn in
      match dict.get (config self1) rn with
      | Some v => (self1, Ok v)
      | None => (self1, Raise (KeyError rn))
      end
  end.

Definition needs_save (self : TorConfig) : bool :=
  Nat.ltb 0 (dict.len (unsaved self)).

Definition mark_unsaved (self : TorConfig) (name : string)
    : result TorConfig :=
  let name := _find_real_name self name in
  if andb (dict.mem (config self) name) (negb (dict.mem (unsaved self) name))
  then
    match dict.get (config self) (_find_real_name self name) with
    | Some v => Ok (set_unsaved self (dict.set (unsaved self) name v))
    | None => Raise (KeyError (_find_real_name self name))
    end
  else Ok self.

Definition _save_completed (self : TorConfig) : TorConfig :=
  set_unsaved self dict.empty.

(** [HiddenService.config_attributes], given
    [conf._supports['HiddenServiceDirGroupReadable']]. *)
Definition config_attributes (supports : bool) (hs : HiddenService)
    : list (string * string) :=
  [("HiddenServiceDir", dir hs)]
  ++ (if andb supports (negb (Z.eqb (group_readable hs) 0))
      then [("HiddenServiceDirGroupReadable", "1")] else [])
  ++ map (fun x => ("HiddenServicePort", x)) (ports hs)
  ++ match version hs with
     | Some n => if Z.eqb n 0 then [] else [("HiddenServiceVersion", Py.fmt_d n)]
     | None => []
     end
  ++ match authorize_client hs with
     | Some a =>
         if String.eqb a "" then [] else [("HiddenServiceAuthorizeClient", a)]
     | None => []
     end.

(** [for x in v]: the elements, or the error of iterating [v]. *)
Definition iterate (self : TorConfig) (v : value) : result (list value) :=
  match v with
  | VList xs => Ok xs
  | VWrapper r =>
      match nth_error (heap self) r with
      | Some w => Ok (items w)
      | None => Raise AttributeError
      end
  | VStr s => Ok (map (fun c => VStr (String c "")) (list_ascii_of_string s))
  | _ => Raise TypeError
  end.

(** The inner loops of the [HiddenServices] branch of [save]. *)
Fixpoint hidden_service_args (supports : bool) (xs : list value)
    : result (list value) :=
  match xs with
  | [] => Ok []
  | VHiddenService hs :: rest =>
      match hidden_service_args supports rest with
      | Ok more =>
          Ok (flat_map (fun kv => [VStr (fst kv); VStr (snd kv)])
                (config_attributes supports hs) ++ more)%list
      | Raise e => Raise e
      end
  | _ :: _ => Raise AttributeError
  end.

(** Two states with the same committed map, parsers and mode. *)
Definition same_committed (a b : TorConfig) : Prop :=
  config a = config b /\ parsers a = parsers b
  /\ _slutty_ a = _slutty_ b /\ list_parsers a = list_parsers b.

Section Builtins.

(** The builtin [str] on a stored value, and the control protocol's
    [parse_keywords] (both outside this module). *)
Variable str : value -> string.
Variable parse_keywords : string -> dict.t value.

(** The loop of [save] over [self.unsaved.items()]. *)
Fixpoint save_loop (self : TorConfig) (its : list (string * value))
    (args : list value) : TorConfig * result (list value) :=
  match its with
  | [] => (self, Ok args)
  | (key, v) :: rest =>
      if String.eqb key "HiddenServices" then
        let self1 := set_config self (dict.set (config self) "HiddenServices" v) in
        match iterate self1 v with
        | Raise e => (self1, Raise e)
        | Ok xs =>
            match hidden_service_args (_supports self1) xs with
            | Raise e => (self1, Raise e)
            | Ok more => save_loop self1 rest (args ++ more)%list
            end
        end
      else
        let args1 :=
          match as_list self v with
          | Some xs => (args ++ flat_map (fun x => [VStr key; VStr (str x)]) xs)%list
          | None => (args ++ [VStr key; v])%list
          end in
        save_loop
          (set_config self (dict.set (config self) (_find_real_name self key) v))
          rest args1
  end.

(** What the [Deferred] returned by [save] does: fire its callbacks with
    the config, or its errbacks. *)
Inductive SaveDeferred : Type :=
| callback
| errback.

(** [save]; [set_conf] is the daemon's answer to [SETCONF args]: [true]
    for [250 OK], [false] for a refusal, which fires the errback and so
    skips [_save_completed]. *)
Definition save (set_conf : list value -> bool) (self : TorConfig)
    : TorConfig * result SaveDeferred :=
  if negb (needs_save self) then (self, Ok callback)
  else
    match save_loop self (dict.items (unsaved self)) [] with
    | (self1, Raise e) => (self1, Raise e)
    | (self1, Ok args) =>
        if _protocol self1 then
          if set_conf args then (_save_completed self1, Ok callback)
          else (self1, Ok errback)
        else (_save_completed self1, Ok callback)
    end.

(** The body of the loop of [_conf_changed], and the loop over the parsed
    pairs. *)
Definition conf_changed_step (self : TorConfig) (k : string) (v : value)
    : TorConfig :=
  set_config self (dict.set (config self) (_find_real_name self k) v).

Fixpoint conf_changed_loop (self : TorConfig) (its : list (string * value))
    : TorConfig :=
  match its with
  | [] => self
  | (k, v) :: rest => conf_changed_loop (conf_changed_step self k v) rest
  end.

Definition _conf_changed (self : TorConfig) (arg : string) : TorConfig :=
  conf_changed_loop self (dict.items (parse_keywords arg)).

(** [attach_protocol]; the detached [save] it starts with sends nothing. *)
Definition attach_protocol (self : TorConfig) : TorConfig * result unit :=
  if _protocol self then (self, Raise (RuntimeError "Already have a protocol."))
  else
    match save (fun _ => true) self with
    | (self1, Raise e) => (self1, Raise e)
    | (self1, Ok _) =>
        if _slutty_ self1 then (set_protocol self1 true false, Ok tt)
        else (set_protocol self1 true false, Raise (KeyError "_slutty_"))
    end.

Definition _update_proto (self : TorConfig) : TorConfig :=
  set_protocol self true (_slutty_ self).

End Builtins.

(** *** The change-tracking list *)

(** The methods of the builtin [list] that change it, with their
    arguments. *)
Inductive list_method : Type :=
| __setitem__ (i : Z) (v : value)
| __setslice__ (i j : Z) (vs : list value)
| __delitem__ (i : Z)
| __delslice__ (i j : Z)
| __iadd__ (vs : list value)
| __imul__ (n : Z)
| append (v : value)
| extend (vs : list value)
| insert (i : Z) (v : value)
| remove (v : value)
| pop (i : option Z)
| reverse
| sort.

(** The methods the class body passes through [_wrapture]. *)
Definition wraptured (m : list_method) : bool :=
  match m with
  | __setitem__ _ _ | __setslice__ _ _ _ | append _ | extend _
  | insert _ _ | remove _ | pop _ => true
  | _ => false
  end.

Section ListWrapper.

(** The builtin [list]: what a method makes of the elements and what it
    returns, or the exception it raises. *)
Variable list_call : list_method -> list value -> result (list value * value).

Fixpoint replace_nth {A : Type} (n : nat) (x : A) (l : list A) : list A :=
  match n, l with
  | _, [] => []
  | O, _ :: l' => x :: l'
  | S n', y :: l' => y :: replace_nth n' x l'
  end.

(** The call of the unbound method [orig] of [list] on the wrapper [obj]
    (the first of the arguments [foo] passes on). *)
Definition orig_call (orig : list_method) (obj : nat) (self : TorConfig)
    : TorConfig * result value :=
  match nth_error (heap self) obj with
  | None => (self, Raise AttributeError)
  | Some w =>
      match list_call orig (items w) with
      | Raise e => (self, Raise e)
      | Ok (xs, ret) =>
          (set_heap self
             (replace_nth obj (mkListWrapper xs (on_modify w)) (heap self)),
           Ok ret)
      end
  end.

(** [obj.on_modify()]. *)
Definition call_on_modify (obj : nat) (self : TorConfig) : result TorConfig :=
  match nth_error (heap self) obj with
  | None => Raise AttributeError
  | Some w => mark_unsaved self (on_modify w)
  end.

(** [_wrapture(orig)]: the method [foo] it returns. *)
Definition _wrapture (orig : list_method) (obj : nat) (self : TorConfig)
    : TorConfig * result value :=
  match call_on_modify obj self with
  | Raise e => (self, Raise e)
  | Ok self1 => orig_call orig obj self1
  end.

(** Method lookup on a [_ListWrapper]: the seven names the class body
    rebinds through [_wrapture], and [list]'s own method for the rest. *)
Definition _ListWrapper_method (m : list_method) (obj : nat)
    (self : TorConfig) : TorConfig * result value :=
  match m with
  | __setitem__ _ _ => _wrapture m obj self
  | __setslice__ _ _ _ => _wrapture m obj self
  | append _ => _wrapture m obj self
  | extend _ => _wrapture m obj self
  | insert _ _ => _wrapture m obj self
  | remove _ => _wrapture m obj self
  | pop _ => _wrapture m obj self
  | __delitem__ _ => orig_call m obj self
  | __delslice__ _ _ => orig_call m obj self
  | __iadd__ _ => orig_call m obj self
  | __imul__ _ => orig_call m obj self
  | reverse => orig_call m obj self
  | sort => orig_call m obj self
  end.

(** A run of method calls on one handle; a call that raises is caught by
    the caller and the run goes on. *)
Fixpoint call_all (ms : list list_method) (obj : nat) (self : TorConfig)
    : TorConfig :=
  match ms with
  | [] => self
  | m :: rest => call_all rest obj (fst (_ListWrapper_method m obj self))
  end.

End ListWrapper.

(** *** Parsers, the torrc and the hidden-service reply *)

Definition rbind {A B : Type} (x : result A) (f : A -> result B) : result B :=
  match x with
  | Ok a => f a
  | Raise e => Raise e
  end.

(** [int(s)] with its [ValueError]. *)
Definition int_of (s : string) : result Z :=
  match Py.int s with
  | Some n => Ok n
  | None => Raise (ValueError "invalid literal for int()")
  end.

(** [Boolean.parse]. *)
Definition Boolean_parse (s : string) : result bool :=
  rbind (int_of s) (fun n => Ok (negb (Z.eqb n 0))).

(** [Boolean_Auto.parse]: [-1] is [auto]. *)
Definition Boolean_Auto_parse (s : string) : result Z :=
  if String.eqb s "auto" then Ok (-1)%Z
  else
    rbind (int_of s) (fun n =>
      if Z.ltb n 0 then Ok (-1)%Z
      else if negb (Z.eqb n 0) then Ok 1%Z else Ok 0%Z).

(** [Integer.parse], inherited by [SignedInteger], [Port], [TimeInterval]
    and [DataSize]. *)
Definition Integer_parse (s : string) : result Z := int_of s.

(** [CommaList.parse], inherited by [RouterList] and
    [TimeIntervalCommaList]. *)
Definition CommaList_parse (s : string) : list string :=
  map Py.strip (Py.split_on ","%char s).

Definition LF : ascii := ascii_of_nat 10.

(** [LineList.parse] on a string. *)
Definition LineList_parse (s : string) : list string :=
  map Py.strip (Py.split_on LF s).

(** [HiddenService(config, thedir, ports, auth, ver, group_readable)].
    [HiddenService.__setattr__] calls [config.mark_unsaved('HiddenServices')]
    for each of the watched names [__init__] assigns, in this order: [dir],
    [version], [authorize_client] and [ports]. *)
Definition HiddenService_init (self : TorConfig) (thedir : string)
    (ports : list string) (auth : option string) (ver : option Z)
    (group_readable : Z) : TorConfig * result HiddenService :=
  match mark_unsaved self "HiddenServices" with
  | Raise e => (self, Raise e)
  | Ok self1 =>
      match mark_unsaved self1 "HiddenServices" with
      | Raise e => (self1, Raise e)
      | Ok self2 =>
          match mark_unsaved self2 "HiddenServices" with
          | Raise e => (self2, Raise e)
          | Ok self3 =>
              match mark_unsaved self3 "HiddenServices" with
              | Raise e => (self3, Raise e)
              | Ok self4 =>
                  (self4,
                   Ok (mkHiddenService thedir ports auth ver group_readable))
              end
          end
      end
  end.

(** What [_setup_hidden_services] keeps between lines: the records made so
    far and the fields of the one being read. *)
Record hs_reader : Type := mkReader {
  read_hs : list HiddenService;
  read_directory : option string;
  read_ports : list string;
  read_ver : option Z;
  read_auth : option string;
  read_group_read : Z
}.

(** [hs.append(HiddenService(self, directory, ports, auth, ver,
    group_read))], when there is a directory. *)
Definition reader_flush (st : hs_reader) (self : TorConfig)
    : TorConfig * result (list HiddenService) :=
  match read_directory st with
  | Some d =>
      match HiddenService_init self d (read_ports st) (read_auth st)
              (read_ver st) (read_group_read st) with
      | (self1, Ok h) => (self1, Ok (read_hs st ++ [h])%list)
      | (self1, Raise e) => (self1, Raise e)
      end
  | None => (self, Ok (read_hs st))
  end.

(** The body of the loop of [_setup_hidden_services] for one line. *)
Definition hs_reader_line (line : string) (st : hs_reader) (self : TorConfig)
    : TorConfig * result hs_reader :=
  if Nat.eqb (String.length (Py.strip line)) 0 then (self, Ok st)
  else if String.eqb line "HiddenServiceOptions" then (self, Ok st)
  else
    match Py.split_on "="%char line with
    | [k; v] =>
        if String.eqb k "HiddenServiceDir" then
          match reader_flush st self with
          | (self1, Ok hs) => (self1, Ok (mkReader hs (Some v) [] None None 0))
          | (self1, Raise e) => (self1, Raise e)
          end
        else if String.eqb k "HiddenServicePort" then
          (self,
           Ok (mkReader (read_hs st) (read_directory st)
                 (read_ports st ++ [v])%list (read_ver st) (read_auth st)
                 (read_group_read st)))
        else if String.eqb k "HiddenServiceVersion" then
          (self,
           rbind (int_of v) (fun n =>
             Ok (mkReader (read_hs st) (read_directory st) (read_ports st)
                   (Some n) (read_auth st) (read_group_read st))))
        else if String.eqb k "HiddenServiceAuthorizeClient" then
          (self,
           Ok (mkReader (read_hs st) (read_directory st) (read_ports st)
                 (read_ver st) (Some v) (read_group_read st)))
        else if String.eqb k "HiddenServiceDirGroupReadable" then
          (self,
           rbind (int_of v) (fun n =>
             Ok (mkReader (read_hs st) (read_directory st) (read_ports st)
                   (read_ver st) (read_auth st) n)))
        else
          (self, Raise (RuntimeError ("Can't parse HiddenServiceOptions: " ++ k)))
    | _ => (self, Raise (ValueError "need exactly 2 values to unpack"))
    end.

Fixpoint hs_reader_lines (lines : list string) (st : hs_reader)
    (self : TorConfig) : TorConfig * result hs_reader :=
  match lines with
  | [] => (self, Ok st)
  | line :: rest =>
      match hs_reader_line line st self with
      | (self1, Ok st1) => hs_reader_lines rest st1 self1
      | (self1, Raise e) => (self1, Raise e)
      end
  end.

(** [_setup_hidden_services(servicelines)].  [group_read] has no value
    before the first line that sets it and is not read before then; the
    reader starts it at 0. *)
Definition _setup_hidden_services (self : TorConfig) (servicelines : string)
    : TorConfig * result unit :=
  match hs_reader_lines (Py.split_on LF servicelines)
          (mkReader [] None [] None None 0) self with
  | (self1, Raise e) => (self1, Raise e)
  | (self1, Ok st) =>
      match reader_flush st self1 with
      | (self2, Raise e) => (self2, Raise e)
      | (self2, Ok hs) =>
          let (self3, w) :=
            new_ListWrapper self2 (map VHiddenService hs) "HiddenServices" in
          (set_config self3 (dict.set (config self3) "HiddenServices" w),
           Ok tt)
      end
  end.

(** The [GETCONF HiddenServiceOptions] lines that say what
    [config_attributes] says: one [key=value] line per pair. *)
Definition getconf_lines (supports : bool) (hss : list HiddenService)
    : list string :=
  map (fun kv => fst kv ++ "=" ++ snd kv)
    (flat_map (config_attributes supports) hss).

(** A character that is neither [=] nor a newline, and a record whose
    fields [config_attributes] writes in full on lines of such
    characters: a version that is not 0, a client authorization that is
    not empty, and a group-readable flag that is 0, or 1 where the option
    is supported. *)
Definition plain_char (c : ascii) : bool :=
  negb (Ascii.eqb c "="%char) && negb (Ascii.eqb c LF).

Definition written_in_full (supports : bool) (hs : HiddenService) : bool :=
  Py.all_chars plain_char (dir hs)
  && forallb (Py.all_chars plain_char) (ports hs)
  && match version hs with
     | Some n => negb (Z.eqb n 0)
     | None => true
     end
  && match authorize_client hs with
     | Some a => negb (String.eqb a "") && Py.all_chars plain_char a
     | None => true
     end
  && (Z.eqb (group_readable hs) 0
      || (supports && Z.eqb (group_readable hs) 1)).

Section Torrc.

Variable str : value -> string.

(** ['%s %s\n' % (k, v)]. *)
Definition torrc_line (k v : string) : string :=
  k ++ " " ++ v ++ String LF "".

(** The lines [create_torrc] writes for the hidden services in a
    wrapper. *)
Fixpoint torrc_hidden (supports : bool) (xs : list value) : result string :=
  match xs with
  | [] => Ok ""
  | VHiddenService hs :: rest =>
      rbind (torrc_hidden supports rest) (fun more =>
        Ok (String.concat ""
              (map (fun kv => torrc_line (fst kv) (snd kv))
                 (config_attributes supports hs)) ++ more))
  | _ :: _ => Raise AttributeError
  end.

(** What the loop of [create_torrc] writes for one entry. *)
Definition torrc_entry (self : TorConfig) (k : string) (v : value)
    : result string :=
  match v with
  | VWrapper r =>
      match nth_error (heap self) r with
      | None => Raise AttributeError
      | Some w =>
          if is_hidden_services k then torrc_hidden (_supports self) (items w)
          else Ok (String.concat ""
                     (map (fun x => torrc_line k (str x)) (items w)))
      end
  | _ => Ok (torrc_line k (str v))
  end.

Fixpoint torrc_entries (self : TorConfig) (its : list (string * value))
    : result string :=
  match its with
  | [] => Ok ""
  | (k, v) :: rest =>
      rbind (torrc_entry self k v) (fun here =>
      rbind (torrc_entries self rest) (fun more => Ok (here ++ more)))
  end.

Definition create_torrc (self : TorConfig) : result string :=
  torrc_entries self (dict.items (config self) ++ dict.items (unsaved self))%list.

End Torrc.

(** The committed key [save] writes a staged key to. *)
Definition committed_name (self : TorConfig) (key : string) : string :=
  if String.eqb key "HiddenServices" then "HiddenServices"
  else _find_real_name self key.

(** The [SETCONF] arguments [save] makes of one staged entry that is not
    [HiddenServices]: the key before every element of a list, the key and
    the value otherwise. *)
Definition staged_args (str : value -> string) (self : TorConfig)
    (kv : string * value) : list value :=
  match as_list self (snd kv) with
  | Some xs => flat_map (fun x => [VStr (fst kv); VStr (str x)]) xs
  | None => [VStr (fst kv); snd kv]
  end.

(** *** The bootstrap *)

Definition set_parsers (self : TorConfig) (d : dict.t TorConfigType)
    : TorConfig :=
  mkTorConfig (config self) (unsaved self) d (list_parsers self)
    (_supports self) (_protocol self) (_slutty_ self) (heap self).

Definition set_list_parsers (self : TorConfig) (l : list string) : TorConfig :=
  mkTorConfig (config self) (unsaved self) (parsers self) l
    (_supports self) (_protocol self) (_slutty_ self) (heap self).

Definition set__supports (self : TorConfig) (b : bool) : TorConfig :=
  mkTorConfig (config self) (unsaved self) (parsers self) (list_parsers self)
    b (_protocol self) (_slutty_ self) (heap self).

(** [value.replace('+', '_')]. *)
Fixpoint replace_plus (s : string) : string :=
  match s with
  | EmptyString => EmptyString
  | String c s' =>
      String (if Ascii.eqb c "+"%char then "_"%char else c) (replace_plus s')
  end.

(** The class of [config_types] whose [__name__] is [s]. *)
Definition config_type_named (s : string) : option TorConfigType :=
  if String.eqb s "Boolean" then Some Boolean
  else if String.eqb s "Boolean_Auto" then Some Boolean_Auto
  else if String.eqb s "LineList" then Some LineList
  else if String.eqb s "Integer" then Some Integer
  else if String.eqb s "SignedInteger" then Some SignedInteger
  else if String.eqb s "Port" then Some Port
  else if String.eqb s "TimeInterval" then Some TimeInterval
  else if String.eqb s "TimeMsecInterval" then Some TimeMsecInterval
  else if String.eqb s "DataSize" then Some DataSize
  else if String.eqb s "Float" then Some Float
  else if String.eqb s "Time" then Some TimeType
  else if String.eqb s "CommaList" then Some CommaList
  else if String.eqb s "String" then Some StringType
  else if String.eqb s "Filename" then Some Filename
  else if String.eqb s "RouterList" then Some RouterList
  else if String.eqb s "TimeIntervalCommaList" then Some TimeIntervalCommaList
  else None.

(** [is_list_config_type]: the classes with [List] in their name. *)
Definition is_list_config_type (t : TorConfigType) : bool :=
  match t with
  | CommaList | TimeIntervalCommaList | RouterList | LineList => true
  | _ => false
  end.

(** [int(s)] on a stored value. *)
Definition int_of_value (s : value) : result Z :=
  match s with
  | VStr x => int_of x
  | VInt n => Ok n
  | VBool b => Ok (if b then 1 else 0)%Z
  | _ => Raise TypeError
  end.

(** [self.list_parsers.add(rn)], on a set of names kept as a list. *)
Definition name_add (x : string) (l : list string) : list string :=
  if existsb (String.eqb x) l then l else (l ++ [x])%list.

Section Bootstrap.

(** From outside the module: the builtins [str] and [float], and the
    replies of the control protocol to [GETCONF name] (the value under
    [name], or the exception) and to [GETCONF HiddenServiceOptions]. *)
Variable str : value -> string.
Variable float : value -> result value.
Variable get_conf : string -> result value.
Variable hidden_service_options : string.

(** [parse] of each class, on what [get_conf] answered. *)
Definition parse (t : TorConfigType) (self : TorConfig) (s : value)
    : result value :=
  match t with
  | Boolean =>
      rbind (int_of_value s) (fun n => Ok (VBool (negb (Z.eqb n 0))))
  | Boolean_Auto =>
      match s with
      | VStr x => rbind (Boolean_Auto_parse x) (fun n => Ok (VInt n))
      | _ =>
          rbind (int_of_value s) (fun n =>
            Ok (VInt (if Z.ltb n 0 then (-1)%Z
                      else if negb (Z.eqb n 0) then 1%Z else 0%Z)))
      end
  | Integer | SignedInteger | Port | TimeInterval | DataSize =>
      rbind (int_of_value s) (fun n => Ok (VInt n))
  | Float => float s
  | CommaList | TimeIntervalCommaList | RouterList =>
      match s with
      | VStr x => Ok (VList (map VStr (CommaList_parse x)))
      | _ => Raise AttributeError
      end
  | LineList =>
      match as_list self s with
      | Some xs => Ok (VList (map (fun x => VStr (str x)) xs))
      | None =>
          match s with
          | VStr x => Ok (VList (map VStr (LineList_parse x)))
          | _ => Raise AttributeError
          end
      end
  | TimeMsecInterval | TimeType | StringType | Filename => Ok s
  end.

(** The body of the loop of [_do_setup] for one line of the reply to
    [GETINFO config/names]. *)
Definition _do_setup_line (line : string) (self : TorConfig)
    : TorConfig * result unit :=
  if String.eqb line "config/names=" then (self, Ok tt)
  else
    match Py.split line with
    | [name; value] =>
        let self :=
          if String.eqb name "HiddenServiceDirGroupReadable"
          then set__supports self true else self in
        if String.eqb name "HiddenServiceOptions" then
          _setup_hidden_services self hidden_service_options
        else if String.eqb value "Dependant" then (self, Ok tt)
        else
          match config_type_named (replace_plus value) with
          | None =>
              (self,
               Raise (RuntimeError
                        ("Don't have a parser for: " ++ replace_plus value)))
          | Some inst =>
              match get_conf name with
              | Raise e => (self, Raise e)
              | Ok v =>
                  let rn := _find_real_name self name in
                  let self :=
                    set_parsers self (dict.set (parsers self) rn inst) in
                  if is_list_config_type inst then
                    let self :=
                      set_list_parsers self (name_add rn (list_parsers self)) in
                    match parse inst self v with
                    | Raise e => (self, Raise e)
                    | Ok parsed =>
                        match iterate self parsed with
                        | Raise e => (self, Raise e)
                        | Ok xs =>
                            let (self1, w) := new_ListWrapper self xs rn in
                            (set_config self1 (dict.set (config self1) rn w),
                             Ok tt)
                        end
                    end
                  else
                    match parse inst self v with
                    | Raise e => (self, Raise e)
                    | Ok parsed =>
                        (set_config self (dict.set (config self) rn parsed),
                         Ok tt)
                    end
              end
          end
    | _ => (self, Raise (ValueError "need exactly 2 values to unpack"))
    end.

Fixpoint _do_setup_lines (lines : list string) (self : TorConfig)
    : TorConfig * result unit :=
  match lines with
  | [] => (self, Ok tt)
  | line :: rest =>
      match _do_setup_line line self with
      | (self1, Ok _) => _do_setup_lines rest self1
      | (self1, Raise e) => (self1, Raise e)
      end
  end.

Definition _do_setup (data : string) (self : TorConfig)
    : TorConfig * result unit :=
  _do_setup_lines (Py.split_on LF data) self.

End Bootstrap.

(** An option line of the reply to [GETINFO config/names]: a name and a
    type, other than the header, the hidden services and the options Tor
    calls [Dependant]. *)
Definition option_line (line name : string) : Prop :=
  line <> "config/names="
  /\ name <> "HiddenServiceOptions"
  /\ exists type, Py.split line = [name; type] /\ type <> "Dependant".

End torconfig.

(** ** torstate.py *)
Module torstate.

(** *** Collaborators that are not part of this module *)

(** Modelled from the spec: [Router] (router.py) is not in src/.  The spec
    lists what the consensus parser sets on it: nickname, identity digest,
    descriptor digest, publication time, IPv4 address, ORPort, DirPort, the
    IPv6 addresses, the flag set, the measured bandwidth and the exit
    policy; [id_hex] is the 40-hex fingerprint with a leading [$]. *)
Record Router : Type := mkRouter {
  name : string;
  id_hash : string;
  or_hash : string;
  modified : Z;
  ip : string;
  or_port : string;
  dir_port : string;
  id_hex : string;
  flags : list string;
  ip_v6 : list string;
  bandwidth : Z;
  policy : list string;
  from_consensus : bool
}.

(** [Router(protocol)]: nothing set yet. *)
Definition Router_new : Router :=
  mkRouter "" "" "" 0 "" "" "" "" [] [] 0 [] false.

(** Modelled from the spec: [Circuit] (circuit.py) is not in src/.  The
    spec gives it an integer id, unset until its first update, and a
    state. *)
Record Circuit : Type := mkCircuit {
  circuit_id : option Z;
  circuit_state : string
}.

(** Modelled from the spec: [Stream] (stream.py) is not in src/; the
    attacher bridge reads its id and its target host. *)
Record Stream : Type := mkStream {
  stream_id : Z;
  target_host : option string
}.

(** What [attach_stream] may return: the sentinel, [None], a circuit, or a
    [Deferred] that has not fired (named by a number). *)
Inductive attach_result : Type :=
| DO_NOT_ATTACH
| attach_None
| attach_Circuit (circ : Circuit)
| attach_Deferred (d : nat).

(** A dictionary keyed by an integer id ([circuits]). *)
Fixpoint zget {V : Type} (d : list (Z * V)) (k : Z) : option V :=
  match d with
  | [] => None
  | (k', v) :: d' => if Z.eqb k' k then Some v else zget d' k
  end.

Fixpoint zset {V : Type} (d : list (Z * V)) (k : Z) (v : V) : list (Z * V) :=
  match d with
  | [] => [(k, v)]
  | (k', v') :: d' =>
      if Z.eqb k' k then (k', v) :: d' else (k', v') :: zset d' k v
  end.

(** The states of [_network_status_parser]. *)
Inductive State : Type :=
| waiting_r
| waiting_s
| waiting_w
| waiting_p.

(** *** TorState *)

(** The attributes of a [TorState] the modelled methods touch.  Routers
    are objects: [heap] stores them and the indices hold references.  In
    [routers] the value [None] is the mark of a nickname that is not
    unique.  [commands] is what was passed to [protocol.queue_command],
    [attach_stream_calls] the streams the user's attacher was called with,
    [callbacks] the [IssueStreamAttach(self, stream_id)] objects added to
    pending Deferreds, [warned] the warnings issued. *)
Record TorState : Type := mkTorState {
  heap : list Router;
  _router : option nat;
  all_routers : list nat;
  routers : dict.t (option nat);
  routers_by_name : dict.t (list nat);
  routers_by_hash : dict.t nat;
  guards : dict.t nat;
  authorities : dict.t nat;
  entry_guards : dict.t nat;
  parser_state : State;
  circuits : list (Z * Circuit);
  attacher : option (Stream -> list (Z * Circuit) -> attach_result);
  commands : list string;
  attach_stream_calls : list Z;
  callbacks : list (nat * Z);
  warned : list string
}.

(** [TorState(protocol)] before the bootstrap. *)
Definition __init__ : TorState :=
  mkTorState [] None [] [] [] [] [] [] [] waiting_r [] None [] [] [] [].

Definition set_heap (self : TorState) (x : list Router) : TorState :=
  mkTorState x (_router self) (all_routers self) (routers self)
    (routers_by_name self) (routers_by_hash self) (guards self)
    (authorities self) (entry_guards self) (parser_state self)
    (circuits self) (attacher self) (commands self)
    (attach_stream_calls self) (callbacks self) (warned self).

Definition set__router (self : TorState) (x : option nat) : TorState :=
  mkTorState (heap self) x (all_routers self) (routers self)
    (routers_by_name self) (routers_by_hash self) (guards self)
    (authorities self) (entry_guards self) (parser_state self)
    (circuits self) (attacher self) (commands self)
    (attach_stream_calls self) (callbacks self) (warned self).

Definition set_all_routers (self : TorState) (x : list nat) : TorState :=
  mkTorState (heap self) (_router self) x (routers self)
    (routers_by_name self) (routers_by_hash self) (guards self)
    (authorities self) (entry_guards self) (parser_state self)
    (circuits self) (attacher self) (commands self)
    (attach_stream_calls self) (callbacks self) (warned self).

Definition set_routers (self : TorState) (x : dict.t (option nat))
    : TorState :=
  mkTorState (heap self) (_router self) (all_routers self) x
    (routers_by_name self) (routers_by_hash self) (guards self)
    (authorities self) (entry_guards self) (parser_state self)
    (circuits self) (attacher self) (commands self)
    (attach_stream_calls self) (callbacks self) (warned self).

Definition set_routers_by_name (self : TorState) (x : dict.t (list nat))
    : TorState :=
  mkTorState (heap self) (_router self) (all_routers self) (routers self)
    x (routers_by_hash self) (guards self)
    (authorities self) (entry_guards self) (parser_state self)
    (circuits self) (attacher self) (commands self)
    (attach_stream_calls self) (callbacks self) (warned self).

Definition set_routers_by_hash (self : TorState) (x : dict.t nat) : TorState :=
  mkTorState (heap self) (_router self) (all_routers self) (routers self)
    (routers_by_name self) x (guards self)
    (authorities self) (entry_guards self) (parser_state self)
    (circuits self) (attacher self) (commands self)
    (attach_stream_calls self) (callbacks self) (warned self).

Definition set_guards (self : TorState) (x : dict.t nat) : TorState :=
  mkTorState (heap self) (_router self) (all_routers self) (routers self)
    (routers_by_name self) (routers_by_hash self) x
    (authorities self) (entry_guards self) (parser_state self)
    (circuits self) (attacher self) (commands self)
    (attach_stream_calls self) (callbacks self) (warned self).

Definition set_authorities (self : TorState) (x : dict.t nat) : TorState :=
  mkTorState (heap self) (_router self) (all_routers self) (routers self)
    (routers_by_name self) (routers_by_hash self) (guards self)
    x (entry_guards self) (parser_state self)
    (circuits self) (attacher self) (commands self)
    (attach_stream_calls self) (callbacks self) (warned self).

Definition set_parser_state (self : TorState) (x : State) : TorState :=
  mkTorState (heap self) (_router self) (all_routers self) (routers self)
    (routers_by_name self) (routers_by_hash self) (guards self)
    (authorities self) (entry_guards self) x
    (circuits self) (attacher self) (commands self)
    (attach_stream_calls self) (callbacks self) (warned self).

Definition set_circuits (self : TorState) (x : list (Z * Circuit))
    : TorState :=
  mkTorState (heap self) (_router self) (all_routers self) (routers self)
    (routers_by_name self) (routers_by_hash self) (guards self)
    (authorities self) (entry_guards self) (parser_state self)
    x (attacher self) (commands self)
    (attach_stream_calls self) (callbacks self) (warned self).

Definition set_commands (self : TorState) (x : list string) : TorState :=
  mkTorState (heap self) (_router self) (all_routers self) (routers self)
    (routers_by_name self) (routers_by_hash self) (guards self)
    (authorities self) (entry_guards self) (parser_state self)
    (circuits self) (attacher self) x
    (attach_stream_calls self) (callbacks self) (warned self).

Definition set_attach_stream_calls (self : TorState) (x : list Z)
    : TorState :=
  mkTorState (heap self) (_router self) (all_routers self) (routers self)
    (routers_by_name self) (routers_by_hash self) (guards self)
    (authorities self) (entry_guards self) (parser_state self)
    (circuits self) (attacher self) (commands self)
    x (callbacks self) (warned self).

Definition set_callbacks (self : TorState) (x : list (nat * Z)) : TorState :=
  mkTorState (heap self) (_router self) (all_routers self) (routers self)
    (routers_by_name self) (routers_by_hash self) (guards self)
    (authorities self) (entry_guards self) (parser_state self)
    (circuits self) (attacher self) (commands self)
    (attach_stream_calls self) x (warned self).

Definition set_warned (self : TorState) (x : list string) : TorState :=
  mkTorState (heap self) (_router self) (all_routers self) (routers self)
    (routers_by_name self) (routers_by_hash self) (guards self)
    (authorities self) (entry_guards self) (parser_state self)
    (circuits self) (attacher self) (commands self)
    (attach_stream_calls self) (callbacks self) x.

(** [protocol.queue_command(cmd)]. *)
Definition queue_command (self : TorState) (cmd : string) : TorState :=
  set_commands self (commands self ++ [cmd])%list.

(** The router [self._router] refers to, and an assignment to one of its
    attributes. *)
Definition current_router (self : TorState) : option (nat * Router) :=
  match _router self with
  | Some r => option_map (pair r) (nth_error (heap self) r)
  | None => None
  end.

Fixpoint replace_nth {A : Type} (n : nat) (x : A) (l : list A) : list A :=
  match n, l with
  | _, [] => []
  | O, _ :: l' => x :: l'
  | S n', y :: l' => y :: replace_nth n' x l'
  end.

Definition store_router (self : TorState) (r : nat) (x : Router) : TorState :=
  set_heap self (replace_nth r x (heap self)).

(** [args[i]], with the [IndexError] of a short list. *)
Definition arg (args : list string) (i : nat) : result string :=
  match nth_error args i with
  | Some a => Ok a
  | None => Raise IndexError
  end.

Definition bind {A B : Type} (x : result A) (f : A -> result B) : result B :=
  match x with
  | Ok a => f a
  | Raise e => Raise e
  end.

Definition quote : string := String (ascii_of_nat 34) "".

Definition newline : ascii := ascii_of_nat 10.

(** *** The consensus parser *)
Section Consensus.

(** [hexIdFromHash] of router.py (not in src/) turns the identity digest
    of an [r] line into the fingerprint [Router.update] stores as [id_hex];
    [strptime] is [datetime.datetime.strptime] with the format of
    [_router_begin], [None] for its [ValueError]. *)
Variable hexIdFromHash : string -> string.
Variable strptime : string -> option Z.

(** Modelled from the spec: [Router.update] (router.py is not in src/)
    stores the fields of the [r] line, and the fingerprint with them. *)
Definition Router_update (r : Router)
    (nickname idhash orhash : string) (published : Z)
    (ipaddr orport dirport : string) : Router :=
  mkRouter nickname idhash orhash published ipaddr orport dirport
    (hexIdFromHash idhash) (flags r) (ip_v6 r) (bandwidth r) (policy r)
    (from_consensus r).

(** Modelled from the spec: the [flags] setter of [Router] keeps the flags
    in lower case (the spec indexes a router with flag [guard], and its
    consensus line reads [s Guard ...]). *)
Definition Router_set_flags (r : Router) (fl : list string) : Router :=
  mkRouter (name r) (id_hash r) (or_hash r) (modified r) (ip r) (or_port r)
    (dir_port r) (id_hex r) (map Py.lower fl) (ip_v6 r) (bandwidth r)
    (policy r) (from_consensus r).

Definition Router_set_ip_v6 (r : Router) (x : list string) : Router :=
  mkRouter (name r) (id_hash r) (or_hash r) (modified r) (ip r) (or_port r)
    (dir_port r) (id_hex r) (flags r) x (bandwidth r)
    (policy r) (from_consensus r).

Definition Router_set_bandwidth (r : Router) (x : Z) : Router :=
  mkRouter (name r) (id_hash r) (or_hash r) (modified r) (ip r) (or_port r)
    (dir_port r) (id_hex r) (flags r) (ip_v6 r) x
    (policy r) (from_consensus r).

Definition Router_set_policy (r : Router) (x : list string) : Router :=
  mkRouter (name r) (id_hash r) (or_hash r) (modified r) (ip r) (or_port r)
    (dir_port r) (id_hex r) (flags r) (ip_v6 r) (bandwidth r)
    x (from_consensus r).

Definition Router_set_from_consensus (r : Router) (x : bool) : Router :=
  mkRouter (name r) (id_hash r) (or_hash r) (modified r) (ip r) (or_port r)
    (dir_port r) (id_hex r) (flags r) (ip_v6 r) (bandwidth r)
    (policy r) x.

(** [all_routers.add(r)] on a set kept as a list. *)
Definition set_add (r : nat) (s : list nat) : list nat :=
  if existsb (Nat.eqb r) s then s else (s ++ [r])%list.

Definition _router_begin (data : string) (self : TorState)
    : TorState * result unit :=
  let args := Py.split data in
  let r := length (heap self) in
  let fresh := Router_set_from_consensus Router_new true in
  let self := set__router (set_heap self (heap self ++ [fresh])%list) (Some r) in
  let updated :=
    bind (arg args 1) (fun nickname =>
    bind (arg args 2) (fun idhash =>
    bind (arg args 3) (fun orhash =>
    bind (arg args 4) (fun day =>
    bind (arg args 5) (fun time =>
    bind (match strptime (day ++ time) with
          | Some t => Ok t
          | None => Raise (ValueError "time data does not match format")
          end) (fun published =>
    bind (arg args 6) (fun ipaddr =>
    bind (arg args 7) (fun orport =>
    bind (arg args 8) (fun dirport =>
    Ok (Router_update fresh nickname idhash orhash published
          ipaddr orport dirport)))))))))) in
  match updated with
  | Raise e => (self, Raise e)
  | Ok router =>
      let self := store_router self r router in
      match dict.get (routers self) (id_hex router) with
      | Some known => (set__router self known, Ok tt)
      | None =>
          let self :=
            set_routers_by_name self
              (match dict.get (routers_by_name self) (name router) with
               | Some dups =>
                   dict.set (routers_by_name self) (name router)
                     (dups ++ [r])%list
               | None => dict.set (routers_by_name self) (name router) [r]
               end) in
          let self :=
            set_routers self
              (if dict.mem (routers self) (name router)
               then dict.set (routers self) (name router) None
               else dict.set (routers self) (name router) (Some r)) in
          let self :=
            set_routers self (dict.set (routers self) (id_hex router) (Some r)) in
          let self :=
            set_routers_by_hash self
              (dict.set (routers_by_hash self) (id_hex router) r) in
          (set_all_routers self (set_add r (all_routers self)), Ok tt)
      end
  end.

Definition _router_flags (data : string) (self : TorState)
    : TorState * result unit :=
  let args := Py.split data in
  match current_router self with
  | None => (self, Raise AttributeError)
  | Some (r, router) =>
      let router := Router_set_flags router (tl args) in
      let self := store_router self r router in
      let self :=
        if existsb (String.eqb "guard") (flags router)
        then set_guards self (dict.set (guards self) (id_hex router) r)
        else self in
      let self :=
        if existsb (String.eqb "authority") (flags router)
        then set_authorities self (dict.set (authorities self) (name router) r)
        else self in
      (self, Ok tt)
  end.

Definition _router_address (data : string) (self : TorState)
    : TorState * result unit :=
  match current_router self with
  | None => (self, Raise AttributeError)
  | Some (r, router) =>
      match arg (Py.split data) 1 with
      | Raise e => (self, Raise e)
      | Ok a =>
          (store_router self r
             (Router_set_ip_v6 router (ip_v6 router ++ [Py.strip a])%list),
           Ok tt)
      end
  end.

Definition _router_bandwidth (data : string) (self : TorState)
    : TorState * result unit :=
  let args := Py.split data in
  let parsed :=
    bind (arg args 1) (fun a =>
    bind (arg (Py.split_on "="%char a) 1) (fun b =>
    match Py.int b with
    | Some n => Ok n
    | None => Raise (ValueError "invalid literal for int()")
    end)) in
  match parsed with
  | Raise e => (self, Raise e)
  | Ok n =>
      match current_router self with
      | None => (self, Raise AttributeError)
      | Some (r, router) =>
          (store_router self r (Router_set_bandwidth router n), Ok tt)
      end
  end.

Definition _router_policy (data : string) (self : TorState)
    : TorState * result unit :=
  let args := Py.split data in
  match current_router self with
  | None => (self, Raise AttributeError)
  | Some (r, router) =>
      (set__router (store_router self r (Router_set_policy router (tl args)))
         None,
       Ok tt)
  end.

(** [Transition(next_state, matcher, handler)]. *)
Record Transition : Type := mkTransition {
  next_state : State;
  matcher : string -> bool;
  handler : string -> TorState -> TorState * result unit
}.

Definition nothing (data : string) (self : TorState)
    : TorState * result unit := (self, Ok tt).

(** [die(msg)], called: [RuntimeError(msg % data)]; [expected] is the
    letter the message names. *)
Definition die (expected : string) (data : string) (self : TorState)
    : TorState * result unit :=
  (self,
   Raise (RuntimeError
            ("Expected " ++ quote ++ expected ++ " " ++ quote
             ++ " while parsing routers not " ++ quote ++ data ++ quote))).

Definition ignorable_line (x : string) : bool :=
  String.eqb (Py.strip x) "." || String.eqb (Py.strip x) "OK"
  || String.eqb (Py.take 3 x) "ns/" || String.eqb (Py.strip x) "".

Definition starts (two : string) (x : string) : bool :=
  String.eqb (Py.take 2 x) two.

(** The transitions added to each state in [TorState.__init__], in the
    order of the [add_transition] calls. *)
Definition transitions (s : State) : list Transition :=
  match s with
  | waiting_r =>
      [ mkTransition waiting_r ignorable_line nothing;
        mkTransition waiting_s (starts "r ") _router_begin;
        mkTransition waiting_r (fun x => negb (starts "r " x)) (die "r") ]
  | waiting_s =>
      [ mkTransition waiting_w (starts "s ") _router_flags;
        mkTransition waiting_s (starts "a ") _router_address;
        mkTransition waiting_r ignorable_line nothing;
        mkTransition waiting_r
          (fun x => negb (starts "s " x) && negb (starts "a " x)) (die "s");
        mkTransition waiting_r (fun x => String.eqb (Py.strip x) ".") nothing ]
  | waiting_w =>
      [ mkTransition waiting_p (starts "w ") _router_bandwidth;
        mkTransition waiting_r ignorable_line nothing;
        mkTransition waiting_s (starts "r ") _router_begin;
        mkTransition waiting_r (fun x => negb (starts "w " x)) (die "w");
        mkTransition waiting_r (fun x => String.eqb (Py.strip x) ".") nothing ]
  | waiting_p =>
      [ mkTransition waiting_r (starts "p ") _router_policy;
        mkTransition waiting_r ignorable_line nothing;
        mkTransition waiting_s (starts "r ") _router_begin;
        mkTransition waiting_r (fun x => negb (starts "p " x)) (die "p");
        mkTransition waiting_r (fun x => String.eqb (Py.strip x) ".") nothing ]
  end.

(** Modelled from the spec: the machine itself ([FSM], [State] and
    [Transition] of spaghetti.py) is not in src/.  The spec reads each
    transition as guard, action, next state: a line is handled by the
    first transition of the current state whose guard accepts it, whose
    action runs before the machine moves on; an action that raises leaves
    the machine where it was, and a line no guard accepts is an error. *)
Definition process (data : string) (self : TorState)
    : TorState * result unit :=
  match find (fun t => matcher t data) (transitions (parser_state self)) with
  | None => (self, Raise (RuntimeError "No next state"))
  | Some t =>
      match handler t data self with
      | (self', Ok _) => (set_parser_state self' (next_state t), Ok tt)
      | (self', Raise e) => (self', Raise e)
      end
  end.

(** [for line in lines: self._network_status_parser.process(line)]. *)
Fixpoint process_lines (lines : list string) (self : TorState)
    : TorState * result unit :=
  match lines with
  | [] => (self, Ok tt)
  | line :: rest =>
      match process line self with
      | (self', Ok _) => process_lines rest self'
      | (self', Raise e) => (self', Raise e)
      end
  end.

Definition is_unique (kv : string * option nat) : bool :=
  match snd kv with
  | Some _ => true
  | None => false
  end.

Definition _update_network_status (data : string) (self : TorState)
    : TorState * result unit :=
  let self := set_all_routers self [] in
  match process_lines (Py.split_on newline data) self with
  | (self', Raise e) => (self', Raise e)
  | (self', Ok _) =>
      (set_routers self' (filter is_unique (routers self')), Ok tt)
  end.

(** The first step of [_bootstrap]: [get_info_incremental('ns/all', ...)]
    hands the reply to the parser line by line and yields [ns], which goes
    to [_update_network_status]. *)
Definition _bootstrap_ns (lines : list string) (ns : string) (self : TorState)
    : TorState * result unit :=
  match process_lines lines self with
  | (self', Raise e) => (self', Raise e)
  | (self', Ok _) => _update_network_status ns self'
  end.

End Consensus.

(** *** The stream attacher bridge *)

Definition ATTACHSTREAM (sid cid : Z) : string :=
  "ATTACHSTREAM " ++ Py.fmt_d sid ++ " " ++ Py.fmt_d cid.

Definition zmem {V : Type} (d : list (Z * V)) (k : Z) : bool :=
  match zget d k with
  | Some _ => true
  | None => false
  end.

Definition _maybe_attach (stream : Stream) (self : TorState)
    : TorState * result unit :=
  match attacher self with
  | None => (self, Ok tt)
  | Some attach_stream =>
      if match target_host stream with
         | Some host => Py.contains ".exit" host
         | None => false
         end
      then (self, Ok tt)
      else
        let self :=
          set_attach_stream_calls self
            (attach_stream_calls self ++ [stream_id stream])%list in
        match attach_stream stream (circuits self) with
        | DO_NOT_ATTACH => (self, Ok tt)
        | attach_None =>
            (queue_command self
               ("ATTACHSTREAM " ++ Py.fmt_d (stream_id stream) ++ " 0"),
             Ok tt)
        | attach_Deferred d =>
            (set_callbacks self
               (callbacks self ++ [(d, stream_id stream)])%list,
             Ok tt)
        | attach_Circuit circ =>
            match circuit_id circ with
            | None =>
                (self,
                 Raise (RuntimeError "Attacher returned a circuit unknown to me."))
            | Some cid =>
                if negb (zmem (circuits self) cid) then
                  (self,
                   Raise (RuntimeError
                            "Attacher returned a circuit unknown to me."))
                else if negb (String.eqb (circuit_state circ) "BUILT") then
                  (self,
                   Raise (RuntimeError
                            ("Can only attach to BUILT circuits; "
                             ++ Py.fmt_d cid ++ " is in "
                             ++ circuit_state circ ++ ".")))
                else
                  (queue_command self (ATTACHSTREAM (stream_id stream) cid),
                   Ok tt)
            end
        end
  end.

(** [IssueStreamAttach(state, streamid).__call__(arg)]. *)
Definition IssueStreamAttach (streamid : Z) (arg : Circuit) (self : TorState)
    : TorState * result unit :=
  match circuit_id arg with
  | Some circid => (queue_command self (ATTACHSTREAM streamid circid), Ok tt)
  | None => (self, Raise TypeError)
  end.

(** The Deferred [d] fires with [arg]: the callbacks added to it run, and
    what one raises goes to [log.err]. *)
Fixpoint fire (cbs : list (nat * Z)) (d : nat) (arg : Circuit)
    (self : TorState) : TorState :=
  match cbs with
  | [] => self
  | (d', streamid) :: rest =>
      if Nat.eqb d' d
      then fire rest d arg (fst (IssueStreamAttach streamid arg self))
      else fire rest d arg self
  end.

Definition Deferred_callback (d : nat) (arg : Circuit) (self : TorState)
    : TorState :=
  let self' := fire (callbacks self) d arg self in
  set_callbacks self'
    (filter (fun cb => negb (Nat.eqb (fst cb) d)) (callbacks self')).

(** *** build_circuit *)

Fixpoint zdel {V : Type} (d : list (Z * V)) (k : Z) : list (Z * V) :=
  match d with
  | [] => []
  | (k', v') :: d' => if Z.eqb k' k then d' else (k', v') :: zdel d' k
  end.

(** Modelled from the spec: [Circuit.update] (circuit.py is not in src/).
    The first update gives the circuit its id; every update sets the
    state; [TorState] listens, storing the circuit under its id and
    dropping it on [CLOSED] or [FAILED]. *)
Definition Circuit_update (c : Circuit) (args : list string) (self : TorState)
    : TorState * result Circuit :=
  match bind (arg args 0) (fun a =>
         bind (arg args 1) (fun st =>
         match Py.int a with
         | Some n => Ok (n, st)
         | None => Raise (ValueError "invalid literal for int()")
         end)) with
  | Raise e => (self, Raise e)
  | Ok (n, st) =>
      let cid := match circuit_id c with
                 | Some i => i
                 | None => n
                 end in
      let c' := mkCircuit (Some cid) st in
      if String.eqb st "CLOSED" || String.eqb st "FAILED"
      then (set_circuits self (zdel (circuits self) cid), Ok c')
      else (set_circuits self (zset (circuits self) cid c'), Ok c')
  end.

Definition _maybe_create_circuit (circ_id : Z) (self : TorState) : Circuit :=
  match zget (circuits self) circ_id with
  | None => mkCircuit None ""
  | Some c => c
  end.

Definition _find_circuit_after_extend (x : string) (self : TorState)
    : TorState * result Circuit :=
  match Py.split x with
  | [ex; circ_id] =>
      if negb (String.eqb ex "EXTENDED") then
        (self,
         Raise (RuntimeError ("Expected EXTENDED, got " ++ quote ++ x ++ quote)))
      else
        match Py.int circ_id with
        | None => (self, Raise (ValueError "invalid literal for int()"))
        | Some n =>
            let circ := _maybe_create_circuit n self in
            Circuit_update circ [Py.fmt_d n; "EXTENDED"] self
        end
  | _ => (self, Raise (ValueError "need exactly 2 values to unpack"))
  end.

(** An element of the [routers] argument: a [Router] or a string. *)
Inductive path_element : Type :=
| path_Router (r : nat)
| path_str (s : string).

Section BuildCircuit.

(** [hashFromHexId] of router.py (not in src/): the digest of a hex id, or
    the exception it raises. *)
Variable hashFromHexId : string -> result string.

(** The loop of [build_circuit] over [routers]. *)
Fixpoint build_circuit_loop (self : TorState) (routers : list path_element)
    (first : bool) (cmd : string) : result string :=
  match routers with
  | [] => Ok cmd
  | router :: rest =>
      let cmd := if first then cmd else cmd ++ "," in
      match router with
      | path_str s =>
          if Nat.eqb (String.length s) 40 then
            match hashFromHexId s with
            | Raise e => Raise e
            | Ok h =>
                if String.eqb h "" then Raise AttributeError
                else build_circuit_loop self rest false (cmd ++ s)
            end
          else Raise AttributeError
      | path_Router r =>
          match nth_error (heap self) r with
          | Some router => build_circuit_loop self rest false
                             (cmd ++ Py.drop 1 (id_hex router))
          | None => Raise AttributeError
          end
      end
  end.

(** [routers[0] in self.entry_guards.values()]. *)
Definition is_entry_guard (self : TorState) (router : path_element) : bool :=
  match router with
  | path_Router r => existsb (Nat.eqb r) (dict.values (entry_guards self))
  | path_str _ => false
  end.

(** [build_circuit(routers, using_guards)] up to the [Deferred] it
    returns; the reply to the queued command goes to
    [_find_circuit_after_extend]. *)
Definition build_circuit (routers : option (list path_element))
    (using_guards : bool) (self : TorState) : TorState * result unit :=
  match routers with
  | None | Some [] => (queue_command self "EXTENDCIRCUIT 0", Ok tt)
  | Some (first :: rest) =>
      let self :=
        if using_guards && negb (is_entry_guard self first)
        then set_warned self
               (warned self
                ++ ["Building a circuit not starting with a guard"])%list
        else self in
      match build_circuit_loop self (first :: rest) true "EXTENDCIRCUIT 0 " with
      | Raise e => (self, Raise e)
      | Ok cmd => (queue_command self cmd, Ok tt)
      end
  end.

(** An element [build_circuit] takes, with the text it adds to the
    command: a [Router], which gives its [id_hex] without the first
    character, or a string of 40 characters that [hashFromHexId] turns
    into a digest, which is added as it is. *)
Definition accepted (self : TorState) (router : path_element) (text : string)
    : Prop :=
  match router with
  | path_Router r =>
      exists x, nth_error (heap self) r = Some x /\ text = Py.drop 1 (id_hex x)
  | path_str s =>
      String.length s = 40
      /\ (exists h, hashFromHexId s = Ok h /\ h <> "")
      /\ text = s
  end.

End BuildCircuit.

(** *** Commands *)

(** [flags_from_dict(kw)]; the keyword arguments in the order the
    dictionary lists them. *)
Fixpoint flags_from_dict (kw : list (string * bool)) : string :=
  match kw with
  | [] => ""
  | (k, v) :: rest =>
      (if v then " " ++ k else "") ++ flags_from_dict rest
  end.

Definition stream_close_reasons : dict.t Z :=
  [ ("REASON_MISC", 1%Z); ("REASON_RESOLVEFAILED", 2%Z);
    ("REASON_CONNECTREFUSED", 3%Z); ("REASON_EXITPOLICY", 4%Z);
    ("REASON_DESTROY", 5%Z); ("REASON_DONE", 6%Z); ("REASON_TIMEOUT", 7%Z);
    ("REASON_NOROUTE", 8%Z); ("REASON_HIBERNATING", 9%Z);
    ("REASON_INTERNAL", 10%Z); ("REASON_RESOURCELIMIT", 11%Z);
    ("REASON_CONNRESET", 12%Z); ("REASON_TORPROTOCOL", 13%Z);
    ("REASON_NOTDIRECTORY", 14%Z) ].

(** The [reason] argument of [close_stream]: an integer or a string. *)
Inductive reason_arg : Type :=
| reason_int (n : Z)
| reason_str (s : string).

(** The [stream] argument of [close_stream] and the [circid] argument of
    [close_circuit]: an integer, or an object read for its [id]. *)
Inductive id_arg : Type :=
| id_int (n : Z)
| id_of (n : Z).

Definition id_value (x : id_arg) : Z :=
  match x with
  | id_int n => n
  | id_of n => n
  end.

Definition close_stream (stream : id_arg) (reason : reason_arg)
    (kwargs : list (string * bool)) (self : TorState)
    : TorState * result unit :=
  let stream := id_value stream in
  let code :=
    match reason with
    | reason_int n => Ok n
    | reason_str s =>
        match Py.int s with
        | Some n => Ok n
        | None =>
            match dict.get stream_close_reasons s with
            | Some n => Ok n
            | None =>
                Raise (ValueError
                         ("Unknown stream close reason " ++ quote ++ s ++ quote))
            end
        end
    end in
  match code with
  | Raise e => (self, Raise e)
  | Ok n =>
      (queue_command self
         ("CLOSESTREAM " ++ Py.fmt_d stream ++ " " ++ Py.fmt_d n
          ++ flags_from_dict kwargs),
       Ok tt)
  end.

Definition close_circuit (circid : id_arg) (kwargs : list (string * bool))
    (self : TorState) : TorState :=
  queue_command self
    ("CLOSECIRCUIT " ++ Py.fmt_d (id_value circid) ++ flags_from_dict kwargs).

(** *** Circuit status *)

Definition _circuit_update (line : string) (self : TorState)
    : TorState * result unit :=
  let args := Py.split line in
  match arg args 0 with
  | Raise e => (self, Raise e)
  | Ok a =>
      match Py.int a with
      | None => (self, Raise (ValueError "invalid literal for int()"))
      | Some circ_id =>
          match Circuit_update (_maybe_create_circuit circ_id self) args self with
          | (self', Ok _) => (self', Ok tt)
          | (self', Raise e) => (self', Raise e)
          end
      end
  end.

Fixpoint circuit_update_lines (lines : list string) (self : TorState)
    : TorState * result unit :=
  match lines with
  | [] => (self, Ok tt)
  | line :: rest =>
      match _circuit_update line self with
      | (self', Ok _) => circuit_update_lines rest self'
      | (self', Raise e) => (self', Raise e)
      end
  end.

Definition _circuit_status (data : string) (self : TorState)
    : TorState * result unit :=
  let lines :=
    Py.split_on newline (Py.drop (String.length "circuit-status=") data) in
  let lines :=
    match lines with
    | first :: rest =>
        if Nat.eqb (String.length (Py.strip first)) 0 then rest else lines
    | [] => lines
    end in
  circuit_update_lines lines self.

(** Every key of the four indices of [a] that are only ever written to
    ([routers_by_hash], [routers_by_name], [guards], [authorities]) is a
    key of the same index of [b]. *)
Definition indices_kept (a b : TorState) : Prop :=
  (forall k, dict.mem (routers_by_hash a) k = true ->
             dict.mem (routers_by_hash b) k = true)
  /\ (forall k, dict.mem (routers_by_name a) k = true ->
                dict.mem (routers_by_name b) k = true)
  /\ (forall k, dict.mem (guards a) k = true -> dict.mem (guards b) k = true)
  /\ (forall k, dict.mem (authorities a) k = true ->
                dict.mem (authorities b) k = true).

End torstate.

(** * Sample states *)

(** A config built on a protocol, after the bootstrap has stored one
    option. *)
Definition torconfig_bootstrapped : torconfig.TorConfig :=
  torconfig.mkTorConfig [("SOCKSPort", torconfig.VInt 9050)] []
    [("SOCKSPort", torconfig.Port)] ["hiddenservices"] false true false [].

(** A bootstrapped config whose [SOCKSPort] is a list: the committed map
    refers to the wrapper the bootstrap made. *)
Definition torconfig_with_list : torconfig.TorConfig :=
  torconfig.mkTorConfig [("SOCKSPort", torconfig.VWrapper 0)] []
    [("SOCKSPort", torconfig.LineList)] ["hiddenservices"; "SOCKSPort"]
    false true false
    [torconfig.mkListWrapper
       [torconfig.VStr "9050"; torconfig.VStr "1337"] "SOCKSPort"].

(** Stand-ins, for the examples, for the two functions the consensus
    parser takes from outside: a fingerprint that is the digest's text
    after the [$], and a clock that reads every date as 0. *)
Definition sample_hexIdFromHash (h : string) : string := "$" ++ h.

Definition sample_strptime (s : string) : option Z := Some 0%Z.

(** A consensus parser that has just read the header of [Nick]. *)
Definition torstate_after_header : torstate.TorState :=
  fst (torstate.process sample_hexIdFromHash sample_strptime
         "r Nick AAAA BBBB 2024-05-01 12:00:00 10.0.0.1 9001 0"
         torstate.__init__).

(** A consensus in which two routers are called [Dup], as the bootstrap
    receives it line by line, and a later [NEWCONSENSUS] event that lists a
    third router of that name. *)
Definition consensus_two_dups : list string :=
  [ "r Dup AAAA XXXX 2024-05-01 12:00:00 10.0.0.1 9001 0";
    "s Fast Running";
    "r Dup BBBB XXXX 2024-05-01 12:00:00 10.0.0.2 9001 0";
    "s Fast Running";
    "." ].

Definition newconsensus_third_dup : string :=
  "r Dup CCCC XXXX 2024-05-01 12:00:00 10.0.0.3 9001 0"
  ++ String torstate.newline "s Fast Running".

(** A bootstrapped [TorState] with a user attacher set and the given
    circuits tracked; nothing sent yet. *)
Definition torstate_with_attacher
    (attach_stream :
       torstate.Stream -> list (Z * torstate.Circuit) -> torstate.attach_result)
    (tracked : list (Z * torstate.Circuit)) : torstate.TorState :=
  torstate.mkTorState [] None [] [] [] [] [] [] [] torstate.waiting_r
    tracked (Some attach_stream) [] [] [] [].

(** A stand-in, for the examples, for [hashFromHexId]: it drops a leading
    [$] and answers with a digest exactly on an even number of hex digits;
    the digest is the hex text itself, of which [build_circuit] only tests
    that it is not empty. *)
Definition is_hex_digit (c : ascii) : bool :=
  let n := nat_of_ascii c in
  (Nat.leb 48 n && Nat.leb n 57) || (Nat.leb 65 n && Nat.leb n 70)
  || (Nat.leb 97 n && Nat.leb n 102).

Definition sample_hashFromHexId (hexid : string) : result string :=
  let digits := match hexid with
                | String "$" rest => rest
                | _ => hexid
                end in
  if Py.all_chars is_hex_digit digits && Nat.even (String.length digits)
  then Ok digits else Raise TypeError.

Definition hex_A : string := "AAAAAAAAAAAAAAAAAAAAAAAAAAAAAAAAAAAAAAAA".

Definition hex_B : string := "BBBBBBBBBBBBBBBBBBBBBBBBBBBBBBBBBBBBBBBB".

(** A [TorState] that knows one router, whose fingerprint is [$AAAA...]. *)
Definition torstate_one_router : torstate.TorState :=
  torstate.set_heap torstate.__init__
    [torstate.Router_update (fun h => "$" ++ h) torstate.Router_new
       "r1" hex_A "" 0 "10.0.0.1" "9001" "0"].

(** A stand-in, for the examples, for the builtin [str] on the values an
    option holds as text or as a number. *)
Definition sample_str (v : torconfig.value) : string :=
  match v with
  | torconfig.VInt n => Py.fmt_d n
  | torconfig.VStr s => s
  | torconfig.VBool true => "True"
  | torconfig.VBool false => "False"
  | _ => "None"
  end.

(** The bootstrapped config after the client has staged a new port. *)
Definition torconfig_staged_port : torconfig.TorConfig :=
  fst (torconfig.__setattr__ torconfig_bootstrapped "socksport"
         (torconfig.VInt 1337)).

(** Stand-ins, for the examples, for what the bootstrap takes from
    outside: a [float] that accepts nothing (no option of the example is a
    [Float]), the replies to [GETCONF] for three options, and a reply to
    [GETINFO config/names] that names them, the hidden services and a
    [Dependant] option. *)
Definition sample_float (v : torconfig.value) : result torconfig.value :=
  Raise (ValueError "could not convert string to float").

Definition sample_get_conf (name : string) : result torconfig.value :=
  if String.eqb name "SocksPort"
  then Ok (torconfig.VList [torconfig.VStr "9050"; torconfig.VStr "9150"])
  else if String.eqb name "ORPort" then Ok (torconfig.VStr "0")
  else if String.eqb name "AvoidDiskWrites" then Ok (torconfig.VStr "1")
  else Raise (KeyError name).

Definition sample_config_names : string :=
  Py.join (String torconfig.LF "")
    [ "config/names="; "SocksPort LineList"; "ORPort Port";
      "HiddenServiceOptions Virtual"; "AvoidDiskWrites Boolean";
      "DirPortFrontPage Dependant" ].

(** * Properties *)

(** ** Strings *)
Section PyFacts.
Import Py.

Lemma append_assoc (a b c : string) : (a ++ b) ++ c = a ++ (b ++ c).
Proof. induction a as [|x a IH]; simpl; congruence. Qed.

Lemma append_nil_r (a : string) : a ++ "" = a.
Proof. induction a as [|x a IH]; simpl; congruence. Qed.

Lemma rev_string_acc s acc : rev_string s acc = rev_string s "" ++ acc.
Proof.
  revert acc. induction s as [|c s IH]; intros acc; simpl; auto.
  rewrite IH, (IH (String c "")), append_assoc. reflexivity.
Qed.

Lemma rev_string_app a b acc :
  rev_string (a ++ b) acc = rev_string b (rev_string a acc).
Proof. revert acc. induction a as [|c a IH]; intros acc; simpl; auto. Qed.

Lemma rev_string_involutive s : rev_string (rev_string s "") "" = s.
Proof.
  induction s as [|c s IH]; simpl; auto.
  rewrite (rev_string_acc s (String c "")), rev_string_app, IH. reflexivity.
Qed.

Lemma lstrip_snoc t c :
  is_space c = false ->
  exists t', lstrip (t ++ String c "") = t' ++ String c "".
Proof.
  intros Hc. induction t as [|x t IH]; simpl.
  - rewrite Hc. now exists "".
  - destruct (is_space x); [exact IH | now exists (String x t)].
Qed.

(** Stripping keeps a first character that is not blank. *)
Lemma strip_head c s :
  is_space c = false -> exists u, strip (String c s) = String c u.
Proof.
  intros Hc. unfold strip, rstrip. simpl lstrip. rewrite Hc.
  simpl rev_string. rewrite (rev_string_acc s (String c "")).
  destruct (lstrip_snoc (rev_string s "") c Hc) as [t' ->].
  rewrite rev_string_app. simpl. eauto.
Qed.

Lemma all_chars_rev p s acc :
  all_chars p s = true -> all_chars p acc = true ->
  all_chars p (rev_string s acc) = true.
Proof.
  revert acc. induction s as [|c s IH]; intros acc Hs Hacc; simpl in *; auto.
  apply andb_prop in Hs as [Hc Hs]. apply IH; auto. simpl. now rewrite Hc.
Qed.

Lemma sign_or_digit_not_space c :
  is_sign_or_digit c = true -> is_space c = false.
Proof.
  destruct c as [[] [] [] [] [] [] [] []]; vm_compute; congruence.
Qed.

Lemma lstrip_plain s :
  all_chars is_sign_or_digit s = true -> lstrip s = s.
Proof.
  destruct s as [|c s]; simpl; auto. intros H.
  apply andb_prop in H as [Hc _]. now rewrite sign_or_digit_not_space.
Qed.

(** Nothing is stripped from a string of digits and signs. *)
Lemma strip_plain s :
  all_chars is_sign_or_digit s = true -> strip s = s.
Proof.
  intros H. unfold strip, rstrip. rewrite (lstrip_plain s H).
  rewrite lstrip_plain by (apply all_chars_rev; auto).
  apply rev_string_involutive.
Qed.

Lemma string_of_uint_digits d :
  all_chars is_digit (NilEmpty.string_of_uint d) = true.
Proof. induction d; simpl; auto. Qed.

Lemma all_chars_weaken (p q : ascii -> bool) s :
  (forall c, p c = true -> q c = true) ->
  all_chars p s = true -> all_chars q s = true.
Proof.
  intros Hpq. induction s as [|c s IH]; simpl; auto.
  intros H. apply andb_prop in H as [Hc Hs]. now rewrite Hpq, IH.
Qed.

Lemma fmt_d_plain n : all_chars is_sign_or_digit (fmt_d n) = true.
Proof.
  assert (Hu : forall d, all_chars is_sign_or_digit (NilZero.string_of_uint d)
                         = true).
  { intros d. apply all_chars_weaken with (p := is_digit).
    - intros c Hc. unfold is_sign_or_digit. now rewrite Hc.
    - destruct d; try apply string_of_uint_digits. reflexivity. }
  unfold fmt_d. destruct (Z.to_int n) as [d|d]; simpl; auto.
Qed.

(** [int(str(n)) == n], on which [_find_circuit_after_extend] relies when
    it hands the id back to the circuit as text. *)
Lemma int_fmt_d n : int (fmt_d n) = Some n.
Proof.
  unfold int. rewrite strip_plain by apply fmt_d_plain.
  pose proof (fmt_d_plain n) as Hp.
  assert (Hparse : NilZero.int_of_string (fmt_d n) = Some (Z.to_int n)).
  { unfold fmt_d. apply NilZero.isi.
    - destruct n; simpl; try discriminate.
      intros [= H]. now apply DecimalPos.Unsigned.to_uint_nonnil in H.
    - destruct n; simpl; try discriminate.
      intros [= H]. now apply DecimalPos.Unsigned.to_uint_nonnil in H. }
  destruct (fmt_d n) as [|c rest] eqn:E; [discriminate Hparse|].
  simpl in Hp. apply andb_prop in Hp as [Hc _].
  replace (Ascii.eqb c "+") with false.
  - rewrite Hparse. simpl. now rewrite DecimalZ.of_to.
  - destruct c as [[] [] [] [] [] [] [] []]; vm_compute in Hc |- *; congruence.
Qed.

End PyFacts.

(** ** Dictionaries *)
Section DictFacts.
Context {V : Type}.
Implicit Types (d : dict.t V) (k : string) (v : V).

Lemma dict_get_set_same d k v : dict.get (dict.set d k v) k = Some v.
Proof.
  induction d as [|[k' v'] d IH]; simpl.
  - now rewrite String.eqb_refl.
  - destruct (String.eqb k' k) eqn:E; simpl; rewrite E; auto.
Qed.

Lemma dict_get_set_other d k k' v :
  k <> k' -> dict.get (dict.set d k v) k' = dict.get d k'.
Proof.
  intros Hne. induction d as [|[k0 v0] d IH]; simpl.
  - destruct (String.eqb k k') eqn:E; auto.
    apply String.eqb_eq in E. contradiction.
  - destruct (String.eqb k0 k) eqn:E; simpl.
    + apply String.eqb_eq in E. subst k0.
      destruct (String.eqb k k') eqn:E'; auto.
      apply String.eqb_eq in E'. contradiction.
    + destruct (String.eqb k0 k'); auto.
Qed.

Lemma dict_mem_get d k :
  dict.mem d k = true -> exists v, dict.get d k = Some v.
Proof.
  unfold dict.mem. destruct (dict.get d k) as [v|]; [eauto | discriminate].
Qed.

Lemma dict_get_mem d k v : dict.get d k = Some v -> dict.mem d k = true.
Proof. unfold dict.mem. now intros ->. Qed.

Lemma dict_mem_keys d k : dict.mem d k = true <-> In k (dict.keys d).
Proof.
  unfold dict.mem, dict.keys.
  induction d as [|[k' v'] d IH]; simpl.
  - split; [discriminate | tauto].
  - destruct (String.eqb k' k) eqn:E.
    + apply String.eqb_eq in E. split; auto.
    + apply String.eqb_neq in E. rewrite IH. split; [auto | intros [?|?]; congruence].
Qed.

(** The keys of a dictionary after a store: unchanged when the key was
    there, one more at the end otherwise. *)
Lemma dict_keys_set d k v :
  dict.keys (dict.set d k v)
  = if dict.mem d k then dict.keys d else (dict.keys d ++ [k])%list.
Proof.
  unfold dict.mem, dict.keys.
  induction d as [|[k' v'] d IH]; simpl; auto.
  destruct (String.eqb k' k) eqn:E; simpl; auto.
  rewrite IH. now destruct (dict.get d k).
Qed.

Lemma dict_set_nonempty d k v : dict.len (dict.set d k v) <> 0.
Proof.
  destruct d as [|[k' v'] d]; simpl; [discriminate|].
  destruct (String.eqb k' k); discriminate.
Qed.

End DictFacts.

(** ** torconfig: names *)
Section RealName.
Import torconfig.
Implicit Types (self : TorConfig) (name : string).

Lemma lower_find_real_name self name :
  Py.lower (_find_real_name self name) = Py.lower name.
Proof.
  unfold _find_real_name.
  destruct (find _ _) as [x|] eqn:F; auto.
  apply find_some in F. now apply String.eqb_eq.
Qed.

(** [_find_real_name] is idempotent, so the second lookup in
    [mark_unsaved] and in [__setattr__] returns the name it is given. *)
Lemma _find_real_name_idem self name :
  _find_real_name self (_find_real_name self name) = _find_real_name self name.
Proof.
  unfold _find_real_name at 1 3.
  rewrite lower_find_real_name.
  unfold _find_real_name.
  destruct (find _ _) as [x|] eqn:F; auto.
Qed.

End RealName.

(** ** torconfig: staging *)
Section Staging.
Import torconfig.
Implicit Types (self : TorConfig) (name : string).

Lemma set_unsaved_same self : set_unsaved self (unsaved self) = self.
Proof. now destruct self. Qed.

(** C10. [mark_unsaved(name)] never raises and touches nothing but the
    staged entry of the real (case-normalized) name [rn]: the result is the
    old state with a new staged map that agrees with the old one on every
    other key; when [rn] is committed and not staged the staged map gains
    [rn] with the committed value; when [rn] is staged already, or is not
    committed, the whole state is the old one. *)
Theorem C10_mark_unsaved_frame self name :
  let rn := _find_real_name self name in
  exists self',
    mark_unsaved self name = Ok self'
    /\ self' = set_unsaved self (unsaved self')
    /\ (forall k, k <> rn ->
          dict.get (unsaved self') k = dict.get (unsaved self) k)
    /\ (dict.mem (config self) rn = true ->
        dict.mem (unsaved self) rn = false ->
          dict.get (unsaved self') rn = dict.get (config self) rn
          /\ dict.mem (unsaved self') rn = true)
    /\ (dict.mem (unsaved self) rn = true \/ dict.mem (config self) rn = false ->
          self' = self).
Proof.
  intros rn. unfold mark_unsaved. fold rn.
  replace (_find_real_name self rn) with rn
    by (symmetry; apply _find_real_name_idem).
  destruct (dict.mem (config self) rn) eqn:Hc;
    destruct (dict.mem (unsaved self) rn) eqn:Hu; simpl.
  - exists self. repeat split; auto using eq_sym, set_unsaved_same. discriminate.
  - destruct (dict_mem_get _ _ Hc) as [v Hv]. rewrite Hv.
    exists (set_unsaved self (dict.set (unsaved self) rn v)).
    split; [reflexivity|]. split; [reflexivity|]. simpl. repeat split.
    + intros k Hk. now apply dict_get_set_other.
    + apply dict_get_set_same.
    + eapply dict_get_mem, dict_get_set_same.
    + intros [H|H]; discriminate.
  - exists self. repeat split; auto using eq_sym, set_unsaved_same; discriminate.
  - exists self. repeat split; auto using eq_sym, set_unsaved_same; discriminate.
Qed.

(** Read through another casing, the first notification stages the
    committed value, and a second one, after the staged value was replaced,
    leaves the replacement alone. *)
Example mark_unsaved_socksport :
  mark_unsaved torconfig_bootstrapped "socksport"
  = Ok (set_unsaved torconfig_bootstrapped [("SOCKSPort", VInt 9050)])
  /\ mark_unsaved (set_unsaved torconfig_bootstrapped [("SOCKSPort", VInt 1337)]) "socksport"
     = Ok (set_unsaved torconfig_bootstrapped [("SOCKSPort", VInt 1337)]).
Proof. split; reflexivity. Qed.

Lemma _find_real_name_ext self self' name :
  parsers self' = parsers self -> config self' = config self ->
  _find_real_name self' name = _find_real_name self name.
Proof. unfold _find_real_name. now intros -> ->. Qed.

Lemma as_list_new_ListWrapper self xs cb :
  as_list (fst (new_ListWrapper self xs cb)) (snd (new_ListWrapper self xs cb))
  = Some xs.
Proof.
  simpl. rewrite nth_error_app2 by lia. now rewrite Nat.sub_diag.
Qed.

Lemma same_committed_refl a : same_committed a a.
Proof. now repeat split. Qed.

Lemma same_committed_trans a b c :
  same_committed a b -> same_committed b c -> same_committed a c.
Proof. unfold same_committed. intuition congruence. Qed.

Lemma new_ListWrapper_frame self xs cb :
  same_committed (fst (new_ListWrapper self xs cb)) self.
Proof. now repeat split. Qed.

Lemma validate_frame p v self name :
  same_committed (fst (validate p v self name)) self.
Proof.
  destruct p; simpl; try apply same_committed_refl.
  destruct (as_list self v); simpl; now repeat split.
Qed.

(** A write changes the staged map and the store, nothing else. *)
Lemma __setattr___frame self name v :
  same_committed (fst (__setattr__ self name v)) self.
Proof.
  unfold __setattr__.
  set (rn := _find_real_name self name).
  set (validated := if andb _ _ then _ else _).
  assert (Hv : same_committed (fst validated) self).
  { subst validated. destruct (andb _ _); [|apply same_committed_refl].
    destruct (dict.get _ _); [apply validate_frame | apply same_committed_refl]. }
  destruct validated as [self1 [v1|e]]; simpl in *; auto.
  destruct (as_list self1 v1) as [xs|].
  - pose proof (new_ListWrapper_frame self1 xs rn) as Hn.
    destruct (new_ListWrapper self1 xs rn) as [self2 v2]. simpl in *.
    eapply same_committed_trans; [|exact Hv].
    eapply same_committed_trans; [|exact Hn]. now repeat split.
  - simpl. eapply same_committed_trans; [|exact Hv]. now repeat split.
Qed.

Lemma _maybe_create_listwrapper_committed self rn :
  dict.mem (config self) rn = true -> _maybe_create_listwrapper self rn = self.
Proof.
  unfold _maybe_create_listwrapper. intros ->.
  now rewrite andb_false_r.
Qed.

(** C1, as the code has it.  In the mode the constructor enters without a
    protocol ([_slutty_]) a read returns the staged value of the real name
    when there is one and the committed value otherwise, and a write is
    read back (a list as a wrapper holding its elements).  Without
    [_slutty_] (a config built on a protocol, or bound by
    [attach_protocol]) a read returns the committed value whether or not
    the name is staged, also right after a write. *)
Theorem C1_read_by_mode self name :
  let rn := _find_real_name self name in
  (_slutty_ self = true ->
     forall v, dict.get (unsaved self) rn = Some v ->
       __getattr__ self name = (self, Ok v))
  /\ (_slutty_ self = true -> dict.get (unsaved self) rn = None ->
     forall v, dict.get (config self) rn = Some v ->
       __getattr__ self name = (self, Ok v))
  /\ (_slutty_ self = false ->
     forall v, dict.get (config self) rn = Some v ->
       __getattr__ self name = (self, Ok v))
  /\ (_slutty_ self = true ->
     forall v,
       let self1 := fst (__setattr__ self name v) in
       exists staged,
         dict.get (unsaved self1) rn = Some staged
         /\ __getattr__ self1 name = (self1, Ok staged)
         /\ (as_list self v = None -> staged = v)
         /\ (forall xs, as_list self v = Some xs ->
               as_list self1 staged = Some xs))
  /\ (_slutty_ self = false ->
     forall v c, dict.get (config self) rn = Some c ->
       let self1 := fst (__setattr__ self name v) in
       __getattr__ self1 name = (self1, Ok c)).
Proof.
  intros rn.
  assert (Hcommitted : forall s, _find_real_name s name = rn ->
            (if _slutty_ s then dict.get (unsaved s) rn else None) = None ->
            forall v, dict.get (config s) rn = Some v ->
            __getattr__ s name = (s, Ok v)).
  { intros s Hrn Hst v Hv. unfold __getattr__. rewrite Hrn, Hst.
    rewrite _maybe_create_listwrapper_committed by (eapply dict_get_mem; eauto).
    now rewrite Hv. }
  split; [|split; [|split; [|split]]].
  - intros Hs v Hv. unfold __getattr__. fold rn. now rewrite Hs, Hv.
  - intros Hs Hu v Hv. apply Hcommitted; auto. now rewrite Hs.
  - intros Hs v Hv. apply Hcommitted; auto. now rewrite Hs.
  - intros Hs v self1.
    destruct (__setattr___frame self name v) as (Hc & Hp & Hsl & _).
    fold self1 in Hc, Hp, Hsl.
    assert (Hrn1 : _find_real_name self1 name = rn)
      by (apply _find_real_name_ext; auto).
    assert (Hread : forall staged, dict.get (unsaved self1) rn = Some staged ->
              __getattr__ self1 name = (self1, Ok staged)).
    { intros staged Hst. unfold __getattr__.
      now rewrite Hrn1, Hsl, Hs, Hst. }
    subst self1. unfold __setattr__ in *. fold rn in Hread |- *.
    rewrite Hs in *. simpl andb in *. cbv iota in *.
    destruct (as_list self v) as [xs|] eqn:Hl.
    + set (nw := new_ListWrapper self xs rn) in *.
      assert (Hnw : as_list (fst nw) (snd nw) = Some xs)
        by apply as_list_new_ListWrapper.
      destruct nw as [self2 w] eqn:Enw. simpl in Hnw.
      assert (Hrn2 : _find_real_name self2 rn = rn).
      { rewrite (_find_real_name_ext self self2);
          [apply _find_real_name_idem | |];
          unfold new_ListWrapper in Enw; injection Enw as <- _; reflexivity. }
      rewrite Hrn2 in *. simpl in *.
      exists w. repeat split.
      * apply dict_get_set_same.
      * apply Hread, dict_get_set_same.
      * discriminate.
      * intros xs' [= <-]. destruct w; simpl in *; auto.
    + replace (_find_real_name self rn) with rn in *
        by (symmetry; apply _find_real_name_idem).
      simpl in *. exists v. repeat split.
      * apply dict_get_set_same.
      * apply Hread, dict_get_set_same.
      * intros xs. destruct v; simpl in *; congruence.
  - intros Hs v c Hv self1.
    destruct (__setattr___frame self name v) as (Hc & Hp & Hsl & _).
    fold self1 in Hc, Hp, Hsl.
    apply Hcommitted.
    + apply _find_real_name_ext; auto.
    + now rewrite Hsl, Hs.
    + now rewrite Hc.
Qed.

(** A config built on a protocol: the client stages [SOCKSPort = 1337],
    and the read that follows still returns the committed [9050]. *)
Lemma C1_counterexample :
  let self1 := fst (__setattr__ torconfig_bootstrapped "SOCKSPort" (VInt 1337)) in
  dict.get (unsaved self1) "SOCKSPort" = Some (VInt 1337)
  /\ snd (__getattr__ self1 "SOCKSPort") = Ok (VInt 9050).
Proof. split; reflexivity. Qed.

End Staging.

(** ** torconfig: CONF_CHANGED *)
Section ConfChanged.
Import torconfig.
Variable parse_keywords : string -> dict.t value.
Implicit Types (self : TorConfig) (k x : string) (v : value).

Lemma find_app_last {A : Type} (p : A -> bool) (l1 l2 : list A) (a : A) :
  p a = false -> find p (l1 ++ l2 ++ [a])%list = find p (l1 ++ l2)%list.
Proof.
  intros Hp. rewrite app_assoc.
  induction (l1 ++ l2)%list as [|y l IH]; simpl.
  - now rewrite Hp.
  - now destruct (p y).
Qed.

Lemma conf_changed_loop_cons self k v rest :
  conf_changed_loop self ((k, v) :: rest)
  = conf_changed_loop (conf_changed_step self k v) rest.
Proof. reflexivity. Qed.

Lemma conf_changed_loop_frame self its :
  conf_changed_loop self its
  = set_config self (config (conf_changed_loop self its)).
Proof.
  revert self. induction its as [|[k v] rest IH]; intros self.
  - now destruct self.
  - rewrite conf_changed_loop_cons, IH. reflexivity.
Qed.

(** A pair stored under another lower-cased name moves no real name. *)
Lemma _find_real_name_step_other self k v x :
  Py.lower k <> Py.lower x ->
  _find_real_name (conf_changed_step self k v) x = _find_real_name self x.
Proof.
  intros Hne. unfold conf_changed_step, _find_real_name at 1 3. simpl.
  rewrite dict_keys_set. destruct (dict.mem _ _); auto.
  rewrite find_app_last; auto.
  apply String.eqb_neq. now rewrite lower_find_real_name.
Qed.

Lemma get_step_other self k v x :
  Py.lower k <> Py.lower x ->
  dict.get (config (conf_changed_step self k v)) x = dict.get (config self) x.
Proof.
  intros Hne. simpl. apply dict_get_set_other.
  intros <-. now rewrite lower_find_real_name in Hne.
Qed.

Lemma conf_changed_loop_other self its x :
  (forall k, In k (dict.keys its) -> Py.lower k <> Py.lower x) ->
  dict.get (config (conf_changed_loop self its)) x = dict.get (config self) x.
Proof.
  revert self. induction its as [|[k v] rest IH]; intros self Hx; auto.
  rewrite conf_changed_loop_cons, IH.
  - apply get_step_other, Hx. now left.
  - intros k' Hk'. apply Hx. now right.
Qed.

Lemma conf_changed_loop_stored self its k v :
  NoDup (map Py.lower (dict.keys its)) -> In (k, v) its ->
  dict.get (config (conf_changed_loop self its)) (_find_real_name self k)
  = Some v.
Proof.
  revert self. induction its as [|[k0 v0] rest IH]; intros self Hnd Hin.
  - destruct Hin.
  - simpl in Hnd. apply NoDup_cons_iff in Hnd as [Hfresh Hnd].
    rewrite conf_changed_loop_cons. destruct Hin as [[= -> ->]|Hin].
    + rewrite conf_changed_loop_other.
      * simpl. apply dict_get_set_same.
      * intros k' Hk' Heq. apply Hfresh.
        rewrite lower_find_real_name in Heq. rewrite <- Heq.
        now apply in_map.
    + rewrite <- (_find_real_name_step_other self k0 v0 k).
      * now apply IH.
      * intros Heq. apply Hfresh. rewrite Heq.
        apply in_map. unfold dict.keys.
        change k with (fst (k, v)). now apply in_map.
Qed.

Lemma _find_real_name_unknown self k :
  (forall x, In x (dict.keys (parsers self) ++ dict.keys (config self))%list ->
     Py.lower x <> Py.lower k) ->
  _find_real_name self k = k.
Proof.
  intros Hun. unfold _find_real_name.
  destruct (find _ _) as [x|] eqn:F; auto.
  apply find_some in F as [Hin Heq]. apply String.eqb_eq in Heq.
  now apply Hun in Hin.
Qed.

(** C8, as the code has it.  [_conf_changed] changes the committed map
    and nothing else (the staged map is the old one).  When the keywords
    of the event differ from one another ignoring case, every pair is
    stored in the committed map under the real name of its keyword; a
    committed key that no keyword equals ignoring case keeps its value;
    and a keyword that names no known option is not dropped: the committed
    map gains an entry for the keyword as it was written. *)
Theorem C8_conf_changed_stores_every_pair self arg :
  let event := parse_keywords arg in
  let self' := _conf_changed parse_keywords self arg in
  self' = set_config self (config self')
  /\ unsaved self' = unsaved self
  /\ (NoDup (map Py.lower (dict.keys event)) ->
      forall k v, In (k, v) (dict.items event) ->
        dict.get (config self') (_find_real_name self k) = Some v)
  /\ (forall x,
        (forall k, In k (dict.keys event) -> Py.lower k <> Py.lower x) ->
        dict.get (config self') x = dict.get (config self) x)
  /\ (NoDup (map Py.lower (dict.keys event)) ->
      forall k v, In (k, v) (dict.items event) ->
        (forall x, In x (dict.keys (parsers self) ++ dict.keys (config self))%list ->
           Py.lower x <> Py.lower k) ->
        dict.get (config self') k = Some v).
Proof.
  intros event self'. subst self'. unfold _conf_changed. fold event.
  split; [apply conf_changed_loop_frame|].
  split; [now rewrite conf_changed_loop_frame|].
  split; [intros; now apply conf_changed_loop_stored|].
  split; [intros; now apply conf_changed_loop_other|].
  intros Hnd k v Hin Hun.
  rewrite <- (_find_real_name_unknown self k Hun) at 1.
  now apply conf_changed_loop_stored.
Qed.

End ConfChanged.

(** A bootstrapped config receives [CONF_CHANGED] for a keyword it has no
    option for: the committed map gains the keyword. *)
Lemma C8_counterexample :
  let parse_keywords := fun _ : string => [("NoSuchOption", torconfig.VStr "1")] in
  let self' :=
    torconfig._conf_changed parse_keywords torconfig_bootstrapped
      "NoSuchOption=1" in
  dict.mem (torconfig.config torconfig_bootstrapped) "NoSuchOption" = false
  /\ dict.get (torconfig.config self') "NoSuchOption" = Some (torconfig.VStr "1").
Proof. split; reflexivity. Qed.

Lemma C8_conf_changed_stores_every_pair_witness :
  let parse_keywords :=
    fun _ : string =>
      [("socksport", torconfig.VStr "9051"); ("NoSuchOption", torconfig.VStr "1")] in
  let self' :=
    torconfig._conf_changed parse_keywords torconfig_bootstrapped "" in
  dict.get (torconfig.config self') "SOCKSPort" = Some (torconfig.VStr "9051")
  /\ dict.get (torconfig.config self') "NoSuchOption" = Some (torconfig.VStr "1").
Proof.
  intros parse_keywords self'.
  destruct (C8_conf_changed_stores_every_pair parse_keywords
              torconfig_bootstrapped "") as (_ & _ & Hstored & _ & Hunknown).
  split.
  - apply (Hstored ltac:(repeat constructor; simpl; intuition discriminate)
             "socksport" (torconfig.VStr "9051")). simpl. auto.
  - apply (Hunknown ltac:(repeat constructor; simpl; intuition discriminate)
             "NoSuchOption" (torconfig.VStr "1")).
    + simpl. auto.
    + simpl. intros x [<-|[<-|[]]]; discriminate.
Defined.

(** ** torconfig: save *)
Section Save.
Import torconfig.
Variable str : value -> string.
Implicit Types (self : TorConfig) (set_conf : list value -> bool).

(** The loop of [save] writes the committed map only. *)
Lemma save_loop_unsaved self its args :
  unsaved (fst (save_loop str self its args)) = unsaved self.
Proof.
  revert self args. induction its as [|[key v] rest IH]; intros self args; auto.
  simpl. destruct (String.eqb key "HiddenServices").
  - destruct (iterate _ v) as [xs|e]; auto.
    destruct (hidden_service_args _ xs) as [more|e]; auto.
    now rewrite IH.
  - now rewrite IH.
Qed.

(** A refused [SETCONF] leaves the staged map as it was, and an accepted
    one empties it. *)
Lemma save_staged self set_conf :
  match snd (save str set_conf self) with
  | Ok callback => unsaved (fst (save str set_conf self)) = []
  | _ => unsaved (fst (save str set_conf self)) = unsaved self
  end.
Proof.
  unfold save.
  destruct (needs_save self) eqn:Hn; simpl.
  2: { unfold needs_save in Hn. destruct (unsaved self); [auto | discriminate]. }
  pose proof (save_loop_unsaved self (dict.items (unsaved self)) []) as Hl.
  destruct (save_loop str self (dict.items (unsaved self)) [])
    as [self1 [args|e]]; simpl in Hl |- *; auto.
  destruct (_protocol self1); simpl; auto.
  destruct (set_conf args); simpl; auto.
Qed.

(** With a protocol bound and one option staged, a refused [SETCONF]
    still leaves the staged value in the committed map. *)
Lemma save_refused_commits_staged self key v :
  _protocol self = true ->
  unsaved self = [(key, v)] ->
  String.eqb key "HiddenServices" = false ->
  save str (fun _ => false) self
  = (set_config self (dict.set (config self) (_find_real_name self key) v),
     Ok errback).
Proof.
  intros Hp Hu Hk. unfold save, needs_save. rewrite Hu.
  unfold dict.items. cbn [dict.len length Nat.ltb Nat.leb negb save_loop].
  rewrite Hk. cbn [save_loop _protocol set_config]. now rewrite Hp.
Qed.

(** C2, on an input where the code departs from it.
    A bootstrapped config with [SOCKSPort]
    committed as [9050]; the client stages [1337] and calls [save]; the
    daemon refuses the [SETCONF].  The handle fires its errback and the
    staged map is kept, but the committed map already holds [1337]: the
    loop of [save] wrote it before the command was sent. *)
Theorem C2_refused_save_overwrites_committed :
  let self := fst (__setattr__ torconfig_bootstrapped "SOCKSPort" (VInt 1337)) in
  let refuse := fun _ : list value => false in
  dict.get (config self) "SOCKSPort" = Some (VInt 9050)
  /\ dict.get (unsaved self) "SOCKSPort" = Some (VInt 1337)
  /\ fst (save_loop str self (dict.items (unsaved self)) [])
     = set_config self [("SOCKSPort", VInt 1337)]
  /\ snd (save_loop str self (dict.items (unsaved self)) [])
     = Ok [VStr "SOCKSPort"; VInt 1337]
  /\ save str refuse self
     = (set_config self [("SOCKSPort", VInt 1337)], Ok errback).
Proof. repeat split. Qed.

End Save.

(** ** torconfig: the change-tracking list *)
Section ListWrapperFacts.
Import torconfig.
Variable list_call : list_method -> list value -> result (list value * value).
Implicit Types (self : TorConfig) (obj : nat) (m : list_method).

(** Delegating to [list] changes the store only. *)
Lemma orig_call_unsaved m obj self :
  unsaved (fst (orig_call list_call m obj self)) = unsaved self.
Proof.
  unfold orig_call. destruct (nth_error _ _) as [w|]; auto.
  destruct (list_call m (items w)) as [[xs ret]|e]; auto.
Qed.

Lemma orig_call_same_committed m obj self :
  same_committed (fst (orig_call list_call m obj self)) self.
Proof.
  unfold orig_call. destruct (nth_error _ _) as [w|];
    [|apply same_committed_refl].
  destruct (list_call m (items w)) as [[xs ret]|e];
    simpl; now repeat split.
Qed.

Lemma dict_mem_len {V : Type} (d : dict.t V) k :
  dict.mem d k = true -> Nat.ltb 0 (dict.len d) = true.
Proof. destruct d; [discriminate | reflexivity]. Qed.

(** A notification for a committed name leaves the config needing a save. *)
Lemma mark_unsaved_needs_save self name :
  dict.mem (config self) (_find_real_name self name) = true ->
  exists self', mark_unsaved self name = Ok self'
                /\ needs_save self' = true /\ heap self' = heap self.
Proof.
  intros Hc. unfold mark_unsaved.
  rewrite _find_real_name_idem, Hc. simpl.
  destruct (dict.mem (unsaved self) _) eqn:Hu; simpl.
  - exists self. repeat split. eapply dict_mem_len; eauto.
  - destruct (dict_mem_get _ _ Hc) as [v ->].
    eexists. split; [reflexivity|]. split; [|reflexivity].
    unfold needs_save. simpl. apply Nat.ltb_lt.
    pose proof (dict_set_nonempty (unsaved self) (_find_real_name self name) v).
    lia.
Qed.

(** The seven rebound methods notify first: called on a wrapper whose name
    is committed they leave [needs_save] true, whatever [list] then does. *)
Lemma wraptured_method_needs_save m obj self w :
  wraptured m = true ->
  nth_error (heap self) obj = Some w ->
  dict.mem (config self) (_find_real_name self (on_modify w)) = true ->
  needs_save (fst (_ListWrapper_method list_call m obj self)) = true.
Proof.
  intros Hm Hw Hc.
  assert (H : needs_save (fst (_wrapture list_call m obj self)) = true).
  { unfold _wrapture, call_on_modify. rewrite Hw.
    destruct (mark_unsaved_needs_save self (on_modify w) Hc)
      as (self1 & -> & Hn & _).
    unfold needs_save in *. now rewrite orig_call_unsaved. }
  destruct m; try discriminate Hm; exact H.
Qed.

(** C4, on an input where the code departs from it.
    A bootstrapped config whose [SOCKSPort] is a
    wrapped list; the handle a read exposes is that wrapper.  [reverse] and
    [sort] are not among the rebound methods: called through the handle,
    once or in a row, they reach [list] without a notification and
    [needs_save] stays false, while [append] on the same handle sets it. *)
Theorem C4_reverse_and_sort_do_not_notify :
  let self := torconfig_with_list in
  __getattr__ self "SOCKSPort" = (self, Ok (VWrapper 0))
  /\ needs_save self = false
  /\ needs_save (fst (_ListWrapper_method list_call reverse 0 self)) = false
  /\ needs_save (fst (_ListWrapper_method list_call sort 0 self)) = false
  /\ needs_save (call_all list_call [reverse; sort; reverse] 0 self) = false
  /\ needs_save
       (fst (_ListWrapper_method list_call (append (VStr "9052")) 0 self))
     = true.
Proof.
  intros self. unfold needs_save, call_all. simpl _ListWrapper_method.
  rewrite !orig_call_unsaved.
  repeat split.
  change (needs_save
            (fst (_ListWrapper_method list_call (append (VStr "9052")) 0 self))
          = true).
  eapply wraptured_method_needs_save; reflexivity.
Qed.

End ListWrapperFacts.

(** ** torstate: the consensus parser *)
Section ConsensusParser.
Import torstate.
Variable hexIdFromHash : string -> string.
Variable strptime : string -> option Z.
Implicit Types (self : TorState) (x : string).

Lemma take2_cons a b rest :
  Py.take 2 (String a (String b rest)) = String a (String b "").
Proof. unfold Py.take. simpl. now destruct rest. Qed.

Lemma starts_inv a b x :
  starts (String a (String b "")) x = true ->
  exists rest, x = String a (String b rest).
Proof.
  unfold starts. intros H. apply String.eqb_eq in H.
  destruct x as [|c [|c' rest]]; try discriminate H.
  rewrite take2_cons in H. injection H as -> ->. eauto.
Qed.

Lemma starts_other two two' x :
  starts two x = true -> two <> two' -> starts two' x = false.
Proof.
  unfold starts. intros H Hne. apply String.eqb_eq in H. rewrite H.
  now apply String.eqb_neq.
Qed.

(** A line that opens with a letter and a blank is not one of the lines
    every state skips. *)
Lemma letter_line_not_ignorable c rest :
  Py.is_space c = false ->
  Ascii.eqb c "." = false -> Ascii.eqb c "O" = false ->
  Ascii.eqb c "n" = false ->
  ignorable_line (String c (String " " rest)) = false.
Proof.
  intros Hsp Hdot HO Hn. unfold ignorable_line.
  destruct (strip_head c (String " " rest) Hsp) as [u ->].
  unfold Py.take. simpl. now rewrite Hdot, HO, Hn.
Qed.

Lemma nth_error_replace_nth {A : Type} (l : list A) n (y x : A) :
  nth_error l n = Some y -> nth_error (replace_nth n x l) n = Some x.
Proof.
  revert n. induction l as [|a l IH]; intros [|n]; simpl; try discriminate; auto.
Qed.

Lemma current_router_inv self r router :
  current_router self = Some (r, router) ->
  _router self = Some r /\ nth_error (heap self) r = Some router.
Proof.
  unfold current_router. destruct (_router self) as [r'|]; [|discriminate].
  destruct (nth_error (heap self) r') eqn:E; simpl; [|discriminate].
  now intros [= <- <-].
Qed.

(** Of the transitions of [waiting_s], the one that raises is the only
    one whose guard accepts a header line, in whatever order guards are
    tried. *)
Lemma waiting_s_header_only_dies self x t :
  starts "r " x = true ->
  In t (transitions hexIdFromHash strptime waiting_s) ->
  matcher t x = true ->
  handler t x self = die "s" x self.
Proof.
  intros Hr Hin Hm.
  pose proof (starts_other "r " "s " x Hr ltac:(discriminate)) as Hs.
  pose proof (starts_other "r " "a " x Hr ltac:(discriminate)) as Ha.
  destruct (starts_inv _ _ _ Hr) as [rest Hx].
  assert (Hig : ignorable_line x = false)
    by (rewrite Hx; now apply letter_line_not_ignorable).
  assert (Hdot : String.eqb (Py.strip x) "." = false).
  { rewrite Hx. destruct (strip_head "r" (String " " rest) eq_refl) as [u ->].
    reflexivity. }
  cbn [transitions In] in Hin.
  destruct Hin as [<-|[<-|[<-|[<-|[<-|[]]]]]]; cbn [matcher handler] in *;
    try congruence; reflexivity.
Qed.

(** C5, as the code has it.  In state [waiting_s] an [s] line runs
    [_router_flags] and moves to [waiting_w]: the flags of the current
    router become the words after the [s], in lower case.  An [a] line
    runs [_router_address] and stays in [waiting_s]: the address is added
    to the router's IPv6 addresses.  An [r] line is not taken as the next
    header: the only transition that accepts it is the one that raises
    [Expected "s "], so [_router_begin] does not run and the parser and
    its state are as before. *)
Theorem C5_waiting_s_transitions self x :
  parser_state self = waiting_s ->
  (starts "s " x = true ->
     process hexIdFromHash strptime x self
     = match _router_flags x self with
       | (self', Ok _) => (set_parser_state self' waiting_w, Ok tt)
       | (self', Raise e) => (self', Raise e)
       end
     /\ forall r router, current_router self = Some (r, router) ->
         exists self',
           process hexIdFromHash strptime x self = (self', Ok tt)
           /\ parser_state self' = waiting_w
           /\ option_map flags (nth_error (heap self') r)
              = Some (map Py.lower (tl (Py.split x))))
  /\ (starts "a " x = true ->
     process hexIdFromHash strptime x self
     = match _router_address x self with
       | (self', Ok _) => (set_parser_state self' waiting_s, Ok tt)
       | (self', Raise e) => (self', Raise e)
       end
     /\ forall r router a, current_router self = Some (r, router) ->
         nth_error (Py.split x) 1 = Some a ->
         exists self',
           process hexIdFromHash strptime x self = (self', Ok tt)
           /\ parser_state self' = waiting_s
           /\ option_map ip_v6 (nth_error (heap self') r)
              = Some (ip_v6 router ++ [Py.strip a])%list)
  /\ (starts "r " x = true ->
     process hexIdFromHash strptime x self = die "s" x self
     /\ fst (process hexIdFromHash strptime x self) = self
     /\ exists msg,
          snd (process hexIdFromHash strptime x self)
          = Raise (RuntimeError msg)).
Proof.
  intros Hstate. unfold process. rewrite Hstate.
  split; [|split].
  - intros Hs. cbn [transitions find matcher]. rewrite Hs. simpl. split; auto.
    intros r router Hcur. unfold _router_flags. rewrite Hcur.
    destruct (current_router_inv _ _ _ Hcur) as [_ Hnth].
    eexists. split; [reflexivity|]. split; [reflexivity|].
    repeat match goal with
           | |- context [if ?b then _ else _] => destruct b
           end; simpl;
      erewrite nth_error_replace_nth by eassumption; reflexivity.
  - intros Ha. cbn [transitions find matcher].
    rewrite (starts_other "a " "s " x Ha) by discriminate.
    rewrite Ha. simpl. split; auto.
    intros r router a Hcur Hsplit. unfold _router_address, arg.
    change (nth_error (Py.split x) 1 = Some a) in Hsplit.
    rewrite Hcur, Hsplit.
    destruct (current_router_inv _ _ _ Hcur) as [_ Hnth].
    eexists. split; [reflexivity|]. split; [reflexivity|]. simpl.
    erewrite nth_error_replace_nth by eassumption. reflexivity.
  - intros Hr. cbn [transitions find matcher].
    rewrite (starts_other "r " "s " x Hr) by discriminate.
    rewrite (starts_other "r " "a " x Hr) by discriminate.
    destruct (starts_inv _ _ _ Hr) as [rest ->].
    rewrite letter_line_not_ignorable by reflexivity.
    simpl. eauto.
Qed.

End ConsensusParser.

(** After the header of [Nick] the parser waits for its [s] line; the
    header of a second router, fed in that state, raises and indexes
    nothing. *)
Lemma C5_counterexample :
  let line := "r Other CCCC DDDD 2024-05-01 12:00:00 10.0.0.2 9001 0" in
  let run :=
    torstate.process sample_hexIdFromHash sample_strptime line
      torstate_after_header in
  torstate.parser_state torstate_after_header = torstate.waiting_s
  /\ run = torstate.die "s" line torstate_after_header
  /\ torstate.parser_state (fst run) = torstate.waiting_s
  /\ dict.mem (torstate.routers (fst run)) "Other" = false.
Proof. repeat split. Qed.

Lemma C5_waiting_s_transitions_witness :
  exists self',
    torstate.process sample_hexIdFromHash sample_strptime "s Guard Fast Running"
      torstate_after_header = (self', Ok tt)
    /\ torstate.parser_state self' = torstate.waiting_w
    /\ option_map torstate.flags (nth_error (torstate.heap self') 0)
       = Some ["guard"; "fast"; "running"].
Proof.
  destruct (C5_waiting_s_transitions sample_hexIdFromHash sample_strptime
              torstate_after_header "s Guard Fast Running" eq_refl)
    as [Hs _].
  destruct (Hs eq_refl) as [_ Hflags].
  exact (Hflags 0 _ eq_refl).
Defined.

(** ** torstate: nicknames *)
Section Nicknames.
Import torstate.
Variable hexIdFromHash : string -> string.
Variable strptime : string -> option Z.
Implicit Types (self : TorState) (data : string).

(** A header whose fingerprint and nickname are both absent from [routers]
    takes the nickname's slot, whatever [routers_by_name] lists under that
    nickname. *)
Lemma _router_begin_takes_free_name self data w nm idh orh day tm ipaddr orp dirp t :
  Py.split data = [w; nm; idh; orh; day; tm; ipaddr; orp; dirp] ->
  strptime (day ++ tm) = Some t ->
  dict.get (routers self) (hexIdFromHash idh) = None ->
  dict.mem (routers self) nm = false ->
  hexIdFromHash idh <> nm ->
  let self' := fst (_router_begin hexIdFromHash strptime data self) in
  snd (_router_begin hexIdFromHash strptime data self) = Ok tt
  /\ dict.get (routers self') nm = Some (Some (length (heap self)))
  /\ dict.get (routers_by_name self') nm
     = Some (match dict.get (routers_by_name self) nm with
             | Some dups => dups ++ [length (heap self)]
             | None => [length (heap self)]
             end)%list.
Proof.
  intros Hsplit Ht Hid Hnm Hne. unfold _router_begin.
  rewrite Hsplit. cbn [arg nth_error bind]. rewrite Ht. cbn [bind].
  destruct self; cbn [routers routers_by_name heap] in *.
  cbv [store_router set__router set_heap Router_update
       Router_set_from_consensus Router_new set_all_routers
       set_routers_by_hash set_routers set_routers_by_name
       heap _router all_routers routers routers_by_name routers_by_hash
       guards authorities entry_guards parser_state circuits attacher
       commands attach_stream_calls callbacks warned
       id_hex name flags ip_v6 bandwidth policy from_consensus].
  rewrite Hid.
  cbv [set_all_routers set_routers_by_hash set_routers set_routers_by_name
       heap _router all_routers routers routers_by_name routers_by_hash
       guards authorities entry_guards parser_state circuits attacher
       commands attach_stream_calls callbacks warned fst snd].
  rewrite Hnm. split; [reflexivity|]. split.
  - rewrite dict_get_set_other by congruence. apply dict_get_set_same.
  - match goal with
    | |- context [match ?d with Some _ => _ | None => _ end] => destruct d
    end; apply dict_get_set_same.
Qed.

(** After an update no nickname is left marked as not unique: the marks
    are deleted, and with them the memory that the name has duplicates. *)
Lemma _update_network_status_drops_marks self data self' :
  _update_network_status hexIdFromHash strptime data self = (self', Ok tt) ->
  forall k, dict.get (routers self') k <> Some None.
Proof.
  unfold _update_network_status.
  destruct (process_lines _ _ _ _) as [s1 [[]|e]]; [|discriminate].
  intros [= <-] k. cbn [routers set_routers].
  induction (routers s1) as [|[k' [r|]] d IH]; simpl; auto; try discriminate.
  destruct (String.eqb k' k); [discriminate | exact IH].
Qed.

End Nicknames.

(** C6, on an input where the code departs from it.
    The bootstrap reads a consensus with two
    routers called [Dup]: [routers] has no entry for the name and
    [routers_by_name] lists both.  A [NEWCONSENSUS] event then lists a
    third router called [Dup]: the mark of the first parse is gone, so the
    newcomer takes [routers["Dup"]] although [routers_by_name["Dup"]] now
    lists three routers. *)
Theorem C6_reparse_hands_out_duplicate_nickname :
  let boot :=
    torstate._bootstrap_ns sample_hexIdFromHash sample_strptime
      consensus_two_dups "" torstate.__init__ in
  let after :=
    torstate._update_network_status sample_hexIdFromHash sample_strptime
      newconsensus_third_dup (fst boot) in
  snd boot = Ok tt
  /\ dict.get (torstate.routers (fst boot)) "Dup" = None
  /\ dict.get (torstate.routers_by_name (fst boot)) "Dup" = Some [0; 1]
  /\ snd after = Ok tt
  /\ dict.get (torstate.routers (fst after)) "Dup" = Some (Some 2)
  /\ dict.get (torstate.routers_by_name (fst after)) "Dup" = Some [0; 1; 2]
  /\ map torstate.name (torstate.heap (fst after)) = ["Dup"; "Dup"; "Dup"]
  /\ map torstate.id_hex (torstate.heap (fst after))
     = ["$AAAA"; "$BBBB"; "$CCCC"].
Proof. vm_compute. repeat split. Qed.

(** ** torstate: the attacher bridge *)
Section Attacher.
Import torstate.
Implicit Types (self : TorState) (stream : Stream).

(** Whether [_maybe_attach] leaves the stream alone because of its host. *)
Lemma _maybe_attach_calls self stream attach_stream :
  attacher self = Some attach_stream ->
  attach_stream_calls (fst (_maybe_attach stream self))
  = (attach_stream_calls self
     ++ if match target_host stream with
           | Some host => Py.contains ".exit" host
           | None => false
           end
        then [] else [stream_id stream])%list.
Proof.
  intros Ha. unfold _maybe_attach. rewrite Ha.
  destruct (match target_host stream with Some _ => _ | None => _ end);
    [simpl; now rewrite app_nil_r|].
  destruct (attach_stream _ _) as [| |circ|d]; simpl; auto.
  destruct (circuit_id circ) as [cid|]; simpl; auto.
  destruct (negb (zmem _ _)); simpl; auto.
  destruct (negb (String.eqb _ _)); simpl; auto.
Qed.

(** The path for a circuit returned at once: a circuit that is not tracked,
    or not [BUILT], raises and nothing is sent. *)
Lemma _maybe_attach_circuit_checked self stream attach_stream circ :
  attacher self = Some attach_stream ->
  match target_host stream with
  | Some host => Py.contains ".exit" host
  | None => false
  end = false ->
  attach_stream stream (circuits self) = attach_Circuit circ ->
  match circuit_id circ with
  | Some cid => zmem (circuits self) cid && String.eqb (circuit_state circ) "BUILT"
  | None => false
  end = false ->
  commands (fst (_maybe_attach stream self)) = commands self
  /\ exists msg, snd (_maybe_attach stream self) = Raise (RuntimeError msg).
Proof.
  intros Ha Hhost Hret Hbad. unfold _maybe_attach.
  rewrite Ha, Hhost. cbn [circuits set_attach_stream_calls]. rewrite Hret.
  destruct (circuit_id circ) as [cid|]; [|simpl; eauto].
  destruct (zmem (circuits self) cid); simpl in *; [|eauto].
  rewrite Hbad. simpl. eauto.
Qed.

(** C3, on an input where the code departs from it.
    The attacher answers stream 1 with a pending
    Deferred; nothing is sent, and the callback is stored.  The Deferred
    then fires with circuit 5, in any state [st] (say [EXTENDED]) and
    whether or not [tracked] knows it: [ATTACHSTREAM 1 5] is sent and
    nothing is raised. *)
Theorem C3_deferred_circuit_is_not_checked (st : string)
    (tracked : list (Z * Circuit)) :
  let stream := mkStream 1 (Some "example.com") in
  let self := torstate_with_attacher (fun _ _ => attach_Deferred 0) tracked in
  let pending := fst (_maybe_attach stream self) in
  snd (_maybe_attach stream self) = Ok tt
  /\ commands pending = []
  /\ callbacks pending = [(0%nat, 1%Z)]
  /\ IssueStreamAttach 1 (mkCircuit (Some 5%Z) st) pending
     = (queue_command pending "ATTACHSTREAM 1 5", Ok tt)
  /\ commands (Deferred_callback 0 (mkCircuit (Some 5%Z) st) pending)
     = ["ATTACHSTREAM 1 5"].
Proof. repeat split. Qed.

(** C9, on an input where the code departs from it.
    The host [www.exit.example.com] does not end
    with [.exit], but it contains it: the stream is dropped before the
    attacher is asked and nothing is sent.  The same attacher is asked
    about [example.com], and [ATTACHSTREAM 7 0] follows its [None]. *)
Theorem C9_exit_inside_host_is_ignored :
  let self := torstate_with_attacher (fun _ _ => attach_None) [] in
  let inside := mkStream 7 (Some "www.exit.example.com") in
  let plain := mkStream 7 (Some "example.com") in
  Py.endswith ".exit" "www.exit.example.com" = false
  /\ _maybe_attach inside self = (self, Ok tt)
  /\ attach_stream_calls (fst (_maybe_attach inside self)) = []
  /\ commands (fst (_maybe_attach inside self)) = []
  /\ attach_stream_calls (fst (_maybe_attach plain self)) = [7%Z]
  /\ commands (fst (_maybe_attach plain self)) = ["ATTACHSTREAM 7 0"].
Proof. repeat split. Qed.

End Attacher.

(** ** torstate: build_circuit *)
Section BuildCircuitFacts.
Import torstate.
Variable hashFromHexId : string -> result string.
Implicit Types (self : TorState) (routers : list path_element).

Lemma zget_zset_same {V : Type} (d : list (Z * V)) k v :
  zget (zset d k v) k = Some v.
Proof.
  induction d as [|[k' v'] d IH]; simpl.
  - now rewrite Z.eqb_refl.
  - destruct (Z.eqb k' k) eqn:E; simpl; rewrite E; auto.
Qed.

(** The loop over accepted elements joins their texts with commas. *)
Lemma build_circuit_loop_accepted self routers texts :
  Forall2 (accepted hashFromHexId self) routers texts ->
  forall first cmd,
    build_circuit_loop hashFromHexId self routers first cmd
    = Ok (cmd ++ match texts with
                 | [] => ""
                 | _ => (if first then "" else ",") ++ Py.join "," texts
                 end).
Proof.
  induction 1 as [|router text routers texts Hacc Hrest IH]; intros first cmd.
  - simpl. now rewrite append_nil_r.
  - assert (Hstep :
      build_circuit_loop hashFromHexId self (router :: routers) first cmd
      = build_circuit_loop hashFromHexId self routers false
          ((if first then cmd else cmd ++ ",") ++ text)).
    { simpl. destruct router as [r|s]; simpl in Hacc.
      - destruct Hacc as (x & -> & ->). reflexivity.
      - destruct Hacc as (Hlen & (h & -> & Hh) & ->).
        apply Nat.eqb_eq in Hlen. rewrite Hlen.
        apply String.eqb_neq in Hh. now rewrite Hh. }
    rewrite Hstep, IH. f_equal.
    destruct texts as [|text' texts]; destruct first; simpl;
      rewrite ?append_nil_r, ?append_assoc; reflexivity.
Qed.

(** One string that is not 40 characters long makes the loop raise. *)
Lemma build_circuit_loop_bad_length self routers s :
  In (path_str s) routers -> String.length s <> 40 ->
  forall first cmd,
    exists e, build_circuit_loop hashFromHexId self routers first cmd = Raise e.
Proof.
  intros Hin Hlen. induction routers as [|router routers IH]; [destruct Hin|].
  intros first cmd. simpl.
  destruct router as [r|s'].
  - destruct (nth_error (heap self) r); [|eauto].
    apply IH. destruct Hin as [Heq|Hin]; [discriminate | exact Hin].
  - destruct (Nat.eqb (String.length s') 40) eqn:E; [|eauto].
    destruct (hashFromHexId s') as [h|e]; [|eauto].
    destruct (String.eqb h ""); [eauto|].
    apply IH. destruct Hin as [[= ->]|Hin]; [|exact Hin].
    apply Nat.eqb_eq in E. contradiction.
Qed.

(** C7, as the code has it.  With no path, or an empty one, the command
    is [EXTENDCIRCUIT 0].  With a path of accepted elements (a [Router], or
    a string of 40 characters [hashFromHexId] takes) it is
    [EXTENDCIRCUIT 0] followed by the comma-joined ids, a router giving its
    [id_hex] without the leading [$] and a string itself.  A string of any
    other length, a [$]-prefixed id among them, is not accepted:
    [build_circuit] raises and sends nothing.  The reply [EXTENDED n]
    yields the circuit with id [n], tracked under [n]; a reply that is not
    [EXTENDED] and one id raises. *)
Theorem C7_build_circuit_command self using_guards :
  (forall path, path = None \/ path = Some [] ->
     build_circuit hashFromHexId path using_guards self
     = (queue_command self "EXTENDCIRCUIT 0", Ok tt))
  /\ (forall routers texts,
       routers <> [] ->
       Forall2 (accepted hashFromHexId self) routers texts ->
       let run := build_circuit hashFromHexId (Some routers) using_guards self in
       snd run = Ok tt
       /\ commands (fst run)
          = (commands self
             ++ [("EXTENDCIRCUIT 0 " ++ Py.join "," texts)%string])%list)
  /\ (forall routers s,
       In (path_str s) routers -> String.length s <> 40 ->
       let run := build_circuit hashFromHexId (Some routers) using_guards self in
       commands (fst run) = commands self /\ exists e, snd run = Raise e)
  /\ (forall x cid n,
       Py.split x = ["EXTENDED"; cid] -> Py.int cid = Some n ->
       (forall c, zget (circuits self) n = Some c -> circuit_id c = Some n) ->
       exists self' circ,
         _find_circuit_after_extend x self = (self', Ok circ)
         /\ circuit_id circ = Some n
         /\ circuit_state circ = "EXTENDED"
         /\ zget (circuits self') n = Some circ)
  /\ (forall x,
       (forall cid, Py.split x <> ["EXTENDED"; cid]) ->
       exists e, _find_circuit_after_extend x self = (self, Raise e)).
Proof.
  split; [|split; [|split; [|split]]].
  - intros path [->| ->]; reflexivity.
  - intros routers texts Hne Hacc run. subst run.
    destruct routers as [|first rest]; [congruence|].
    unfold build_circuit.
    set (self1 := if using_guards && negb (is_entry_guard self first)
                  then _ else self).
    assert (Hheap : heap self1 = heap self)
      by (subst self1; destruct (_ && _); reflexivity).
    assert (Hcmds : commands self1 = commands self)
      by (subst self1; destruct (_ && _); reflexivity).
    assert (Hacc1 : Forall2 (accepted hashFromHexId self1) (first :: rest) texts).
    { eapply Forall2_impl; [|exact Hacc].
      intros [r|s] t; unfold accepted; now rewrite ?Hheap. }
    rewrite (build_circuit_loop_accepted self1 _ _ Hacc1).
    inversion Hacc; subst. simpl. now rewrite Hcmds.
  - intros routers s Hin Hlen run. subst run.
    destruct routers as [|first rest]; [destruct Hin|].
    unfold build_circuit.
    set (self1 := if using_guards && negb (is_entry_guard self first)
                  then _ else self).
    assert (Hcmds : commands self1 = commands self)
      by (subst self1; destruct (_ && _); reflexivity).
    destruct (build_circuit_loop_bad_length self1 _ s Hin Hlen true
                "EXTENDCIRCUIT 0 ") as [e ->].
    simpl. eauto.
  - intros x cid n Hsplit Hint Hinv.
    unfold _find_circuit_after_extend. rewrite Hsplit, Hint. simpl negb.
    cbv iota. unfold Circuit_update. cbn [arg nth_error bind].
    rewrite int_fmt_d. cbn [String.eqb Ascii.eqb Bool.eqb orb].
    unfold _maybe_create_circuit.
    destruct (zget (circuits self) n) as [c|] eqn:Hget.
    + rewrite (Hinv c eq_refl). do 2 eexists.
      split; [reflexivity|]. repeat split. apply zget_zset_same.
    + do 2 eexists. split; [reflexivity|]. repeat split. apply zget_zset_same.
  - intros x Hnot. unfold _find_circuit_after_extend.
    destruct (Py.split x) as [|ex [|cid [|? ?]]]; eauto.
    destruct (String.eqb ex "EXTENDED") eqn:E; simpl; eauto.
    apply String.eqb_eq in E. subst ex. now destruct (Hnot cid).
Qed.

End BuildCircuitFacts.

(** A path given as a [$]-prefixed id: 41 characters, so it is taken for
    a [Router], has no [id_hex], and no command is sent. *)
Lemma C7_counterexample :
  let dollar_id := "$" ++ hex_A in
  String.length dollar_id = 41
  /\ torstate.build_circuit sample_hashFromHexId
       (Some [torstate.path_str dollar_id]) false torstate.__init__
     = (torstate.__init__, Raise AttributeError).
Proof. split; reflexivity. Qed.

(** A router and a bare 40-hex id, as in the spec's scenario. *)
Lemma C7_build_circuit_command_witness :
  let run :=
    torstate.build_circuit sample_hashFromHexId
      (Some [torstate.path_Router 0; torstate.path_str hex_B]) false
      torstate_one_router in
  snd run = Ok tt
  /\ torstate.commands (fst run)
     = ["EXTENDCIRCUIT 0 " ++ hex_A ++ "," ++ hex_B].
Proof.
  intros run.
  destruct (C7_build_circuit_command sample_hashFromHexId torstate_one_router
              false) as (_ & Hpath & _).
  apply (Hpath [torstate.path_Router 0; torstate.path_str hex_B]
           [hex_A; hex_B]).
  - discriminate.
  - apply Forall2_cons; [|apply Forall2_cons; [|apply Forall2_nil]].
    + simpl. eexists. split; reflexivity.
    + simpl. split; [reflexivity|]. split; [|reflexivity].
      eexists. split; [reflexivity | discriminate].
Defined.

(** * Further properties of torconfig *)
Section SaveFacts.
Import torconfig.
Variable str : value -> string.
Implicit Types (self : TorConfig) (k x : string) (v : value).

(** One turn of the loop of [save], as far as the maps go. *)
Lemma save_loop_cons self k v rest args :
  let self1 :=
    set_config self (dict.set (config self) (committed_name self k) v) in
  (exists e, save_loop str self ((k, v) :: rest) args = (self1, Raise e))
  \/ (exists args', save_loop str self ((k, v) :: rest) args
                    = save_loop str self1 rest args').
Proof.
  unfold committed_name. simpl.
  destruct (String.eqb k "HiddenServices") eqn:E.
  - destruct (iterate _ v) as [xs|e]; [|eauto].
    destruct (hidden_service_args _ xs) as [more|e]; eauto.
  - eauto.
Qed.

Lemma lower_committed_name self k :
  Py.lower (committed_name self k) = Py.lower k.
Proof.
  unfold committed_name. destruct (String.eqb k "HiddenServices") eqn:E.
  - apply String.eqb_eq in E. now subst.
  - apply lower_find_real_name.
Qed.

Lemma _find_real_name_set_other self x' v x :
  Py.lower x' <> Py.lower x ->
  _find_real_name (set_config self (dict.set (config self) x' v)) x
  = _find_real_name self x.
Proof.
  intros Hne. unfold _find_real_name. simpl.
  rewrite dict_keys_set. destruct (dict.mem _ _); auto.
  rewrite find_app_last; auto. now apply String.eqb_neq.
Qed.

Lemma committed_name_set_other self x' v x :
  Py.lower x' <> Py.lower x ->
  committed_name (set_config self (dict.set (config self) x' v)) x
  = committed_name self x.
Proof.
  intros Hne. unfold committed_name.
  destruct (String.eqb x "HiddenServices"); auto.
  now apply _find_real_name_set_other.
Qed.

Lemma save_loop_other self its args x :
  (exists a, snd (save_loop str self its args) = Ok a) ->
  (forall k, In k (dict.keys its) -> Py.lower k <> Py.lower x) ->
  dict.get (config (fst (save_loop str self its args))) x
  = dict.get (config self) x.
Proof.
  revert self args. induction its as [|[k v] rest IH]; intros self args Hok Hx.
  - reflexivity.
  - destruct (save_loop_cons self k v rest args) as [[e He]|[args' He]];
      rewrite He in *.
    + destruct Hok as [a Ha]. discriminate Ha.
    + rewrite IH; auto.
      * simpl. apply dict_get_set_other. intros Heq.
        apply (Hx k); [now left|]. rewrite <- Heq.
        symmetry. apply lower_committed_name.
      * intros k' Hk'. apply Hx. now right.
Qed.

Lemma save_loop_stored self its args k v :
  (exists a, snd (save_loop str self its args) = Ok a) ->
  NoDup (map Py.lower (dict.keys its)) -> In (k, v) its ->
  dict.get (config (fst (save_loop str self its args))) (committed_name self k)
  = Some v.
Proof.
  revert self args. induction its as [|[k0 v0] rest IH];
    intros self args Hok Hnd Hin; [destruct Hin|].
  simpl in Hnd. apply NoDup_cons_iff in Hnd as [Hfresh Hnd].
  destruct (save_loop_cons self k0 v0 rest args) as [[e He]|[args' He]];
    rewrite He in *.
  - destruct Hok as [a Ha]. discriminate Ha.
  - destruct Hin as [[= -> ->]|Hin].
    + rewrite save_loop_other; auto.
      * simpl. apply dict_get_set_same.
      * intros k' Hk' Heq. apply Hfresh.
        rewrite lower_committed_name in Heq. rewrite <- Heq.
        now apply in_map.
    + rewrite <- (committed_name_set_other self (committed_name self k0) v0 k).
      * now apply IH.
      * rewrite lower_committed_name. intros Heq. apply Hfresh. rewrite Heq.
        apply in_map. unfold dict.keys.
        change k with (fst (k, v)). now apply in_map.
Qed.

(** X1. What [save] does to the staged map follows its outcome: when the
    handle fires its callback the staged map is empty, [needs_save] is
    false and another [save] does nothing and sends nothing, whatever the
    daemon would answer; when it fires its errback, or [save] raises, the
    staged map is the one before the call. *)
Theorem save_staged_by_outcome set_conf self :
  let run := save str set_conf self in
  match snd run with
  | Ok callback =>
      unsaved (fst run) = [] /\ needs_save (fst run) = false
      /\ forall set_conf', save str set_conf' (fst run) = (fst run, Ok callback)
  | _ => unsaved (fst run) = unsaved self
  end.
Proof.
  intros run. pose proof (save_staged str self set_conf) as H.
  fold run in H. destruct (snd run) as [[]|e]; auto.
  split; [exact H|]. unfold save, needs_save. rewrite H. simpl. auto.
Qed.

(** X2. A [save] whose handle fires its callback has promoted the staged
    map: when the staged keys differ from one another ignoring case, every
    staged value is the committed value of its key's committed name (the
    real name, or [HiddenServices] itself), and the staged map is empty. *)
Theorem save_promotes_staged set_conf self self' :
  save str set_conf self = (self', Ok callback) ->
  NoDup (map Py.lower (dict.keys (unsaved self))) ->
  unsaved self' = []
  /\ forall k v, In (k, v) (dict.items (unsaved self)) ->
       dict.get (config self') (committed_name self k) = Some v.
Proof.
  intros Hsave Hnd.
  pose proof (save_staged str self set_conf) as Hst.
  rewrite Hsave in Hst. simpl in Hst. split; [exact Hst|].
  intros k v Hin. unfold save in Hsave.
  destruct (needs_save self) eqn:Hn; simpl in Hsave.
  2: { unfold needs_save in Hn. unfold dict.items in Hin.
       destruct (unsaved self); [destruct Hin | discriminate]. }
  pose proof (save_loop_stored self (dict.items (unsaved self)) [] k v) as Hl.
  destruct (save_loop str self (dict.items (unsaved self)) [])
    as [self1 [args|e]] eqn:Hloop; [|discriminate].
  simpl in Hl. specialize (Hl ltac:(eauto) Hnd Hin).
  destruct (_protocol self1); [destruct (set_conf args)|];
    injection Hsave as <-; try discriminate; exact Hl.
Qed.

Lemma as_list_set_config self d v :
  as_list (set_config self d) v = as_list self v.
Proof. now destruct v. Qed.

Lemma save_loop_args self its args :
  existsb (fun kv => String.eqb (fst kv) "HiddenServices") its = false ->
  snd (save_loop str self its args)
  = Ok (args ++ flat_map (staged_args str self) its)%list.
Proof.
  revert self args. induction its as [|[k v] rest IH]; intros self args Hhs.
  - simpl. now rewrite app_nil_r.
  - simpl in Hhs. apply orb_false_elim in Hhs as [Hk Hrest].
    simpl. rewrite Hk, IH by exact Hrest.
    unfold staged_args at 2. simpl fst. simpl snd.
    f_equal. destruct (as_list self v) as [xs|]; rewrite <- app_assoc;
      f_equal; f_equal; apply flat_map_ext; intros [k' v'];
      unfold staged_args; now rewrite as_list_set_config.
Qed.

(** X3. With no hidden services staged, the arguments of the one
    [SETCONF] follow the staged map in order: the key and the value of a
    plain entry, and for a list the key before each of its elements, so a
    staged empty list adds nothing to the command although it is
    committed. *)
Theorem save_sends_a_pair_per_element self :
  existsb (fun kv => String.eqb (fst kv) "HiddenServices")
    (dict.items (unsaved self)) = false ->
  snd (save_loop str self (dict.items (unsaved self)) [])
  = Ok (flat_map (staged_args str self) (dict.items (unsaved self))).
Proof. intros H. now rewrite save_loop_args. Qed.

End SaveFacts.

Lemma save_promotes_staged_witness :
  dict.get
    (torconfig.config
       (fst (torconfig.save sample_str (fun _ => true) torconfig_staged_port)))
    "SOCKSPort"
  = Some (torconfig.VInt 1337).
Proof.
  refine (proj2 (save_promotes_staged sample_str (fun _ => true)
                   torconfig_staged_port _ eq_refl _)
            "SOCKSPort" (torconfig.VInt 1337) _).
  - repeat constructor. simpl. tauto.
  - simpl. auto.
Defined.

Lemma save_sends_a_pair_per_element_witness :
  snd (torconfig.save_loop sample_str torconfig_with_list
         [("SOCKSPort", torconfig.VWrapper 0); ("Nickname", torconfig.VStr "me")]
         [])
  = Ok [torconfig.VStr "SOCKSPort"; torconfig.VStr "9050";
        torconfig.VStr "SOCKSPort"; torconfig.VStr "1337";
        torconfig.VStr "Nickname"; torconfig.VStr "me"].
Proof.
  exact (save_sends_a_pair_per_element sample_str
           (torconfig.set_unsaved torconfig_with_list
              [("SOCKSPort", torconfig.VWrapper 0);
               ("Nickname", torconfig.VStr "me")])
           eq_refl).
Defined.

Section WriteAndRead.
Import torconfig.
Implicit Types (self : TorConfig) (name : string) (v : value).

(** X4. A write that raises has changed nothing, and it raises either
    [KeyError], for a name that has no parser on a config that validates,
    or the [ValueError] of the parser. *)
Theorem __setattr___failure_changes_nothing self name v e :
  snd (__setattr__ self name v) = Raise e ->
  fst (__setattr__ self name v) = self
  /\ (e = KeyError (_find_real_name self name)
      /\ _slutty_ self = false
      /\ dict.get (parsers self) (_find_real_name self name) = None
      \/ exists msg, e = ValueError msg).
Proof.
  unfold __setattr__. cbv zeta.
  set (rn := _find_real_name self name).
  destruct (negb (_slutty_ self)) eqn:Hs; simpl andb; cbv iota.
  2: { destruct (as_list self v); simpl; intros H; discriminate H. }
  destruct (negb (is_hidden_services rn)).
  2: { destruct (as_list self v); simpl; intros H; discriminate H. }
  destruct (dict.get (parsers self) rn) as [p|] eqn:Hp.
  - unfold validate.
    destruct p;
      try (destruct (as_list self v); simpl; intros H; discriminate H).
    destruct (as_list self v) as [xs|] eqn:Hl; simpl.
    + rewrite nth_error_app2 by lia. rewrite Nat.sub_diag. simpl.
      intros H; discriminate H.
    + intros [= <-]. eauto.
  - simpl. intros [= <-]. split; auto. left. repeat split; auto.
    now destruct (_slutty_ self).
Qed.

Lemma find_app_keep {A : Type} (p : A -> bool) (l l' : list A) (a : A) :
  find p l = Some a -> find p (l ++ l') = Some a.
Proof.
  induction l as [|y l IH]; simpl; [discriminate|].
  destruct (p y); auto.
Qed.




(** X6. A mutation that [list] refuses has still notified: a rebound
    method called on a wrapper whose name is committed leaves the store as
    it was and raises what [list] raised, and the config needs a save all
    the same. *)
Theorem refused_mutation_still_marks_unsaved list_call m obj self w e :
  wraptured m = true ->
  nth_error (heap self) obj = Some w ->
  dict.mem (config self) (_find_real_name self (on_modify w)) = true ->
  list_call m (items w) = Raise e ->
  let run := _ListWrapper_method list_call m obj self in
  snd run = Raise e
  /\ heap (fst run) = heap self
  /\ config (fst run) = config self
  /\ needs_save (fst run) = true.
Proof.
  intros Hm Hw Hc Hraise run.
  assert (H : run = _wrapture list_call m obj self)
    by (subst run; destruct m; try discriminate Hm; reflexivity).
  rewrite H. unfold _wrapture, call_on_modify. rewrite Hw.
  destruct (mark_unsaved_needs_save self (on_modify w) Hc)
    as (self1 & Hmark & Hn & Hheap).
  rewrite Hmark. unfold orig_call. rewrite Hheap, Hw, Hraise. simpl.
  repeat split; auto.
  unfold mark_unsaved in Hmark.
  destruct (andb _ _); [|now injection Hmark as <-].
  destruct (dict.get _ _); [|discriminate]. now injection Hmark as <-.
Qed.

End WriteAndRead.

Lemma __setattr___failure_changes_nothing_witness :
  fst (torconfig.__setattr__ torconfig_bootstrapped "NoSuchOption"
         (torconfig.VInt 1))
  = torconfig_bootstrapped
  /\ snd (torconfig.__setattr__ torconfig_bootstrapped "NoSuchOption"
            (torconfig.VInt 1))
     = Raise (KeyError "NoSuchOption").
Proof.
  split; [|reflexivity].
  exact (proj1 (__setattr___failure_changes_nothing torconfig_bootstrapped
                  "NoSuchOption" (torconfig.VInt 1) _ eq_refl)).
Defined.


Lemma refused_mutation_still_marks_unsaved_witness :
  let empty_pop := fun (_ : torconfig.list_method) (_ : list torconfig.value) =>
                     @Raise (list torconfig.value * torconfig.value) IndexError in
  let run :=
    torconfig._ListWrapper_method empty_pop (torconfig.pop None) 0
      torconfig_with_list in
  snd run = Raise IndexError
  /\ torconfig.needs_save (fst run) = true.
Proof.
  intros empty_pop run.
  destruct (refused_mutation_still_marks_unsaved empty_pop (torconfig.pop None)
              0 torconfig_with_list _ IndexError eq_refl eq_refl eq_refl
              eq_refl) as (Hraise & _ & _ & Hneeds).
  split; [exact Hraise | exact Hneeds].
Defined.

Section AttachAndRender.
Import torconfig.
Variable str : value -> string.
Implicit Types (self : TorConfig) (k : string) (v : value).

(** X7. [attach_protocol] binds once: on a config that has a protocol it
    raises and changes nothing; where it succeeds the config has a
    protocol, reads no longer consult the staged map ([_slutty_] is gone),
    nothing is staged, and a second [attach_protocol] raises. *)
Theorem attach_protocol_binds_once self :
  (_protocol self = true ->
   attach_protocol str self
   = (self, Raise (RuntimeError "Already have a protocol.")))
  /\ forall self', attach_protocol str self = (self', Ok tt) ->
       _protocol self = false
       /\ _protocol self' = true /\ _slutty_ self' = false
       /\ unsaved self' = []
       /\ attach_protocol str self'
          = (self', Raise (RuntimeError "Already have a protocol.")).
Proof.
  unfold attach_protocol. split; [now intros ->|].
  intros self'. destruct (_protocol self) eqn:Hp; [discriminate|].
  pose proof (save_staged str self (fun _ => true)) as Hst.
  destruct (save str (fun _ => true) self) as [self1 [d|e]] eqn:Hsave;
    [|discriminate].
  assert (Hd : d = callback).
  { unfold save in Hsave. destruct (negb (needs_save self)); [congruence|].
    destruct (save_loop _ _ _ _) as [s [a|e]]; [|discriminate].
    destruct (_protocol s); congruence. }
  subst d. simpl in Hst.
  destruct (_slutty_ self1); intros [= <-]. simpl.
  repeat split; auto.
Qed.

Lemma torrc_entries_app self its its' :
  torrc_entries str self (its ++ its')
  = rbind (torrc_entries str self its) (fun a =>
    rbind (torrc_entries str self its') (fun b => Ok (a ++ b))).
Proof.
  induction its as [|[k v] its IH]; simpl.
  - now destruct (torrc_entries str self its').
  - destruct (torrc_entry str self k v) as [here|e]; simpl; auto.
    rewrite IH. destruct (torrc_entries str self its) as [a|e]; simpl; auto.
    destruct (torrc_entries str self its') as [b|e]; simpl; auto.
    now rewrite append_assoc.
Qed.

(** X8. [create_torrc] writes the committed entries and then the staged
    ones, each map in its own order: an option that is committed and
    staged is written twice, the committed value first. *)
Theorem create_torrc_committed_then_staged self committed staged :
  torrc_entries str self (dict.items (config self)) = Ok committed ->
  torrc_entries str self (dict.items (unsaved self)) = Ok staged ->
  create_torrc str self = Ok (committed ++ staged).
Proof.
  intros Hc Hu. unfold create_torrc. now rewrite torrc_entries_app, Hc, Hu.
Qed.

(** X9. A config made without a protocol and given a list for an option
    renders it as one [name value] line per element, in the order of the
    list, and nothing else; an empty list renders as the empty torrc. *)
Theorem create_torrc_of_detached_list k xs :
  is_hidden_services k = false ->
  create_torrc str (fst (__setattr__ (__init__ false) k (VList xs)))
  = Ok (String.concat "" (map (fun x => torrc_line k (str x)) xs)).
Proof.
  intros Hk. unfold create_torrc, __setattr__, __init__, _find_real_name.
  simpl. rewrite Hk. unfold rbind. now rewrite append_nil_r.
Qed.

(** X10. The typed parsers on the decimal text of an integer:
    [Integer.parse] gives the integer back, [Boolean.parse] says whether it
    is not zero, and [Boolean_Auto.parse] gives its sign, so [-1], [0] and
    [1] parse to themselves; [auto] parses to [-1].  What
    [Boolean_Auto.parse] returns is always one of [-1], [0] and [1], and it
    raises only on a text that is neither [auto] nor an integer. *)
Theorem typed_parsers_on_integers :
  (forall n,
     Integer_parse (Py.fmt_d n) = Ok n
     /\ Boolean_parse (Py.fmt_d n) = Ok (negb (Z.eqb n 0))
     /\ Boolean_Auto_parse (Py.fmt_d n) = Ok (Z.sgn n))
  /\ Boolean_Auto_parse "auto" = Ok (-1)%Z
  /\ forall s,
       match Boolean_Auto_parse s with
       | Ok r => r = (-1)%Z \/ r = 0%Z \/ r = 1%Z
       | Raise _ => s <> "auto" /\ Py.int s = None
       end.
Proof.
  split; [|split; [reflexivity|]].
  - intros n. unfold Integer_parse, Boolean_parse, Boolean_Auto_parse, int_of.
    rewrite int_fmt_d. simpl rbind. repeat split.
    assert (Hauto : String.eqb (Py.fmt_d n) "auto" = false).
    { pose proof (fmt_d_plain n) as Hp.
      destruct (Py.fmt_d n) as [|c rest]; [reflexivity|].
      simpl in Hp. apply andb_prop in Hp as [Hc _]. simpl.
      destruct (Ascii.eqb c "a") eqn:E; [|reflexivity].
      apply Ascii.eqb_eq in E. subst c. discriminate Hc. }
    rewrite Hauto. destruct n; reflexivity.
  - intros s. unfold Boolean_Auto_parse, int_of.
    destruct (String.eqb s "auto") eqn:E; [auto|].
    apply String.eqb_neq in E.
    destruct (Py.int s) as [n|]; simpl; [|auto].
    destruct (Z.ltb n 0); [auto|]. destruct (negb (Z.eqb n 0)); auto.
Qed.

End AttachAndRender.

Lemma create_torrc_committed_then_staged_witness :
  torconfig.create_torrc sample_str torconfig_staged_port
  = Ok ("SOCKSPort 9050" ++ String torconfig.LF
          ("SOCKSPort 1337" ++ String torconfig.LF "")).
Proof.
  exact (create_torrc_committed_then_staged sample_str torconfig_staged_port
           _ _ eq_refl eq_refl).
Defined.

Lemma create_torrc_of_detached_list_witness :
  torconfig.create_torrc sample_str
    (fst (torconfig.__setattr__ (torconfig.__init__ false) "SOCKSPort"
            (torconfig.VList [torconfig.VInt 9050; torconfig.VInt 1337])))
  = Ok ("SOCKSPort 9050" ++ String torconfig.LF
          ("SOCKSPort 1337" ++ String torconfig.LF "")).
Proof.
  exact (create_torrc_of_detached_list sample_str "SOCKSPort"
           [torconfig.VInt 9050; torconfig.VInt 1337] eq_refl).
Defined.

Lemma attach_protocol_binds_once_witness :
  let run :=
    torconfig.attach_protocol sample_str
      (fst (torconfig.__setattr__ (torconfig.__init__ false) "SOCKSPort"
              (torconfig.VInt 9050))) in
  snd run = Ok tt
  /\ torconfig._protocol (fst run) = true
  /\ torconfig.unsaved (fst run) = []
  /\ torconfig.attach_protocol sample_str (fst run)
     = (fst run, Raise (RuntimeError "Already have a protocol.")).
Proof.
  intros run.
  destruct (proj2 (attach_protocol_binds_once sample_str
                     (fst (torconfig.__setattr__ (torconfig.__init__ false)
                             "SOCKSPort" (torconfig.VInt 9050))))
              (fst run) eq_refl)
    as (_ & Hp & _ & Hu & Hagain).
  split; [reflexivity|]. repeat split; assumption.
Defined.

(** * Further properties of torstate *)
Section ParserSteps.
Import torstate.
Variable hexIdFromHash : string -> string.
Variable strptime : string -> option Z.
Implicit Types (self : TorState) (x : string).

Local Abbreviation process := (process hexIdFromHash strptime).
Local Abbreviation process_lines := (process_lines hexIdFromHash strptime).
Local Abbreviation _update_network_status :=
  (_update_network_status hexIdFromHash strptime).
Local Abbreviation _bootstrap_ns := (_bootstrap_ns hexIdFromHash strptime).

Lemma ignorable_not_letter x c :
  ignorable_line x = true ->
  Py.is_space c = false ->
  Ascii.eqb c "." = false -> Ascii.eqb c "O" = false ->
  Ascii.eqb c "n" = false ->
  starts (String c " ") x = false.
Proof.
  intros Hi Hsp Hdot HO Hn.
  destruct (starts (String c " ") x) eqn:E; [|reflexivity].
  apply starts_inv in E as [rest ->].
  rewrite letter_line_not_ignorable in Hi by assumption. discriminate Hi.
Qed.

Lemma process_ignorable self x :
  ignorable_line x = true ->
  process x self = (set_parser_state self waiting_r, Ok tt).
Proof.
  intros Hi. unfold torstate.process.
  pose proof (ignorable_not_letter x "s" Hi eq_refl eq_refl eq_refl eq_refl) as Hs.
  pose proof (ignorable_not_letter x "a" Hi eq_refl eq_refl eq_refl eq_refl) as Ha.
  pose proof (ignorable_not_letter x "w" Hi eq_refl eq_refl eq_refl eq_refl) as Hw.
  pose proof (ignorable_not_letter x "p" Hi eq_refl eq_refl eq_refl eq_refl) as Hp.
  destruct (parser_state self); cbn [transitions find matcher];
    rewrite ?Hs, ?Ha, ?Hw, ?Hp, Hi; reflexivity.
Qed.

Lemma set_parser_state_twice self a b :
  set_parser_state (set_parser_state self a) b = set_parser_state self b.
Proof. reflexivity. Qed.

Lemma process_lines_ignorable lines self :
  lines <> [] ->
  Forall (fun x => ignorable_line x = true) lines ->
  process_lines lines self = (set_parser_state self waiting_r, Ok tt).
Proof.
  intros Hne Hall. revert self.
  induction Hall as [|x rest Hx Hrest IH]; [congruence|]. intros self.
  cbn [torstate.process_lines]. rewrite process_ignorable by exact Hx.
  destruct rest as [|y rest']; [reflexivity|].
  rewrite IH by discriminate. now rewrite set_parser_state_twice.
Qed.

(** X11. The lines every state skips (blank, [.], [OK], [ns/...]) are
    accepted in every state and change nothing but the state: after a run
    of them the parser waits for a router header, whatever it was waiting
    for, and the router being read is left as it is. *)
Theorem ignorable_lines_reset_parser lines self :
  lines <> [] ->
  Forall (fun x => ignorable_line x = true) lines ->
  process_lines lines self = (set_parser_state self waiting_r, Ok tt).
Proof. exact (process_lines_ignorable lines self). Qed.

(** X12. A line that is neither skipped nor one the state has a handler
    for is refused in every state: [process] raises the [RuntimeError] that
    names the letter the state expects, and the parser, its state
    included, is as before. *)
Theorem unexpected_line_is_refused self x :
  ignorable_line x = false ->
  match parser_state self with
  | waiting_r => starts "r " x = false
  | waiting_s => starts "s " x = false /\ starts "a " x = false
  | waiting_w => starts "w " x = false /\ starts "r " x = false
  | waiting_p => starts "p " x = false /\ starts "r " x = false
  end ->
  process x self
  = die match parser_state self with
        | waiting_r => "r"
        | waiting_s => "s"
        | waiting_w => "w"
        | waiting_p => "p"
        end x self
  /\ fst (process x self) = self.
Proof.
  intros Hi. unfold torstate.process.
  destruct (parser_state self); cbn [transitions find matcher];
    [intros H | intros [H H'] ..]; rewrite ?H, ?H', Hi; cbn [negb andb];
    split; reflexivity.
Qed.

(** X13. The [w] and [p] lines of a router are optional: a router header
    met while the parser waits for a header, for a [w] line or for a [p]
    line is handled alike, by [_router_begin], after which the parser
    waits for the [s] line; if [_router_begin] raises, the state of the
    parser stays what it was. *)
Theorem header_is_taken_where_flags_are_not_due self x :
  starts "r " x = true ->
  parser_state self <> waiting_s ->
  process x self
  = match _router_begin hexIdFromHash strptime x self with
    | (self', Ok _) => (set_parser_state self' waiting_s, Ok tt)
    | (self', Raise e) => (self', Raise e)
    end.
Proof.
  intros Hr Hstate. unfold torstate.process.
  destruct (starts_inv _ _ _ Hr) as [rest Hx].
  assert (Hi : ignorable_line x = false)
    by (rewrite Hx; now apply letter_line_not_ignorable).
  pose proof (starts_other "r " "w " x Hr ltac:(discriminate)) as Hw.
  pose proof (starts_other "r " "p " x Hr ltac:(discriminate)) as Hp.
  destruct (parser_state self); try congruence;
    cbn [transitions find matcher]; rewrite ?Hw, ?Hp, ?Hi, Hr; reflexivity.
Qed.

Lemma dict_mem_set_keep {V : Type} (d : dict.t V) k k' (v : V) :
  dict.mem d k = true -> dict.mem (dict.set d k' v) k = true.
Proof.
  intros H. unfold dict.mem in *. destruct (String.eqb k' k) eqn:E.
  - apply String.eqb_eq in E. subst k'. now rewrite dict_get_set_same.
  - apply String.eqb_neq in E. now rewrite dict_get_set_other.
Qed.

Lemma indices_kept_refl self : indices_kept self self.
Proof. repeat split; auto. Qed.

Lemma indices_kept_trans a b c :
  indices_kept a b -> indices_kept b c -> indices_kept a c.
Proof.
  intros (H1 & H2 & H3 & H4) (K1 & K2 & K3 & K4). repeat split; auto.
Qed.

Lemma indices_kept_same a b :
  routers_by_hash b = routers_by_hash a ->
  routers_by_name b = routers_by_name a ->
  guards b = guards a -> authorities b = authorities a ->
  indices_kept a b.
Proof. intros E1 E2 E3 E4. unfold indices_kept. now rewrite E1, E2, E3, E4. Qed.

Ltac fields :=
  cbn [fst snd heap _router all_routers routers routers_by_name
       routers_by_hash guards authorities entry_guards parser_state circuits
       attacher commands attach_stream_calls callbacks warned
       set_heap set__router set_all_routers set_routers set_routers_by_name
       set_routers_by_hash set_guards set_authorities set_parser_state
       set_circuits set_commands set_attach_stream_calls set_callbacks
       set_warned store_router].

Lemma _router_begin_keeps self x :
  indices_kept self (fst (_router_begin hexIdFromHash strptime x self)).
Proof.
  unfold _router_begin. cbv zeta.
  destruct (bind (arg (Py.split x) 1) _) as [router|e].
  2: { apply indices_kept_same; reflexivity. }
  destruct (dict.get _ (id_hex router)) as [known|].
  { apply indices_kept_same; reflexivity. }
  unfold indices_kept. fields. repeat split; auto.
  - intros k H. now apply dict_mem_set_keep.
  - intros k H.
    destruct (dict.get (routers_by_name self) (name router));
      now apply dict_mem_set_keep.
Qed.

Lemma _router_flags_keeps self x :
  indices_kept self (fst (_router_flags x self)).
Proof.
  unfold _router_flags. cbv zeta.
  destruct (current_router self) as [[r router]|];
    [|apply indices_kept_refl].
  destruct (existsb (String.eqb "guard") _);
    destruct (existsb (String.eqb "authority") _);
    unfold indices_kept; fields; repeat split; auto;
    intros k H; now apply dict_mem_set_keep.
Qed.

Lemma _router_address_keeps self x :
  indices_kept self (fst (_router_address x self)).
Proof.
  unfold _router_address.
  destruct (current_router self) as [[r router]|];
    [|apply indices_kept_refl].
  destruct (arg _ 1); apply indices_kept_same; reflexivity.
Qed.

Lemma _router_bandwidth_keeps self x :
  indices_kept self (fst (_router_bandwidth x self)).
Proof.
  unfold _router_bandwidth. cbv zeta.
  destruct (bind _ _); [|apply indices_kept_refl].
  destruct (current_router self) as [[r router]|];
    [|apply indices_kept_refl].
  apply indices_kept_same; reflexivity.
Qed.

Lemma _router_policy_keeps self x :
  indices_kept self (fst (_router_policy x self)).
Proof.
  unfold _router_policy. cbv zeta.
  destruct (current_router self) as [[r router]|];
    [|apply indices_kept_refl].
  apply indices_kept_same; reflexivity.
Qed.

Lemma handler_keeps st t self x :
  In t (transitions hexIdFromHash strptime st) ->
  indices_kept self (fst (handler t x self)).
Proof.
  intros Hin.
  destruct st; cbn [transitions In] in Hin;
    repeat (destruct Hin as [<-|Hin]; [cbn [handler]|]);
    try contradiction;
    first [ apply _router_begin_keeps | apply _router_flags_keeps
          | apply _router_address_keeps | apply _router_bandwidth_keeps
          | apply _router_policy_keeps | apply indices_kept_refl ].
Qed.

Lemma process_keeps self x : indices_kept self (fst (process x self)).
Proof.
  unfold torstate.process.
  destruct (find _ _) as [t|] eqn:F; [|apply indices_kept_refl].
  apply find_some in F as [Hin _].
  pose proof (handler_keeps _ t self x Hin) as H.
  destruct (handler t x self) as [s' [[]|e]]; cbn [fst] in *; [|exact H].
  eapply indices_kept_trans; [exact H|]. apply indices_kept_same; reflexivity.
Qed.

Lemma process_lines_keeps lines self :
  indices_kept self (fst (process_lines lines self)).
Proof.
  revert self. induction lines as [|x rest IH]; intros self;
    [apply indices_kept_refl|].
  cbn [torstate.process_lines]. pose proof (process_keeps self x) as H.
  destruct (process x self) as [s' [[]|e]]; cbn [fst] in *; [|exact H].
  eapply indices_kept_trans; [exact H | apply IH].
Qed.

(** X14. The consensus parser never prunes [routers_by_hash],
    [routers_by_name], [guards] or [authorities]: whatever lines it is
    fed, at the bootstrap or by a later update, and whether or not a line
    raises, every key these indices had is still there.  A router that has
    left the consensus, or lost its [Guard] flag, stays listed. *)
Theorem consensus_indices_are_never_pruned self :
  (forall lines, indices_kept self (fst (process_lines lines self)))
  /\ (forall data, indices_kept self (fst (_update_network_status data self)))
  /\ (forall lines ns, indices_kept self (fst (_bootstrap_ns lines ns self))).
Proof.
  assert (Hupd : forall s data,
             indices_kept s (fst (_update_network_status data s))).
  { intros s data. unfold torstate._update_network_status. cbv zeta.
    pose proof (process_lines_keeps (Py.split_on newline data)
                  (set_all_routers s [])) as H.
    destruct (process_lines _ _) as [s' [[]|e]]; cbn [fst] in *.
    - eapply indices_kept_trans; [|apply indices_kept_same; reflexivity].
      eapply indices_kept_trans; [|exact H].
      apply indices_kept_same; reflexivity.
    - eapply indices_kept_trans; [|exact H].
      apply indices_kept_same; reflexivity. }
  split; [|split].
  - intros lines. apply process_lines_keeps.
  - intros data. apply Hupd.
  - intros lines ns. unfold torstate._bootstrap_ns.
    pose proof (process_lines_keeps lines self) as H.
    destruct (process_lines lines self) as [s' [[]|e]]; cbn [fst] in *;
      [|exact H].
    eapply indices_kept_trans; [exact H | apply Hupd].
Qed.

Lemma split_on_aux_not_nil sep s cur : Py.split_on_aux sep s cur <> [].
Proof.
  revert cur. induction s as [|c s IH]; intros cur; simpl; [discriminate|].
  destruct (Ascii.eqb c sep); [discriminate | apply IH].
Qed.

(** X15. The bootstrap leaves [all_routers] empty.  It feeds the reply to
    [ns/all] to the parser line by line and then calls
    [_update_network_status] on what is left (the empty string, or any text
    of lines the parser skips), which empties [all_routers] before it
    parses: the routers just read are in the indices and on the heap, and
    none is in [all_routers]; the parser waits for a header and the marks
    of shared nicknames are deleted. *)
Theorem bootstrap_leaves_all_routers_empty lines ns self self' :
  Forall (fun x => ignorable_line x = true) (Py.split_on newline ns) ->
  _bootstrap_ns lines ns self = (self', Ok tt) ->
  exists parsed,
    process_lines lines self = (parsed, Ok tt)
    /\ self' = set_routers
                 (set_parser_state (set_all_routers parsed []) waiting_r)
                 (filter is_unique (routers parsed))
    /\ all_routers self' = []
    /\ routers_by_hash self' = routers_by_hash parsed
    /\ heap self' = heap parsed.
Proof.
  intros Hns. unfold torstate._bootstrap_ns.
  destruct (process_lines lines self) as [parsed [[]|e]]; [|discriminate].
  unfold torstate._update_network_status. cbv zeta.
  rewrite process_lines_ignorable
    by (try exact Hns; apply split_on_aux_not_nil).
  intros [= <-]. exists parsed. repeat split.
Qed.

End ParserSteps.

Lemma ignorable_lines_reset_parser_witness :
  torstate.process_lines sample_hexIdFromHash sample_strptime
    ["."; "OK"; ""] torstate_after_header
  = (torstate.set_parser_state torstate_after_header torstate.waiting_r, Ok tt).
Proof.
  apply (ignorable_lines_reset_parser sample_hexIdFromHash sample_strptime
           ["."; "OK"; ""] torstate_after_header).
  - discriminate.
  - repeat constructor.
Defined.

Lemma unexpected_line_is_refused_witness :
  torstate.process sample_hexIdFromHash sample_strptime "w Bandwidth=20"
    torstate_after_header
  = torstate.die "s" "w Bandwidth=20" torstate_after_header.
Proof.
  exact (proj1 (unexpected_line_is_refused sample_hexIdFromHash sample_strptime
                  torstate_after_header "w Bandwidth=20" eq_refl
                  (conj eq_refl eq_refl))).
Defined.

Lemma header_is_taken_where_flags_are_not_due_witness :
  torstate.parser_state
    (fst (torstate.process sample_hexIdFromHash sample_strptime
            "r Next CCCC DDDD 2024-05-01 12:00:00 10.0.0.2 9001 0"
            (torstate.set_parser_state torstate_after_header
               torstate.waiting_p)))
  = torstate.waiting_s.
Proof.
  rewrite (header_is_taken_where_flags_are_not_due sample_hexIdFromHash
             sample_strptime
             (torstate.set_parser_state torstate_after_header
                torstate.waiting_p)
             "r Next CCCC DDDD 2024-05-01 12:00:00 10.0.0.2 9001 0"
             eq_refl ltac:(discriminate)).
  reflexivity.
Defined.

Lemma bootstrap_leaves_all_routers_empty_witness :
  let self' :=
    fst (torstate._bootstrap_ns sample_hexIdFromHash sample_strptime
           consensus_two_dups "" torstate.__init__) in
  torstate.all_routers self' = []
  /\ dict.keys (torstate.routers_by_hash self') = ["$AAAA"; "$BBBB"].
Proof.
  intros self'.
  assert (Hrun : torstate._bootstrap_ns sample_hexIdFromHash sample_strptime
                   consensus_two_dups "" torstate.__init__ = (self', Ok tt))
    by (subst self'; vm_compute; reflexivity).
  destruct (bootstrap_leaves_all_routers_empty sample_hexIdFromHash
              sample_strptime consensus_two_dups "" torstate.__init__ self'
              ltac:(repeat constructor) Hrun)
    as (parsed & _ & _ & Hall & _).
  split; [exact Hall | subst self'; vm_compute; reflexivity].
Defined.

Section CommandsAndCircuits.
Import torstate.
Implicit Types (self : TorState) (stream : Stream).

Lemma known_reason_is_no_number s n :
  dict.get stream_close_reasons s = Some n ->
  Py.int s = None /\ (1 <= n <= 14)%Z.
Proof.
  unfold stream_close_reasons. cbn [dict.get].
  repeat match goal with
         | |- (if String.eqb ?name s then _ else _) = _ -> _ =>
             destruct (String.eqb name s) eqn:E;
             [ apply String.eqb_eq in E; subst s; intros [= <-];
               split; [vm_compute; reflexivity | lia]
             | clear E ]
         end.
  discriminate.
Qed.

(** X16. The reason [close_stream] sends.  An integer is sent as it is,
    with no test that it is one of the fourteen reasons; the decimal text
    of an integer counts as that integer; one of the fourteen reason names
    is sent as its code, which lies between 1 and 14; any other text raises
    [ValueError] and nothing is sent.  The command is
    [CLOSESTREAM id code] followed by the flags. *)
Theorem close_stream_reason (stream : id_arg) kwargs self :
  (forall n,
     close_stream stream (reason_int n) kwargs self
     = (queue_command self
          ("CLOSESTREAM " ++ Py.fmt_d (id_value stream) ++ " " ++ Py.fmt_d n
           ++ flags_from_dict kwargs),
        Ok tt))
  /\ (forall n,
        close_stream stream (reason_str (Py.fmt_d n)) kwargs self
        = close_stream stream (reason_int n) kwargs self)
  /\ (forall s n,
        dict.get stream_close_reasons s = Some n ->
        (1 <= n <= 14)%Z
        /\ close_stream stream (reason_str s) kwargs self
           = close_stream stream (reason_int n) kwargs self)
  /\ (forall s,
        Py.int s = None -> dict.get stream_close_reasons s = None ->
        close_stream stream (reason_str s) kwargs self
        = (self,
           Raise (ValueError
                    ("Unknown stream close reason " ++ quote ++ s ++ quote)))).
Proof.
  split; [reflexivity|]. split; [|split].
  - intros n. unfold close_stream. now rewrite int_fmt_d.
  - intros s n H. destruct (known_reason_is_no_number s n H) as [Hint Hrange].
    split; [exact Hrange|]. unfold close_stream. now rewrite Hint, H.
  - intros s Hint H. unfold close_stream. now rewrite Hint, H.
Qed.

(** X17. A circuit the attacher returns at once is checked before
    anything is sent: [ATTACHSTREAM] for the stream and the circuit is
    queued, once, exactly when the circuit has an id that [circuits]
    tracks and its state is [BUILT]; otherwise [_maybe_attach] raises
    [RuntimeError] and queues nothing. *)
Theorem returned_circuit_is_checked self stream attach_stream circ :
  attacher self = Some attach_stream ->
  match target_host stream with
  | Some host => Py.contains ".exit" host
  | None => false
  end = false ->
  attach_stream stream (circuits self) = attach_Circuit circ ->
  let run := _maybe_attach stream self in
  match circuit_id circ with
  | Some cid =>
      if zmem (circuits self) cid && String.eqb (circuit_state circ) "BUILT"
      then snd run = Ok tt
           /\ commands (fst run)
              = (commands self ++ [ATTACHSTREAM (stream_id stream) cid])%list
      else commands (fst run) = commands self
           /\ exists msg, snd run = Raise (RuntimeError msg)
  | None =>
      commands (fst run) = commands self
      /\ exists msg, snd run = Raise (RuntimeError msg)
  end.
Proof.
  intros Ha Hhost Hret run.
  destruct (circuit_id circ) as [cid|] eqn:Hid.
  - destruct (zmem (circuits self) cid && String.eqb (circuit_state circ) "BUILT")
      eqn:Hok.
    + apply andb_prop in Hok as [Hm Hb]. subst run. unfold _maybe_attach.
      rewrite Ha, Hhost. cbn [circuits set_attach_stream_calls]. rewrite Hret, Hid, Hm, Hb.
      split; reflexivity.
    + apply (_maybe_attach_circuit_checked self stream attach_stream circ);
        auto. now rewrite Hid.
  - apply (_maybe_attach_circuit_checked self stream attach_stream circ);
      auto. now rewrite Hid.
Qed.

(** X18. Whatever the attacher answers, [_maybe_attach] queues at most one
    command, and that command is an [ATTACHSTREAM] for the stream it was
    called with; it never changes the tracked circuits. *)
Theorem _maybe_attach_queues_at_most_one stream self :
  let self' := fst (_maybe_attach stream self) in
  circuits self' = circuits self
  /\ (commands self' = commands self
      \/ exists cid,
           commands self'
           = (commands self ++ [ATTACHSTREAM (stream_id stream) cid])%list).
Proof.
  unfold _maybe_attach.
  destruct (attacher self) as [attach_stream|]; [|simpl; auto].
  destruct (match target_host stream with Some _ => _ | None => _ end);
    [simpl; auto|].
  destruct (attach_stream _ _) as [| |circ|d]; simpl; auto.
  - split; [reflexivity|]. right. exists 0%Z. reflexivity.
  - destruct (circuit_id circ) as [cid|]; simpl; auto.
    destruct (negb (zmem _ _)); simpl; auto.
    destruct (negb (String.eqb _ _)); simpl; eauto.
Qed.

Section Guards.
Variable hashFromHexId : string -> result string.

Lemma build_circuit_loop_set_warned self w routers first cmd :
  build_circuit_loop hashFromHexId (set_warned self w) routers first cmd
  = build_circuit_loop hashFromHexId self routers first cmd.
Proof.
  revert first cmd. induction routers as [|[r|s] rest IH]; intros first cmd;
    cbn [build_circuit_loop]; auto.
  - cbn [heap set_warned]. destruct (nth_error (heap self) r); auto.
  - destruct (Nat.eqb _ 40); auto. destruct (hashFromHexId s); auto.
    destruct (String.eqb _ ""); auto.
Qed.

(** X19. [using_guards] only warns.  With it, a path whose first element
    is not one of the entry guards adds one warning, and a path that
    starts with an entry guard adds none; the command queued, or the
    exception raised, is the one [build_circuit] gives without it. *)
Theorem using_guards_only_warns routers self :
  let checked := build_circuit hashFromHexId routers true self in
  let plain := build_circuit hashFromHexId routers false self in
  snd checked = snd plain
  /\ commands (fst checked) = commands (fst plain)
  /\ warned (fst plain) = warned self
  /\ warned (fst checked)
     = (warned self
        ++ match routers with
           | Some (first :: _) =>
               if is_entry_guard self first then []
               else ["Building a circuit not starting with a guard"]
           | _ => []
           end)%list.
Proof.
  destruct routers as [[|first rest]|]; cbv zeta;
    try (cbn; rewrite app_nil_r; auto).
  unfold build_circuit. cbn [andb].
  destruct (is_entry_guard self first); cbn [negb].
  - rewrite app_nil_r.
    destruct (build_circuit_loop _ _ _ _ _); cbn; auto.
  - rewrite build_circuit_loop_set_warned.
    destruct (build_circuit_loop _ _ _ _ _); cbn; auto.
Qed.

End Guards.

Lemma split_on_cons_sep sep s :
  Py.split_on sep (String sep s) = "" :: Py.split_on sep s.
Proof. unfold Py.split_on. simpl. now rewrite Ascii.eqb_refl. Qed.

(** X20. The newline after [circuit-status=] is optional: a reply whose
    first circuit line follows the key at once is read like the reply that
    has it on a line of its own, one [_circuit_update] per line in order;
    and the bare key, the reply of a Tor that has no circuit, changes
    nothing. *)
Theorem _circuit_status_newline_is_optional rest self :
  Py.strip (hd "" (Py.split_on newline rest)) <> "" ->
  _circuit_status ("circuit-status=" ++ String newline rest) self
  = _circuit_status ("circuit-status=" ++ rest) self
  /\ _circuit_status ("circuit-status=" ++ rest) self
     = circuit_update_lines (Py.split_on newline rest) self
  /\ _circuit_status "circuit-status=" self = (self, Ok tt).
Proof.
  intros Hfirst. split; [|split; [|reflexivity]]; unfold _circuit_status.
  all: change (Py.drop (String.length "circuit-status=")
                 ("circuit-status=" ++ rest))
         with rest.
  1: change (Py.drop (String.length "circuit-status=")
               ("circuit-status=" ++ String newline rest))
       with (String newline rest).
  1: rewrite split_on_cons_sep; cbv zeta.
  1: change (Nat.eqb (String.length (Py.strip "")) 0) with true; cbv iota.
  all: cbv zeta.
  all: assert (E : match Py.split_on newline rest with
                   | [] => Py.split_on newline rest
                   | first :: rest0 =>
                       if Nat.eqb (String.length (Py.strip first)) 0
                       then rest0 else Py.split_on newline rest
                   end = Py.split_on newline rest)
         by (destruct (Py.split_on newline rest) as [|first more];
             [reflexivity|]; simpl in Hfirst;
             destruct (Py.strip first); [congruence | reflexivity]).
  all: now rewrite E.
Qed.

Lemma lstrip_empty s : Py.lstrip s = "" -> Py.all_chars Py.is_space s = true.
Proof.
  induction s as [|c s IH]; simpl; auto.
  destruct (Py.is_space c); [exact IH | discriminate].
Qed.

Lemma strip_empty s : Py.strip s = "" -> Py.all_chars Py.is_space s = true.
Proof.
  intros H. apply lstrip_empty. unfold Py.strip in H.
  destruct (Py.lstrip s) as [|c t] eqn:E; [reflexivity|].
  assert (Hc : Py.is_space c = false).
  { clear H. induction s as [|c' s IH]; simpl in E; [discriminate|].
    destruct (Py.is_space c') eqn:Hsp; [auto|]. now injection E as -> _. }
  destruct (strip_head c t Hc) as [u Hu]. unfold Py.strip in Hu.
  simpl Py.lstrip in Hu. rewrite Hc in Hu. rewrite Hu in H. discriminate H.
Qed.

Lemma split_blank s : Py.all_chars Py.is_space s = true -> Py.split s = [].
Proof.
  unfold Py.split. induction s as [|c s IH]; simpl; auto.
  intros H. apply andb_prop in H as [Hc Hs]. rewrite Hc. auto.
Qed.

(** X21. A blank line that is not the first raises [IndexError]: the
    circuit lines before it have been applied, the lines after it are not
    read.  So a reply that ends in a newline updates every circuit and
    then raises. *)
Theorem _circuit_status_stops_at_a_blank_line before line after self self1 :
  circuit_update_lines before self = (self1, Ok tt) ->
  Py.strip line = "" ->
  circuit_update_lines (before ++ line :: after) self
  = (self1, Raise IndexError).
Proof.
  intros Hrun Hblank. revert self Hrun.
  induction before as [|x before IH]; intros self Hrun.
  - injection Hrun as <-. cbn [app circuit_update_lines].
    unfold _circuit_update.
    now rewrite (split_blank line (strip_empty line Hblank)).
  - cbn [app circuit_update_lines] in *.
    destruct (_circuit_update x self) as [s' [[]|e]]; [|discriminate].
    now apply IH.
Qed.

End CommandsAndCircuits.

Lemma returned_circuit_is_checked_witness :
  let built := torstate.mkCircuit (Some 5%Z) "BUILT" in
  let run :=
    torstate._maybe_attach (torstate.mkStream 1 (Some "example.com"))
      (torstate_with_attacher (fun _ _ => torstate.attach_Circuit built)
         [(5%Z, built)]) in
  snd run = Ok tt
  /\ torstate.commands (fst run) = ["ATTACHSTREAM 1 5"].
Proof.
  intros built.
  exact (returned_circuit_is_checked
           (torstate_with_attacher (fun _ _ => torstate.attach_Circuit built)
              [(5%Z, built)])
           (torstate.mkStream 1 (Some "example.com"))
           (fun _ _ => torstate.attach_Circuit built) built
           eq_refl eq_refl eq_refl).
Defined.

Lemma _circuit_status_newline_is_optional_witness :
  torstate._circuit_status
    ("circuit-status=" ++ String torstate.newline "5 BUILT") torstate.__init__
  = torstate._circuit_status "circuit-status=5 BUILT" torstate.__init__.
Proof.
  exact (proj1 (_circuit_status_newline_is_optional "5 BUILT" torstate.__init__
                  ltac:(vm_compute; discriminate))).
Defined.

Lemma _circuit_status_stops_at_a_blank_line_witness :
  let run :=
    torstate.circuit_update_lines ["5 BUILT"; ""; "6 BUILT"] torstate.__init__ in
  snd run = Raise IndexError
  /\ map fst (torstate.circuits (fst run)) = [5%Z].
Proof.
  intros run.
  assert (E : run = (fst (torstate.circuit_update_lines ["5 BUILT"]
                            torstate.__init__),
                     Raise IndexError))
    by exact (_circuit_status_stops_at_a_blank_line ["5 BUILT"] "" ["6 BUILT"]
                torstate.__init__ _ eq_refl eq_refl).
  rewrite E. split; reflexivity.
Defined.

(** * Further properties of torconfig: lists and hidden services *)
Section SplitAndJoin.

Lemma split_on_aux_plain sep s cur :
  Py.all_chars (fun c => negb (Ascii.eqb c sep)) s = true ->
  Py.split_on_aux sep s cur = [Py.rev_string cur "" ++ s].
Proof.
  revert cur. induction s as [|c s IH]; intros cur H; simpl.
  - now rewrite append_nil_r.
  - simpl in H. apply andb_prop in H as [Hc Hs].
    apply negb_true_iff in Hc. rewrite Hc, IH by exact Hs. simpl.
    rewrite (rev_string_acc cur (String c "")), append_assoc. reflexivity.
Qed.

Lemma split_on_aux_app sep a b cur :
  Py.all_chars (fun c => negb (Ascii.eqb c sep)) a = true ->
  Py.split_on_aux sep (a ++ String sep b) cur
  = (Py.rev_string cur "" ++ a) :: Py.split_on_aux sep b "".
Proof.
  revert cur. induction a as [|c a IH]; intros cur H; simpl.
  - now rewrite Ascii.eqb_refl, append_nil_r.
  - simpl in H. apply andb_prop in H as [Hc Ha].
    apply negb_true_iff in Hc. rewrite Hc, IH by exact Ha. simpl.
    rewrite (rev_string_acc cur (String c "")), append_assoc. reflexivity.
Qed.

Lemma split_on_join sep xs :
  xs <> [] ->
  Forall (fun x => Py.all_chars (fun c => negb (Ascii.eqb c sep)) x = true) xs ->
  Py.split_on sep (Py.join (String sep "") xs) = xs.
Proof.
  intros Hne Hall. induction Hall as [|x rest Hx Hrest IH]; [congruence|].
  unfold Py.split_on in *. destruct rest as [|y rest'].
  - simpl. now rewrite split_on_aux_plain.
  - change (Py.join (String sep "") (x :: y :: rest'))
      with (x ++ String sep (Py.join (String sep "") (y :: rest'))).
    rewrite split_on_aux_app by exact Hx. simpl Py.rev_string.
    simpl append at 1. now rewrite IH by discriminate.
Qed.

(** X22. [LineList.parse] and [CommaList.parse] read back what was joined:
    of elements that hold no separator, joined by it, each gives the
    elements, stripped, in order.  Neither ever returns the empty list:
    the empty text parses to a list of one empty string. *)
Theorem list_parsers_read_back_the_elements xs :
  xs <> [] ->
  (Forall (fun x => Py.all_chars (fun c => negb (Ascii.eqb c torconfig.LF)) x
                    = true) xs ->
   torconfig.LineList_parse (Py.join (String torconfig.LF "") xs)
   = map Py.strip xs)
  /\ (Forall (fun x => Py.all_chars (fun c => negb (Ascii.eqb c ",")) x = true)
        xs ->
      torconfig.CommaList_parse (Py.join "," xs) = map Py.strip xs)
  /\ (forall s, torconfig.LineList_parse s <> []
                /\ torconfig.CommaList_parse s <> []).
Proof.
  intros Hne. split; [|split].
  - intros H. unfold torconfig.LineList_parse. now rewrite split_on_join.
  - intros H. unfold torconfig.CommaList_parse. now rewrite split_on_join.
  - intros s. unfold torconfig.LineList_parse, torconfig.CommaList_parse,
      Py.split_on.
    split; intros E; apply map_eq_nil in E;
      exact (split_on_aux_not_nil _ _ _ E).
Qed.

End SplitAndJoin.

Lemma list_parsers_read_back_the_elements_witness :
  torconfig.CommaList_parse "a, b ,c" = ["a"; "b"; "c"].
Proof.
  exact (proj1 (proj2 (list_parsers_read_back_the_elements ["a"; " b "; "c"]
                         ltac:(discriminate)))
           ltac:(repeat constructor)).
Defined.

Section HiddenServices.
Import torconfig.
Implicit Types (self : TorConfig) (st : hs_reader) (h : HiddenService).

Lemma mark_unsaved_again self name :
  exists marked,
    mark_unsaved self name = Ok marked
    /\ mark_unsaved marked name = Ok marked
    /\ config marked = config self /\ parsers marked = parsers self
    /\ heap marked = heap self
    /\ unsaved marked
       = (if dict.mem (config self) (_find_real_name self name)
             && negb (dict.mem (unsaved self) (_find_real_name self name))
          then match dict.get (config self) (_find_real_name self name) with
               | Some v => dict.set (unsaved self) (_find_real_name self name) v
               | None => unsaved self
               end
          else unsaved self).
Proof.
  unfold mark_unsaved at 1. rewrite _find_real_name_idem.
  set (rn := _find_real_name self name).
  destruct (dict.mem (config self) rn) eqn:Hc; cbn [andb].
  2: { exists self. unfold mark_unsaved. fold rn. rewrite Hc.
       cbn [andb]. repeat split. }
  destruct (dict.mem (unsaved self) rn) eqn:Hu; cbn [negb].
  { exists self. unfold mark_unsaved. fold rn. rewrite Hc, Hu.
    cbn [andb negb]. repeat split. }
  destruct (dict_mem_get _ _ Hc) as [v Hv]. rewrite Hv.
  eexists. split; [reflexivity|]. split; [|now destruct self].
  unfold mark_unsaved.
  rewrite (_find_real_name_ext self _ name) by (now destruct self).
  fold rn.
  replace (dict.mem (config (set_unsaved self (dict.set (unsaved self) rn v))) rn)
    with true by (now destruct self).
  replace (dict.mem (unsaved (set_unsaved self (dict.set (unsaved self) rn v))) rn)
    with true; [reflexivity|].
  destruct self; cbn [unsaved set_unsaved]. unfold dict.mem.
  now rewrite dict_get_set_same.
Qed.

Lemma HiddenService_init_marks self marked d ps a v g :
  mark_unsaved self "HiddenServices" = Ok marked ->
  mark_unsaved marked "HiddenServices" = Ok marked ->
  HiddenService_init self d ps a v g = (marked, Ok (mkHiddenService d ps a v g)).
Proof. intros H1 H2. unfold HiddenService_init. now rewrite H1, H2, H2, H2. Qed.

(** The reader after the lines of [h], with [done] read before. *)
Lemma hs_reader_lines_app a b st self :
  hs_reader_lines (a ++ b) st self
  = match hs_reader_lines a st self with
    | (self1, Ok st1) => hs_reader_lines b st1 self1
    | (self1, Raise e) => (self1, Raise e)
    end.
Proof.
  revert st self. induction a as [|x a IH]; intros st self; simpl; auto.
  destruct (hs_reader_line x st self) as [s1 [st1|e]]; auto.
Qed.

Lemma plain_no_eq s :
  Py.all_chars plain_char s = true ->
  Py.all_chars (fun c => negb (Ascii.eqb c "=")) s = true.
Proof.
  apply all_chars_weaken. intros c H. unfold plain_char in H.
  now apply andb_prop in H as [H _].
Qed.

Lemma plain_no_LF s :
  Py.all_chars plain_char s = true ->
  Py.all_chars (fun c => negb (Ascii.eqb c LF)) s = true.
Proof.
  apply all_chars_weaken. intros c H. unfold plain_char in H.
  now apply andb_prop in H as [_ H].
Qed.

Lemma fmt_d_plain_char n : Py.all_chars plain_char (Py.fmt_d n) = true.
Proof.
  eapply all_chars_weaken; [|apply fmt_d_plain].
  intros c. destruct c as [[] [] [] [] [] [] [] []]; vm_compute; congruence.
Qed.

Lemma H_line_not_blank rest :
  Nat.eqb (String.length (Py.strip (String "H" rest))) 0 = false.
Proof. destruct (strip_head "H" rest eq_refl) as [u ->]. reflexivity. Qed.

Ltac read_line v Hv :=
  unfold hs_reader_line; cbn [String.append];
  match goal with
  | |- context [Py.strip (String "H" ?rest)] => rewrite (H_line_not_blank rest)
  end;
  cbn [String.eqb Ascii.eqb Bool.eqb String.append];
  unfold Py.split_on; cbn [Py.split_on_aux Ascii.eqb Bool.eqb Py.rev_string];
  rewrite (split_on_aux_plain "=" v "") by (apply plain_no_eq; exact Hv);
  cbn [Py.rev_string String.append String.eqb Ascii.eqb Bool.eqb].

Lemma read_dir_line v st self :
  Py.all_chars plain_char v = true ->
  hs_reader_line ("HiddenServiceDir=" ++ v) st self
  = match reader_flush st self with
    | (self1, Ok hs) => (self1, Ok (mkReader hs (Some v) [] None None 0))
    | (self1, Raise e) => (self1, Raise e)
    end.
Proof. intros Hv. read_line v Hv. reflexivity. Qed.

Lemma read_port_line v st self :
  Py.all_chars plain_char v = true ->
  hs_reader_line ("HiddenServicePort=" ++ v) st self
  = (self,
     Ok (mkReader (read_hs st) (read_directory st) (read_ports st ++ [v])
           (read_ver st) (read_auth st) (read_group_read st))).
Proof. intros Hv. read_line v Hv. reflexivity. Qed.

Lemma read_version_line n st self :
  hs_reader_line ("HiddenServiceVersion=" ++ Py.fmt_d n) st self
  = (self,
     Ok (mkReader (read_hs st) (read_directory st) (read_ports st)
           (Some n) (read_auth st) (read_group_read st))).
Proof.
  pose proof (fmt_d_plain_char n) as Hv. read_line (Py.fmt_d n) Hv.
  unfold int_of. now rewrite int_fmt_d.
Qed.

Lemma read_auth_line v st self :
  Py.all_chars plain_char v = true ->
  hs_reader_line ("HiddenServiceAuthorizeClient=" ++ v) st self
  = (self,
     Ok (mkReader (read_hs st) (read_directory st) (read_ports st)
           (read_ver st) (Some v) (read_group_read st))).
Proof. intros Hv. read_line v Hv. reflexivity. Qed.

Lemma read_group_line st self :
  hs_reader_line "HiddenServiceDirGroupReadable=1" st self
  = (self,
     Ok (mkReader (read_hs st) (read_directory st) (read_ports st)
           (read_ver st) (read_auth st) 1)).
Proof. reflexivity. Qed.

Local Abbreviation kv_line :=
  (fun kv : string * string => fst kv ++ "=" ++ snd kv).

(** The reader while it reads the lines of [h], with [done] read before. *)
Local Abbreviation reading done h :=
  (mkReader done (Some (dir h)) (ports h) (version h) (authorize_client h)
     (group_readable h)).

Lemma read_port_lines ps st self :
  forallb (Py.all_chars plain_char) ps = true ->
  hs_reader_lines (map kv_line (map (fun x => ("HiddenServicePort", x)) ps))
    st self
  = (self,
     Ok (mkReader (read_hs st) (read_directory st) (read_ports st ++ ps)
           (read_ver st) (read_auth st) (read_group_read st))).
Proof.
  revert st. induction ps as [|p ps IH]; intros st H.
  - cbn [map hs_reader_lines]. rewrite app_nil_r. now destruct st.
  - cbn [forallb] in H. apply andb_prop in H as [Hp Hps].
    cbn [map hs_reader_lines fst snd].
    change ("HiddenServicePort" ++ "=" ++ p) with ("HiddenServicePort=" ++ p).
    rewrite read_port_line by exact Hp. rewrite IH by exact Hps.
    cbn [read_hs read_directory read_ports read_ver read_auth read_group_read].
    now rewrite <- app_assoc.
Qed.

Lemma read_block supports h st self self1 done :
  written_in_full supports h = true ->
  reader_flush st self = (self1, Ok done) ->
  hs_reader_lines (map kv_line (config_attributes supports h)) st self
  = (self1, Ok (reading done h)).
Proof.
  intros H Hflush. destruct h as [d ps a v g].
  unfold written_in_full in H.
  cbn [dir ports authorize_client version group_readable] in *.
  apply andb_prop in H as [H Hg]. apply andb_prop in H as [H Ha].
  apply andb_prop in H as [H Hv]. apply andb_prop in H as [Hd Hps].
  unfold config_attributes.
  cbn [dir ports authorize_client version group_readable].
  rewrite map_app, hs_reader_lines_app.
  cbn [map hs_reader_lines fst snd].
  change ("HiddenServiceDir" ++ "=" ++ d) with ("HiddenServiceDir=" ++ d).
  rewrite read_dir_line by exact Hd. rewrite Hflush.
  assert (Hgroup :
    hs_reader_lines
      (map kv_line
         (if supports && negb (Z.eqb g 0)
          then [("HiddenServiceDirGroupReadable", "1")] else []))
      (mkReader done (Some d) [] None None 0) self1
    = (self1, Ok (mkReader done (Some d) [] None None g))).
  { destruct (Z.eqb g 0) eqn:Hg0.
    - apply Z.eqb_eq in Hg0. subst g. now rewrite andb_false_r.
    - cbn [orb] in Hg. apply andb_prop in Hg as [-> Hg1].
      apply Z.eqb_eq in Hg1. subst g. reflexivity. }
  rewrite map_app, hs_reader_lines_app, Hgroup.
  rewrite map_app, hs_reader_lines_app.
  rewrite read_port_lines by exact Hps.
  cbn [read_hs read_directory read_ports read_ver read_auth read_group_read app].
  assert (Hversion :
    hs_reader_lines
      (map kv_line
         match v with
         | Some n =>
             if Z.eqb n 0 then [] else [("HiddenServiceVersion", Py.fmt_d n)]
         | None => []
         end)
      (mkReader done (Some d) ps None None g) self1
    = (self1, Ok (mkReader done (Some d) ps v None g))).
  { destruct v as [n|]; [|reflexivity].
    apply negb_true_iff in Hv. rewrite Hv.
    cbn [map hs_reader_lines fst snd].
    change ("HiddenServiceVersion" ++ "=" ++ Py.fmt_d n)
      with ("HiddenServiceVersion=" ++ Py.fmt_d n).
    now rewrite read_version_line. }
  rewrite map_app, hs_reader_lines_app, Hversion.
  destruct a as [a|]; [|reflexivity].
  apply andb_prop in Ha as [Hne Ha]. apply negb_true_iff in Hne. rewrite Hne.
  cbn [map hs_reader_lines fst snd].
  change ("HiddenServiceAuthorizeClient" ++ "=" ++ a)
    with ("HiddenServiceAuthorizeClient=" ++ a).
  now rewrite read_auth_line by exact Ha.
Qed.

Lemma reader_flush_reading done h self marked :
  mark_unsaved self "HiddenServices" = Ok marked ->
  mark_unsaved marked "HiddenServices" = Ok marked ->
  reader_flush (reading done h) self = (marked, Ok (done ++ [h])%list).
Proof.
  intros H1 H2. unfold reader_flush.
  cbn [read_hs read_directory read_ports read_ver read_auth read_group_read].
  rewrite (HiddenService_init_marks self marked) by assumption.
  now destruct h.
Qed.

Lemma read_rest supports hss done h self marked :
  mark_unsaved self "HiddenServices" = Ok marked ->
  mark_unsaved marked "HiddenServices" = Ok marked ->
  forallb (written_in_full supports) hss = true ->
  exists self' st',
    hs_reader_lines (getconf_lines supports hss) (reading done h) self
    = (self', Ok st')
    /\ reader_flush st' self' = (marked, Ok (done ++ h :: hss)%list).
Proof.
  revert done h self. induction hss as [|h' rest IH];
    intros done h self H1 H2 Hall.
  - exists self, (reading done h). split; [reflexivity|].
    now apply reader_flush_reading.
  - cbn [forallb] in Hall. apply andb_prop in Hall as [Hh Hrest].
    unfold getconf_lines. cbn [flat_map]. rewrite map_app, hs_reader_lines_app.
    rewrite (read_block supports h' _ self marked (done ++ [h])%list Hh)
      by now apply reader_flush_reading.
    destruct (IH (done ++ [h])%list h' marked H2 H2 Hrest)
      as (self' & st' & Hread & Hflush).
    exists self', st'. split; [exact Hread|].
    now rewrite Hflush, <- app_assoc.
Qed.

Lemma all_chars_app p a b :
  Py.all_chars p (a ++ b) = Py.all_chars p a && Py.all_chars p b.
Proof.
  induction a as [|c a IH]; simpl; auto. now rewrite IH, andb_assoc.
Qed.

Lemma getconf_lines_one_per_line supports hss :
  forallb (written_in_full supports) hss = true ->
  Forall (fun x => Py.all_chars (fun c => negb (Ascii.eqb c LF)) x = true)
    (getconf_lines supports hss).
Proof.
  intros Hall. unfold getconf_lines. apply Forall_forall. intros x Hx.
  apply in_map_iff in Hx as ([k v] & <- & Hkv).
  apply in_flat_map in Hkv as (h & Hh & Hkv).
  rewrite forallb_forall in Hall. specialize (Hall h Hh).
  unfold written_in_full in Hall.
  apply andb_prop in Hall as [Hall _]. apply andb_prop in Hall as [Hall Ha].
  apply andb_prop in Hall as [Hall _]. apply andb_prop in Hall as [Hd Hps].
  cbn [fst snd]. unfold config_attributes in Hkv.
  repeat (apply in_app_or in Hkv as [Hkv|Hkv]).
  - destruct Hkv as [[= <- <-]|[]]. rewrite !all_chars_app.
    now rewrite (plain_no_LF _ Hd).
  - destruct (supports && negb (Z.eqb (group_readable h) 0)); [|destruct Hkv].
    now destruct Hkv as [[= <- <-]|[]].
  - apply in_map_iff in Hkv as (p & [= <- <-] & Hp).
    rewrite forallb_forall in Hps. rewrite !all_chars_app.
    now rewrite (plain_no_LF _ (Hps p Hp)).
  - destruct (version h) as [n|]; [|destruct Hkv].
    destruct (Z.eqb n 0); [destruct Hkv|].
    destruct Hkv as [[= <- <-]|[]]. rewrite !all_chars_app.
    now rewrite (plain_no_LF _ (fmt_d_plain_char n)).
  - destruct (authorize_client h) as [a|]; [|destruct Hkv].
    apply andb_prop in Ha as [_ Ha].
    destruct (String.eqb a ""); [destruct Hkv|].
    destruct Hkv as [[= <- <-]|[]]. rewrite !all_chars_app.
    now rewrite (plain_no_LF _ Ha).
Qed.

(** What [_setup_hidden_services] makes of the lines that
    [config_attributes] writes: the new committed list holds the records,
    on a config that has been marked once when there is a record. *)
Lemma _setup_hidden_services_getconf supports self hss marked :
  mark_unsaved self "HiddenServices" = Ok marked ->
  mark_unsaved marked "HiddenServices" = Ok marked ->
  forallb (written_in_full supports) hss = true ->
  _setup_hidden_services self
    (Py.join (String LF "") (getconf_lines supports hss))
  = let base := match hss with
                | [] => self
                | _ :: _ => marked
                end in
    (set_config
       (set_heap base
          (heap base
           ++ [mkListWrapper (map VHiddenService hss) "HiddenServices"]))
       (dict.set (config base) "HiddenServices"
          (VWrapper (length (heap base)))),
     Ok tt).
Proof.
  intros H1 H2 Hall. unfold _setup_hidden_services.
  destruct hss as [|h rest].
  - cbn. reflexivity.
  - rewrite split_on_join.
    2: { unfold getconf_lines. cbn [flat_map]. unfold config_attributes.
         cbn [app map]. discriminate. }
    2: { now apply getconf_lines_one_per_line. }
    cbn [forallb] in Hall. apply andb_prop in Hall as [Hh Hrest].
    unfold getconf_lines. cbn [flat_map]. rewrite map_app, hs_reader_lines_app.
    rewrite (read_block supports h _ self self [] Hh) by reflexivity.
    destruct (read_rest supports rest [] h self marked H1 H2 Hrest)
      as (self' & st' & Hread & Hflush).
    fold (getconf_lines supports rest). rewrite Hread, Hflush.
    cbv zeta. unfold new_ListWrapper. cbn [app]. now destruct marked.
Qed.

(** X23. Hidden services read back.  The lines [config_attributes] writes
    for a list of services, each written in full, joined as a [GETCONF]
    reply, are read by [_setup_hidden_services] into the same records in
    the same order: the call returns, commits a new change-tracking list
    that holds them under [HiddenServices], and, when [HiddenServices] had
    no committed entry, stages nothing. *)
Theorem hidden_services_read_back supports self hss :
  forallb (written_in_full supports) hss = true ->
  let run :=
    _setup_hidden_services self
      (Py.join (String LF "") (getconf_lines supports hss)) in
  let handle := VWrapper (length (heap self)) in
  snd run = Ok tt
  /\ dict.get (config (fst run)) "HiddenServices" = Some handle
  /\ as_list (fst run) handle = Some (map VHiddenService hss)
  /\ (dict.mem (config self) (_find_real_name self "HiddenServices") = false ->
      unsaved (fst run) = unsaved self).
Proof.
  intros Hall run handle.
  destruct (mark_unsaved_again self "HiddenServices")
    as (marked & H1 & H2 & Hc & Hp & Hh & Hu).
  subst run handle.
  rewrite (_setup_hidden_services_getconf supports self hss marked H1 H2 Hall).
  assert (Hbase : forall base, heap base = heap self ->
            as_list
              (set_config
                 (set_heap base
                    (heap base
                     ++ [mkListWrapper (map VHiddenService hss)
                           "HiddenServices"]))
                 (dict.set (config base) "HiddenServices"
                    (VWrapper (length (heap base)))))
              (VWrapper (length (heap self)))
            = Some (map VHiddenService hss)).
  { intros base Hb. unfold as_list. cbn [heap set_config set_heap].
    rewrite Hb, nth_error_app2, Nat.sub_diag by lia. reflexivity. }
  destruct hss as [|h rest]; cbv zeta; cbn [fst snd config set_config].
  - split; [reflexivity|]. split; [apply dict_get_set_same|].
    split; [now apply Hbase | reflexivity].
  - split; [reflexivity|].
    split; [rewrite Hh; apply dict_get_set_same|].
    split; [now apply Hbase|].
    intros Hfree. cbn [unsaved set_config set_heap]. rewrite Hu, Hfree.
    reflexivity.
Qed.

(** X24. Reading hidden services into a config that already has a
    committed [HiddenServices] entry stages that old entry: making a
    [HiddenService] calls [mark_unsaved('HiddenServices')] before the new
    list is committed.  So after a reply that lists a service the config
    needs a save, and the staged value, the one a [save] would commit
    again, is the list from before the reply. *)
Theorem rereading_hidden_services_stages_the_old_list supports self hss old :
  forallb (written_in_full supports) hss = true ->
  hss <> [] ->
  _find_real_name self "HiddenServices" = "HiddenServices" ->
  dict.get (config self) "HiddenServices" = Some old ->
  dict.mem (unsaved self) "HiddenServices" = false ->
  let run :=
    _setup_hidden_services self
      (Py.join (String LF "") (getconf_lines supports hss)) in
  snd run = Ok tt
  /\ dict.get (config (fst run)) "HiddenServices"
     = Some (VWrapper (length (heap self)))
  /\ dict.get (unsaved (fst run)) "HiddenServices" = Some old
  /\ needs_save (fst run) = true.
Proof.
  intros Hall Hne Hrn Hold Hfree run.
  destruct (mark_unsaved_again self "HiddenServices")
    as (marked & H1 & H2 & Hc & Hp & Hh & Hu).
  subst run.
  rewrite (_setup_hidden_services_getconf supports self hss marked H1 H2 Hall).
  destruct hss as [|h rest]; [congruence|]. cbv zeta.
  cbn [fst snd config unsaved set_config set_heap].
  rewrite Hrn in Hu. rewrite (dict_get_mem _ _ _ Hold), Hfree, Hold in Hu.
  cbn [andb negb] in Hu.
  split; [reflexivity|]. split; [rewrite Hh; apply dict_get_set_same|].
  split; [rewrite Hu; apply dict_get_set_same|].
  unfold needs_save. cbn [unsaved set_config set_heap]. rewrite Hu.
  pose proof (dict_set_nonempty (unsaved self) "HiddenServices" old) as Hlen.
  apply Nat.ltb_lt. lia.
Qed.

End HiddenServices.

Lemma hidden_services_read_back_witness :
  let hs1 :=
    torconfig.mkHiddenService "/var/lib/tor/web" ["80 127.0.0.1:8080"]
      None (Some 2%Z) 0 in
  let hs2 :=
    torconfig.mkHiddenService "/var/lib/tor/ssh" ["22 127.0.0.1:22"]
      (Some "stealth alice") None 1 in
  let run :=
    torconfig._setup_hidden_services torconfig_bootstrapped
      (Py.join (String torconfig.LF "")
         (torconfig.getconf_lines true [hs1; hs2])) in
  snd run = Ok tt
  /\ torconfig.as_list (fst run) (torconfig.VWrapper 0)
     = Some [torconfig.VHiddenService hs1; torconfig.VHiddenService hs2].
Proof.
  intros hs1 hs2 run.
  destruct (hidden_services_read_back true torconfig_bootstrapped [hs1; hs2]
              eq_refl) as (Hok & _ & Hlist & _).
  split; [exact Hok | exact Hlist].
Defined.

Lemma rereading_hidden_services_stages_the_old_list_witness :
  let first_read :=
    fst (torconfig.__getattr__ (torconfig.__init__ true) "HiddenServices") in
  let run :=
    torconfig._setup_hidden_services first_read
      (Py.join (String torconfig.LF "")
         (torconfig.getconf_lines false
            [torconfig.mkHiddenService "/var/lib/tor/web"
               ["80 127.0.0.1:8080"] None (Some 2%Z) 0])) in
  dict.get (torconfig.config first_read) "HiddenServices"
  = Some (torconfig.VWrapper 0)
  /\ dict.get (torconfig.config (fst run)) "HiddenServices"
     = Some (torconfig.VWrapper 1)
  /\ dict.get (torconfig.unsaved (fst run)) "HiddenServices"
     = Some (torconfig.VWrapper 0)
  /\ torconfig.needs_save (fst run) = true.
Proof.
  intros first_read run.
  destruct (rereading_hidden_services_stages_the_old_list false first_read
              [torconfig.mkHiddenService "/var/lib/tor/web"
                 ["80 127.0.0.1:8080"] None (Some 2%Z) 0]
              (torconfig.VWrapper 0)
              eq_refl ltac:(discriminate) eq_refl eq_refl eq_refl)
    as (_ & Hnew & Hold & Hneeds).
  split; [reflexivity|]. split; [exact Hnew|]. split; [exact Hold|].
  exact Hneeds.
Defined.

(** * Further properties of torconfig: the bootstrap *)
Section BootstrapFacts.
Import torconfig.
Variable str : value -> string.
Variable float : value -> result value.
Variable get_conf : string -> result value.
Variable hidden_service_options : string.
Implicit Types (self : TorConfig) (name line : string).

Local Abbreviation _do_setup_line :=
  (_do_setup_line str float get_conf hidden_service_options).
Local Abbreviation _do_setup_lines :=
  (_do_setup_lines str float get_conf hidden_service_options).
Local Abbreviation _do_setup :=
  (_do_setup str float get_conf hidden_service_options).

(** Two states with the same committed map, parsers and wrappers. *)
Local Abbreviation same_maps a b :=
  (config b = config a /\ parsers b = parsers a /\ heap b = heap a).

(** Nothing but the staged map changes while the reply is read. *)
Lemma HiddenService_init_frame self d ps a v g :
  same_maps self (fst (HiddenService_init self d ps a v g)).
Proof.
  destruct (mark_unsaved_again self "HiddenServices")
    as (marked & H1 & H2 & Hc & Hp & Hh & _).
  rewrite (HiddenService_init_marks self marked) by assumption. auto.
Qed.

Lemma reader_flush_frame st self :
  same_maps self (fst (reader_flush st self)).
Proof.
  unfold reader_flush. destruct (read_directory st) as [d|]; [|auto].
  pose proof (HiddenService_init_frame self d (read_ports st) (read_auth st)
                (read_ver st) (read_group_read st)) as H.
  destruct (HiddenService_init _ _ _ _ _ _) as [s1 [h|e]]; exact H.
Qed.

Lemma hs_reader_line_frame line st self :
  same_maps self (fst (hs_reader_line line st self)).
Proof.
  unfold hs_reader_line.
  destruct (Nat.eqb _ 0); [auto|]. destruct (String.eqb line _); [auto|].
  destruct (Py.split_on "=" line) as [|k [|v [|]]]; auto.
  destruct (String.eqb k "HiddenServiceDir").
  { pose proof (reader_flush_frame st self) as H.
    destruct (reader_flush st self) as [s1 [hs|e]]; exact H. }
  repeat (match goal with
          | |- context [if ?b then _ else _] => destruct b
          end; auto).
Qed.

Lemma hs_reader_lines_frame lines st self :
  same_maps self (fst (hs_reader_lines lines st self)).
Proof.
  revert st self. induction lines as [|x rest IH]; intros st self; [auto|].
  cbn [hs_reader_lines].
  pose proof (hs_reader_line_frame x st self) as H.
  destruct (hs_reader_line x st self) as [s1 [st1|e]]; cbn [fst] in *; auto.
  destruct (IH st1 s1) as (Hc & Hp & Hh). destruct H as (Hc1 & Hp1 & Hh1).
  repeat split; congruence.
Qed.

(** What a call of [_setup_hidden_services] that returns has done to the
    maps: one more wrapper, committed under [HiddenServices]. *)
Lemma _setup_hidden_services_commits self servicelines self' :
  _setup_hidden_services self servicelines = (self', Ok tt) ->
  parsers self' = parsers self
  /\ exists hs,
       heap self' = (heap self ++ [mkListWrapper hs "HiddenServices"])%list
       /\ config self'
          = dict.set (config self) "HiddenServices"
              (VWrapper (length (heap self))).
Proof.
  unfold _setup_hidden_services.
  pose proof (hs_reader_lines_frame (Py.split_on LF servicelines)
                (mkReader [] None [] None None 0) self) as H.
  destruct (hs_reader_lines _ _ self) as [s1 [st|e]]; cbn [fst] in *;
    [|discriminate].
  pose proof (reader_flush_frame st s1) as H'.
  destruct (reader_flush st s1) as [s2 [hs|e]]; cbn [fst] in *;
    [|discriminate].
  destruct H as (Hc & Hp & Hh), H' as (Hc' & Hp' & Hh').
  unfold new_ListWrapper. intros [= <-].
  cbn [parsers config heap set_config set_heap].
  split; [congruence|]. exists (map VHiddenService hs).
  rewrite Hc', Hh', Hc, Hh. auto.
Qed.

(** What a step of [_do_setup] that returns has done to the maps: nothing
    (the header and the [Dependant] options), the hidden services, or one
    option registered and committed. *)
Lemma _do_setup_line_commits line self self' :
  _do_setup_line line self = (self', Ok tt) ->
  (same_maps self self' /\ forall name, ~ option_line line name)
  \/ (parsers self' = parsers self
      /\ (forall name, ~ option_line line name)
      /\ exists hs,
           heap self' = (heap self ++ [mkListWrapper hs "HiddenServices"])%list
           /\ config self'
              = dict.set (config self) "HiddenServices"
                  (VWrapper (length (heap self))))
  \/ (exists name inst,
        (forall name', option_line line name' -> name' = name)
        /\ parsers self'
           = dict.set (parsers self) (_find_real_name self name) inst
        /\ (is_list_config_type inst = true
            /\ (exists xs,
                  heap self'
                  = (heap self
                     ++ [mkListWrapper xs (_find_real_name self name)])%list)
            /\ config self'
               = dict.set (config self) (_find_real_name self name)
                   (VWrapper (length (heap self)))
            \/ is_list_config_type inst = false
               /\ heap self' = heap self
               /\ exists w,
                    config self'
                    = dict.set (config self) (_find_real_name self name) w)).
Proof.
  unfold torconfig._do_setup_line. intros Hrun.
  destruct (String.eqb line "config/names=") eqn:Hhead.
  { injection Hrun as <-. apply String.eqb_eq in Hhead. left.
    split; [auto|]. intros name (Hne & _). contradiction. }
  destruct (Py.split line) as [|name [|type [|]]] eqn:Hsplit;
    try discriminate Hrun.
  cbv zeta in Hrun.
  set (self0 := if String.eqb name "HiddenServiceDirGroupReadable"
                then set__supports self true else self) in *.
  assert (H0 : same_maps self self0)
    by (subst self0;
        now destruct (String.eqb name "HiddenServiceDirGroupReadable")).
  destruct H0 as (Hc0 & Hp0 & Hh0).
  destruct (String.eqb name "HiddenServiceOptions") eqn:Hhs.
  { apply String.eqb_eq in Hhs. right. left.
    destruct (_setup_hidden_services_commits _ _ _ Hrun)
      as (Hp & hs & Hh & Hc).
    split; [congruence|]. split.
    - intros name' (_ & Hne & type' & Hs' & _).
      rewrite Hsplit in Hs'. injection Hs' as <- _. contradiction.
    - exists hs. now rewrite Hh, Hc, Hh0, Hc0. }
  destruct (String.eqb type "Dependant") eqn:Hdep.
  { apply String.eqb_eq in Hdep. injection Hrun as <-. left.
    split; [auto|]. intros name' (_ & _ & type' & Hs' & Hne).
    rewrite Hsplit in Hs'. injection Hs' as _ <-. contradiction. }
  destruct (config_type_named (replace_plus type)) as [inst|];
    [|discriminate Hrun].
  destruct (get_conf name) as [v|e]; [|discriminate Hrun].
  rewrite (_find_real_name_ext self self0 name Hp0 Hc0) in Hrun.
  right. right. exists name, inst. split.
  { intros name' (_ & _ & type' & Hs' & _).
    rewrite Hsplit in Hs'. now injection Hs' as <- _. }
  destruct (is_list_config_type inst).
  - destruct (parse _ _ inst _ v) as [parsed|e]; [|discriminate Hrun].
    destruct (iterate _ parsed) as [xs|e]; [|discriminate Hrun].
    unfold new_ListWrapper in Hrun. injection Hrun as <-.
    cbn [parsers config heap set_config set_heap set_parsers set_list_parsers].
    rewrite Hp0, Hc0, Hh0. split; [reflexivity|]. left. eauto.
  - destruct (parse _ _ inst _ v) as [parsed|e]; [|discriminate Hrun].
    injection Hrun as <-.
    cbn [parsers config heap set_config set_heap set_parsers set_list_parsers].
    rewrite Hp0, Hc0, Hh0. split; [reflexivity|]. right. eauto.
Qed.

(** Every option that has a parser has a committed value. *)
Local Abbreviation parsed_options_are_committed self :=
  (forall k, dict.mem (parsers self) k = true -> dict.mem (config self) k = true).

(** The committed value of every option whose parser is a list type is a
    change-tracking list that notifies under the option's name. *)
Local Abbreviation list_options_are_tracked self :=
  (forall k t,
     dict.get (parsers self) k = Some t -> is_list_config_type t = true ->
     exists r w,
       dict.get (config self) k = Some (VWrapper r)
       /\ nth_error (heap self) r = Some w /\ on_modify w = k).

(** Some option that has a parser is called [name], in some
    capitalisation. *)
Local Abbreviation registered self name :=
  (exists x, In x (dict.keys (parsers self)) /\ Py.lower x = Py.lower name).

Lemma dict_mem_set_inv {V : Type} (d : dict.t V) k k' (v : V) :
  dict.mem (dict.set d k' v) k = true -> k = k' \/ dict.mem d k = true.
Proof.
  destruct (String.eqb k' k) eqn:E.
  - apply String.eqb_eq in E. auto.
  - apply String.eqb_neq in E. unfold dict.mem.
    rewrite dict_get_set_other by exact E. auto.
Qed.

Lemma dict_mem_set_same {V : Type} (d : dict.t V) k (v : V) :
  dict.mem (dict.set d k v) k = true.
Proof. unfold dict.mem. now rewrite dict_get_set_same. Qed.

Lemma nth_error_grown {A : Type} (l : list A) r (x y : A) :
  nth_error l r = Some x -> nth_error (l ++ [y]) r = Some x.
Proof.
  intros H. rewrite nth_error_app1; [exact H|].
  apply nth_error_Some. congruence.
Qed.

Lemma nth_error_last {A : Type} (l : list A) (y : A) :
  nth_error (l ++ [y]) (length l) = Some y.
Proof. now rewrite nth_error_app2, Nat.sub_diag by lia. Qed.

Lemma _do_setup_line_keeps line self self' :
  _do_setup_line line self = (self', Ok tt) ->
  parsed_options_are_committed self ->
  list_options_are_tracked self ->
  parsed_options_are_committed self'
  /\ list_options_are_tracked self'
  /\ (forall x, In x (dict.keys (parsers self)) ->
                In x (dict.keys (parsers self')))
  /\ (forall name, option_line line name -> registered self' name).
Proof.
  intros Hrun Hinv Htr.
  destruct (_do_setup_line_commits line self self' Hrun)
    as [((Hc & Hp & Hh) & Hno)
       |[(Hp & Hno & hs & Hh & Hc)
        |(name & inst & Hname & Hp & Hkind)]].
  - rewrite Hc, Hp, Hh. repeat split; auto.
    intros name Hopt. destruct (Hno name Hopt).
  - rewrite Hp, Hc, Hh. split; [|split; [|split]]; auto.
    + intros k Hk. apply dict_mem_set_keep. auto.
    + intros k t Hk Hl.
      destruct (String.eqb "HiddenServices" k) eqn:E.
      * apply String.eqb_eq in E. subst k. eexists _, _.
        rewrite dict_get_set_same, nth_error_last. auto.
      * apply String.eqb_neq in E.
        destruct (Htr k t Hk Hl) as (r & w & Hget & Hnth & Hmod).
        exists r, w. rewrite dict_get_set_other by exact E.
        split; [exact Hget|]. split; [now apply nth_error_grown | exact Hmod].
    + intros name Hopt. destruct (Hno name Hopt).
  - set (rn := _find_real_name self name) in *.
    assert (Hrn : Py.lower rn = Py.lower name) by apply lower_find_real_name.
    assert (Hconf : exists w, config self' = dict.set (config self) rn w).
    { destruct Hkind as [(_ & _ & Hc)|(_ & _ & w & Hc)]; eauto. }
    destruct Hconf as (w0 & Hc0).
    split; [|split; [|split]].
    + intros k Hk. rewrite Hp in Hk. rewrite Hc0.
      apply dict_mem_set_inv in Hk as [->|Hk];
        [apply dict_mem_set_same | apply dict_mem_set_keep; auto].
    + intros k t Hk Hl. rewrite Hp in Hk.
      destruct (String.eqb rn k) eqn:E.
      * apply String.eqb_eq in E. subst k.
        rewrite dict_get_set_same in Hk. injection Hk as <-.
        destruct Hkind as [(_ & (xs & Hh) & Hc)|(Hnot & _)]; [|congruence].
        rewrite Hc, Hh. eexists _, _.
        rewrite dict_get_set_same, nth_error_last. auto.
      * apply String.eqb_neq in E.
        rewrite dict_get_set_other in Hk by exact E.
        destruct (Htr k t Hk Hl) as (r & w & Hget & Hnth & Hmod).
        exists r, w. rewrite Hc0, dict_get_set_other by exact E.
        split; [exact Hget|]. split; [|exact Hmod].
        destruct Hkind as [(_ & (xs & Hh) & _)|(_ & Hh & _)]; rewrite Hh;
          [now apply nth_error_grown | exact Hnth].
    + intros x Hx. apply dict_mem_keys. rewrite Hp.
      apply dict_mem_set_keep. now apply dict_mem_keys.
    + intros name' Hopt. rewrite (Hname name' Hopt).
      exists rn. split; [|exact Hrn].
      apply dict_mem_keys. rewrite Hp. apply dict_mem_set_same.
Qed.

Lemma _do_setup_lines_keeps lines self self' :
  _do_setup_lines lines self = (self', Ok tt) ->
  parsed_options_are_committed self ->
  list_options_are_tracked self ->
  parsed_options_are_committed self'
  /\ list_options_are_tracked self'
  /\ (forall x, In x (dict.keys (parsers self)) ->
                In x (dict.keys (parsers self')))
  /\ (forall line name, In line lines -> option_line line name ->
                        registered self' name).
Proof.
  revert self. induction lines as [|line rest IH]; intros self Hrun Hinv Htr.
  - injection Hrun as <-. repeat split; auto. intros line name [].
  - cbn [torconfig._do_setup_lines] in Hrun.
    destruct (_do_setup_line line self) as [self1 [[]|e]] eqn:Hline;
      [|discriminate Hrun].
    destruct (_do_setup_line_keeps line self self1 Hline Hinv Htr)
      as (Hinv1 & Htr1 & Hkeys1 & Hreg1).
    destruct (IH self1 Hrun Hinv1 Htr1) as (Hinv' & Htr' & Hkeys' & Hreg').
    split; [exact Hinv'|]. split; [exact Htr'|]. split; [auto|].
    intros line' name [<-|Hin] Hopt.
    + destruct (Hreg1 name Hopt) as (x & Hx & Hlow). exists x. auto.
    + eapply Hreg'; eauto.
Qed.

Lemma find_first_match {A : Type} (p : A -> bool) (l : list A) (x : A) :
  In x l -> p x = true -> exists y, find p l = Some y /\ In y l.
Proof.
  induction l as [|a l IH]; [intros []|]. intros [<-|Hin] Hp; simpl.
  - rewrite Hp. eauto.
  - destruct (p a) eqn:Ha; [eauto|].
    destruct (IH Hin Hp) as (y & Hy & Hiny). eauto.
Qed.

Lemma registered_real_name self name any_case :
  registered self name ->
  Py.lower any_case = Py.lower name ->
  dict.mem (parsers self) (_find_real_name self any_case) = true.
Proof.
  intros (x & Hx & Hxlow) Hlow. apply dict_mem_keys.
  unfold _find_real_name.
  destruct (find_first_match
              (fun y => String.eqb (Py.lower y) (Py.lower any_case))
              (dict.keys (parsers self)) x Hx)
    as (y & Hy & Hiny).
  { apply String.eqb_eq. congruence. }
  now rewrite (find_app_keep _ _ _ _ Hy).
Qed.

(** X25. After a bootstrap that returns, every option the reply to
    [GETINFO config/names] names (other than the hidden services and the
    [Dependant] ones) can be read, in any capitalisation of its name: it
    has a parser, and the read returns a value and changes nothing.  Every
    option that has a parser has a committed value. *)
Theorem bootstrapped_options_can_be_read data self self' :
  parsed_options_are_committed self ->
  list_options_are_tracked self ->
  _do_setup data self = (self', Ok tt) ->
  parsed_options_are_committed self'
  /\ forall line name any_case,
       In line (Py.split_on LF data) -> option_line line name ->
       Py.lower any_case = Py.lower name ->
       dict.mem (parsers self') (_find_real_name self' any_case) = true
       /\ exists v, __getattr__ self' any_case = (self', Ok v).
Proof.
  intros Hinv Htr Hrun. unfold torconfig._do_setup in Hrun.
  destruct (_do_setup_lines_keeps _ self self' Hrun Hinv Htr)
    as (Hinv' & _ & _ & Hreg).
  split; [exact Hinv'|]. intros line name any_case Hin Hopt Hlow.
  pose proof (registered_real_name self' name any_case
                (Hreg line name Hin Hopt) Hlow) as Hrn.
  split; [exact Hrn|].
  pose proof (Hinv' _ Hrn) as Hc.
  unfold __getattr__.
  destruct (if _slutty_ self' then _ else None) as [v|]; [eauto|].
  rewrite _maybe_create_listwrapper_committed by exact Hc.
  destruct (dict_mem_get _ _ Hc) as [v ->]. eauto.
Qed.

(** X26. List-valued options come out of the bootstrap change-tracked.
    After a bootstrap that returns, the committed value of every option
    whose parser is one of the list types is a [_ListWrapper], and an
    [append] through it leaves the config needing a save. *)
Theorem bootstrapped_lists_are_tracked data self self' :
  parsed_options_are_committed self ->
  list_options_are_tracked self ->
  _do_setup data self = (self', Ok tt) ->
  forall k t,
    dict.get (parsers self') k = Some t ->
    is_list_config_type t = true ->
    exists r,
      dict.get (config self') k = Some (VWrapper r)
      /\ forall list_call x,
           needs_save
             (fst (_ListWrapper_method list_call (append x) r self'))
           = true.
Proof.
  intros Hinv Htr Hrun k t Ht Hlist.
  unfold torconfig._do_setup in Hrun.
  destruct (_do_setup_lines_keeps _ self self' Hrun Hinv Htr)
    as (Hinv' & Htr' & _ & _).
  destruct (Htr' _ t Ht Hlist) as (r & w & Hget & Hnth & Hmod).
  exists r. split; [exact Hget|]. intros list_call x.
  eapply wraptured_method_needs_save; [reflexivity | exact Hnth |].
  rewrite Hmod. apply Hinv'.
  apply (registered_real_name self' k k); [|reflexivity].
  exists k. split; [|reflexivity].
  apply dict_mem_keys. eapply dict_get_mem; eauto.
Qed.

End BootstrapFacts.

Lemma bootstrapped_options_can_be_read_witness :
  let self' :=
    fst (torconfig._do_setup sample_str sample_float sample_get_conf ""
           sample_config_names (torconfig.__init__ true)) in
  dict.mem (torconfig.parsers self')
    (torconfig._find_real_name self' "socksport") = true
  /\ exists v, torconfig.__getattr__ self' "socksport" = (self', Ok v).
Proof.
  intros self'.
  assert (Hrun : torconfig._do_setup sample_str sample_float sample_get_conf ""
                   sample_config_names (torconfig.__init__ true)
                 = (self', Ok tt))
    by (subst self'; vm_compute; reflexivity).
  refine (proj2 (bootstrapped_options_can_be_read sample_str sample_float
                   sample_get_conf "" sample_config_names
                   (torconfig.__init__ true) self' _ _ Hrun)
            "SocksPort LineList" "SocksPort" "socksport" _ _ eq_refl).
  - intros k H. discriminate H.
  - intros k t H. discriminate H.
  - vm_compute. auto.
  - split; [discriminate|]. split; [discriminate|].
    exists "LineList". split; [reflexivity | discriminate].
Defined.

Lemma bootstrapped_lists_are_tracked_witness :
  let self' :=
    fst (torconfig._do_setup sample_str sample_float sample_get_conf ""
           sample_config_names (torconfig.__init__ true)) in
  exists r,
    dict.get (torconfig.config self') "SocksPort" = Some (torconfig.VWrapper r)
    /\ forall list_call x,
         torconfig.needs_save
           (fst (torconfig._ListWrapper_method list_call (torconfig.append x)
                   r self'))
         = true.
Proof.
  intros self'.
  assert (Hrun : torconfig._do_setup sample_str sample_float sample_get_conf ""
                   sample_config_names (torconfig.__init__ true)
                 = (self', Ok tt))
    by (subst self'; vm_compute; reflexivity).
  refine (bootstrapped_lists_are_tracked sample_str sample_float
            sample_get_conf "" sample_config_names (torconfig.__init__ true)
            self' _ _ Hrun "SocksPort" torconfig.LineList _ eq_refl).
  - intros k H. discriminate H.
  - intros k t H. discriminate H.
  - subst self'. vm_compute. reflexivity.
Defined.

Section Flags.
Import torstate.

Lemma flags_from_dict_true_only kw :
  flags_from_dict kw = flags_from_dict (filter snd kw).
Proof.
  induction kw as [|[k v] kw IH]; [reflexivity|].
  destruct v; cbn [flags_from_dict filter snd]; now rewrite IH.
Qed.

(** X27. Only the flags whose value is true are sent: [close_circuit] and
    [close_stream] queue the same command with and without the keyword
    arguments that are false, and with none that is true the command of
    [close_circuit] is [CLOSECIRCUIT id] and nothing more. *)
Theorem false_flags_are_not_sent circid stream reason kwargs self :
  close_circuit circid kwargs self
  = close_circuit circid (filter snd kwargs) self
  /\ close_stream stream reason kwargs self
     = close_stream stream reason (filter snd kwargs) self
  /\ (forallb (fun kv => negb (snd kv)) kwargs = true ->
      close_circuit circid kwargs self
      = queue_command self ("CLOSECIRCUIT " ++ Py.fmt_d (id_value circid))).
Proof.
  unfold close_circuit, close_stream.
  rewrite <- (flags_from_dict_true_only kwargs).
  split; [reflexivity|]. split; [reflexivity|].
  intros Hnone. rewrite (flags_from_dict_true_only kwargs).
  replace (filter snd kwargs) with (@nil (string * bool)).
  - cbn [flags_from_dict]. now rewrite append_nil_r.
  - induction kwargs as [|[k v] kw IH]; [reflexivity|].
    cbn [forallb snd] in Hnone. apply andb_prop in Hnone as [Hv Hkw].
    destruct v; [discriminate Hv|]. cbn [filter snd]. auto.
Qed.

End Flags.
